(** * LLMAnalysisStrategy: the model-assisted relevance analysis

    A shallow embedding of
    [packages/github-agent/src/services/analysis/strategies/LLMAnalysisStrategy.ts]
    and the properties its specification states about it.

    Conventions of the embedding.
    - A JavaScript [number] that holds a score is a binary64 float, Rocq's
      primitive [float]; arithmetic and comparisons are the IEEE-754 ones.
    - [batchSize], [maxFilesToAnalyze], indices and lengths are counts: [nat].
    - A JavaScript string is a [string]; the text is taken to be ASCII, so
      [toLowerCase] only moves [A-Z] and [length] counts characters.
    - An [async] function returns a [Completion]: fulfilled with a value or
      rejected with the error that was thrown, an [Error] with its message.
    - A loop that may not end takes a number of turns it may use, and its
      result is [None] when they do not suffice.
    - The collaborators that are not part of the strategy (the inference
      client, the file system, node's [path.join] and [path.relative], the
      regular-expression engine, and the two methods inherited from
      [BaseAnalysisStrategy]) are the fields of the class [Collaborators]. *)

From Stdlib Require Import List Bool Arith Lia ZArith String Ascii.
From Stdlib Require Import Permutation Sorted.
From Stdlib Require Import Floats Uint63.
Import ListNotations.

Set Implicit Arguments.
Set Warnings "-inexact-float".
Local Open Scope string_scope.
Local Open Scope list_scope.

(** ** Strings *)

Module Str.

Definition lowerChar (c : ascii) : ascii :=
  let n := nat_of_ascii c in
  if ((65 <=? n) && (n <=? 90))%nat then ascii_of_nat (n + 32) else c.

(** [s.toLowerCase()] *)
Fixpoint toLowerCase (s : string) : string :=
  match s with
  | EmptyString => EmptyString
  | String c s' => String (lowerChar c) (toLowerCase s')
  end.

(** [s.startsWith(t)] *)
Fixpoint startsWith (s t : string) {struct t} : bool :=
  match t, s with
  | EmptyString, _ => true
  | String _ _, EmptyString => false
  | String b t', String a s' => Ascii.eqb a b && startsWith s' t'
  end.

(** [s.includes(t)] *)
Fixpoint includes (s t : string) : bool :=
  startsWith s t ||
  match s with
  | EmptyString => false
  | String _ s' => includes s' t
  end.

(** [s.endsWith(t)] *)
Fixpoint endsWith (s t : string) : bool :=
  String.eqb s t ||
  match s with
  | EmptyString => false
  | String _ s' => endsWith s' t
  end.

(** [s.slice(from, to)] for [0 <= from] and [0 <= to]; also
    [s.substring(from, to)] when [from <= to]. *)
Definition slice (from to : nat) (s : string) : string :=
  String.substring from (to - from) s.

Definition isSlashAt (s : string) (i : nat) : bool :=
  match String.get i s with
  | Some c => Ascii.eqb c "/"
  | None => false
  end.

(** The loop of node's posix [path.dirname]: [i] runs from
    [path.length - 1] down to [1]; the result is [end], or [None] for -1. *)
Fixpoint dirnameScan (path : string) (i : nat) (matchedSlash : bool)
  : option nat :=
  match i with
  | O => None
  | S i' =>
      if isSlashAt path i then
        if negb matchedSlash then Some i
        else dirnameScan path i' matchedSlash
      else dirnameScan path i' false
  end.

(** [path.dirname(p)] (posix) *)
Definition dirname (path : string) : string :=
  if (String.length path =? 0)%nat then "."
  else
    let hasRoot := isSlashAt path 0 in
    match dirnameScan path (String.length path - 1) true with
    | None => if hasRoot then "/" else "."
    | Some e => if hasRoot && (e =? 1)%nat then "//" else slice 0 e path
    end.

(** The loop of node's posix [path.basename]: the call with [n] looks at
    index [n - 1]; it returns [start] and [end] ([None] for -1). *)
Fixpoint basenameScan (path : string) (n : nat) (matchedSlash : bool)
         (e : option nat) : nat * option nat :=
  match n with
  | O => (0, e)
  | S i =>
      if isSlashAt path i then
        if negb matchedSlash then (S i, e)
        else basenameScan path i matchedSlash e
      else
        match e with
        | None => basenameScan path i false (Some (S i))
        | Some _ => basenameScan path i matchedSlash e
        end
  end.

(** [path.basename(p)] (posix) *)
Definition basename (path : string) : string :=
  match basenameScan path (String.length path) true None with
  | (_, None) => ""
  | (start, Some e) => slice start e path
  end.

(** Truthiness of a string: the empty string is falsy. *)
Definition truthy (s : string) : bool :=
  negb (String.length s =? 0)%nat.

(** [o || d] for an optional string [o]. *)
Definition orElse (o : option string) (d : string) : string :=
  match o with
  | Some s => if truthy s then s else d
  | None => d
  end.

End Str.

(** ** Numbers *)

Module Num.

Local Open Scope float_scope.

(** The number that holds a count. *)
Definition ofNat (n : nat) : float :=
  PrimFloat.of_uint63 (Uint63.of_Z (Z.of_nat n)).

Definition isNegZero (x : float) : bool :=
  (x =? 0) && PrimFloat.get_sign x.

(** [Math.min(x, y)]: NaN if an argument is, and -0 below +0. *)
Definition min (x y : float) : float :=
  if PrimFloat.is_nan x then x
  else if PrimFloat.is_nan y then y
  else if x <? y then x
  else if y <? x then y
  else if isNegZero x then x else y.

(** [Math.max(x, y)] *)
Definition max (x y : float) : float :=
  if PrimFloat.is_nan x then x
  else if PrimFloat.is_nan y then y
  else if x <? y then y
  else if y <? x then x
  else if isNegZero x then y else x.

(** [x || 0] for a number that may be missing. *)
Definition orZero (o : option float) : float :=
  match o with
  | Some x => if PrimFloat.is_nan x || (x =? 0) then 0 else x
  | None => 0
  end.

End Num.

(** ** Regular expressions

    The literals of the source use four shapes only; [test] is
    [RegExp.prototype.test] on them. *)

Inductive RegExp :=
| Lit (lit : string)
    (** [/lit/] *)
| Alt (pre : string) (alts : list string) (post : string)
    (** [/pre(a|b|...)post/] *)
| AltEnd (pre : string) (alts : list string)
    (** [/pre(a|b|...)$/] *)
| AltEndI (pre : string) (alts : list string)
    (** [/pre(a|b|...)$/i] *).

Definition test (r : RegExp) (s : string) : bool :=
  match r with
  | Lit lit => Str.includes s lit
  | Alt pre alts post =>
      existsb (fun a => Str.includes s (pre ++ a ++ post)) alts
  | AltEnd pre alts =>
      existsb (fun a => Str.endsWith s (pre ++ a)) alts
  | AltEndI pre alts =>
      existsb (fun a => Str.endsWith (Str.toLowerCase s)
                          (Str.toLowerCase (pre ++ a))) alts
  end.

(** [patterns.some(pattern => pattern.test(s))] *)
Definition someTest (patterns : list RegExp) (s : string) : bool :=
  existsb (fun pattern => test pattern s) patterns.

(** ** Keywords *)

Record SearchKeywords := {
  primary : list string;
  secondary : list string;
  technical : list string;
  contextual : list string
}.


(** ** Arrays and maps *)

Module Arr.

Section Ops.
Context {A : Type}.

(** [a.slice(from, to)] for [0 <= from] and [0 <= to] *)
Definition slice (from to : nat) (a : list A) : list A :=
  firstn (to - from) (skipn from a).

(** [a.push(x)] *)
Definition push (a : list A) (x : A) : list A := a ++ [x].

(** [a.sort(compareFn)]: the sort is stable, and an element moves
    behind another one only when [compareFn] is positive on them (a NaN
    counts as 0). *)
Fixpoint insert (compareFn : A -> A -> float) (x : A) (a : list A)
  : list A :=
  match a with
  | [] => [x]
  | y :: a' =>
      if (0 <? compareFn x y)%float then y :: insert compareFn x a'
      else x :: a
  end.

Fixpoint sort (compareFn : A -> A -> float) (a : list A) : list A :=
  match a with
  | [] => []
  | x :: a' => insert compareFn x (sort compareFn a')
  end.
End Ops.

End Arr.

(** [Map<string, V>]: the entries in insertion order. *)
Module JsMap.

Section Ops.
Context {V : Type}.

Definition t := list (string * V).

Definition empty : t := [].

(** [m.set(k, v)]: a key that is present keeps its place. *)
Fixpoint set (m : t) (k : string) (v : V) : t :=
  match m with
  | [] => [(k, v)]
  | (k', v') :: m' =>
      if String.eqb k' k then (k', v) :: m' else (k', v') :: set m' k v
  end.

(** [m.get(k)] *)
Fixpoint get (m : t) (k : string) : option V :=
  match m with
  | [] => None
  | (k', v') :: m' => if String.eqb k' k then Some v' else get m' k
  end.

(** [Array.from(m.entries())] *)
Definition entries (m : t) : list (string * V) := m.
End Ops.

End JsMap.

(** ** Completions of asynchronous calls *)

Record Error := { message : string }.

Inductive Completion (A : Type) :=
| Fulfilled (a : A)
| Rejected (e : Error).

Arguments Fulfilled {A} a.
Arguments Rejected {A} e.

Definition bind {A B} (c : Completion A) (k : A -> Completion B)
  : Completion B :=
  match c with
  | Fulfilled a => k a
  | Rejected e => Rejected e
  end.

Notation "x <- c ;; k" := (bind c (fun x => k))
  (at level 61, c at next level, right associativity).

(** [try { return await c } catch (error) { return h(error) }] *)
Definition tryCatch {A} (c : Completion A) (h : Error -> A) : A :=
  match c with
  | Fulfilled a => a
  | Rejected e => h e
  end.

(** [await Promise.all(ps)]: the values in order, or the first rejection. *)
Fixpoint Promise_all {A} (ps : list (Completion A)) : Completion (list A) :=
  match ps with
  | [] => Fulfilled []
  | p :: ps' => a <- p ;; r <- Promise_all ps' ;; Fulfilled (a :: r)
  end.

(** ** The data of an analysis *)

Record GitHubIssue := {
  title : string;
  body : option string
}.

(** The judgment of the inference client on one file. *)
Record CodeRelevance := {
  is_relevant : bool;
  relevance_score : float;
  reason : string
}.

Record Position := { row : nat; column : nat }.

Record Symbol := {
  name : string;
  qualifiedName : string;
  kind : Z;
  filePath : string;
  position_start : Position;
  comment : option string
}.

Record AnalysisContext := {
  issue : GitHubIssue;
  workspacePath : string;
  filteredFiles : list string;
  symbolAnalysis : option (list Symbol)
}.

(** An entry of [AnalysisResult['files']]; a candidate has no reason. *)
Record FileEntry := {
  path : string;
  content : string;
  relevanceScore : float;
  file_reason : option string
}.

Record Location := { file : string; line : nat; loc_column : nat }.

Record SymbolEntry := {
  sym_name : string;
  type : string;
  location : Location;
  sym_description : string
}.

Record ApiEntry := {
  api_path : string;
  method : string;
  description : string
}.

Record AnalysisResult := {
  files : list FileEntry;
  symbols : list SymbolEntry;
  apis : list ApiEntry
}.

(** ** The collaborators of the strategy *)

Class Collaborators := {
  (** [LLMService.analyzeCodeRelevance(issue, filePath, content)] *)
  analyzeCodeRelevance :
    GitHubIssue -> string -> string -> Completion CodeRelevance;
  (** [fs.promises.readFile(filePath, 'utf-8')] *)
  readFile : string -> Completion string;
  (** [path.join(a, b)] and [path.relative(from, to)] *)
  path_join : string -> string -> string;
  path_relative : string -> string -> string;
  (** [(subject.match(new RegExp(source, 'g')) || []).length]; the
      constructor throws on a source that is no pattern. *)
  matchCount : string -> string -> Completion nat;
  (** [BaseAnalysisStrategy.calculateSymbolRelevance(symbol, keywords)] *)
  calculateSymbolRelevance : Symbol -> SearchKeywords -> float;
  (** [BaseAnalysisStrategy.calculateConfidence(result)] *)
  baseCalculateConfidence : AnalysisResult -> float
}.

(** ** The strategy *)

Record Options := {
  opt_batchSize : option nat;
  opt_maxFilesToAnalyze : option nat
}.

Record LLMAnalysisStrategy := {
  batchSize : nat;
  maxFilesToAnalyze : nat
}.

(** [n || d] for a count that may be missing. *)
Definition countOr (o : option nat) (d : nat) : nat :=
  match o with
  | Some (S n) => S n
  | _ => d
  end.

(** The constructor. *)
Definition new_LLMAnalysisStrategy (options : Options) : LLMAnalysisStrategy :=
  {| batchSize := countOr (opt_batchSize options) 3;
     maxFilesToAnalyze := countOr (opt_maxFilesToAnalyze options) 8 |}.

Section Scoring.

Local Open Scope float_scope.

Definition codeFilePatterns : list RegExp :=
  [ AltEnd "." ["ts"; "js"; "tsx"; "jsx"; "py"; "java"; "cpp"; "c"; "h";
                "cs"; "php"; "rb"; "go"; "rs"; "kt"; "swift"];
    AltEnd "." ["json"; "yaml"; "yml"; "toml"; "xml"; "config"];
    AltEndI "." ["md"; "txt"; "rst"] ].

Definition importantFilePatterns : list RegExp :=
  [ Lit "index."; Lit "main."; Lit "app."; Lit "server."; Lit "client.";
    Lit "api."; AltEnd "package.json" [""]; AltEndI "readme.md" [""];
    Lit "config."; Lit "setup."; Lit "init." ].

Definition importantDirPatterns : list RegExp :=
  [ Alt "/" ["src"; "lib"; "core"; "api"; "routes"; "controllers";
             "services"; "components"; "utils"; "helpers"; "models";
             "types"; "interfaces"] "/";
    Alt "/" ["test"; "tests"; "spec"; "specs"] "/";
    Alt "/" ["config"; "configs"; "settings"] "/" ].

Definition excludePatterns : list RegExp :=
  [ Lit "node_modules"; Lit ".git"; Lit "dist"; Lit "build";
    Lit "coverage"; Lit ".next"; Lit ".nuxt"; Lit "vendor"; Lit "target";
    Lit "bin"; Lit "obj"; Lit ".vscode"; Lit ".idea";
    AltEnd "." ["log"; "tmp"; "cache"; "lock"];
    AltEnd "." ["png"; "jpg"; "jpeg"; "gif"; "svg"; "ico"; "woff"; "woff2";
                "ttf"; "eot"] ].

(** One of the first two keyword loops: [inName] when the file name
    includes the keyword, else [inDir] when the directory name does. *)
Definition scoreNameOrDir (fileName dirName : string) (inName inDir : float)
           (keywords : list string) (score : float) : float :=
  fold_left
    (fun score keyword =>
       let keywordLower := Str.toLowerCase keyword in
       if Str.includes fileName keywordLower then score + inName
       else if Str.includes dirName keywordLower then score + inDir
       else score)
    keywords score.

(** One of the last two keyword loops. *)
Definition scoreFullPath (fullPath : string) (weight : float)
           (keywords : list string) (score : float) : float :=
  fold_left
    (fun score keyword =>
       let keywordLower := Str.toLowerCase keyword in
       if Str.includes fullPath keywordLower then score + weight
       else score)
    keywords score.

(** The body of [calculateFilePathScore], with the list of the exclusion
    patterns as an argument. *)
Definition calculateFilePathScoreWith (excludePatterns : list RegExp)
           (filePath : string) (keywords : SearchKeywords) : float :=
  let score := 0 in
  let fileName := Str.toLowerCase (Str.basename filePath) in
  let dirName := Str.toLowerCase (Str.dirname filePath) in
  let fullPath := Str.toLowerCase filePath in
  let score := scoreNameOrDir fileName dirName 3 1.5 (primary keywords) score in
  let score := scoreNameOrDir fileName dirName 2 1 (secondary keywords) score in
  let score := scoreFullPath fullPath 1 (technical keywords) score in
  let score := scoreFullPath fullPath 0.5 (contextual keywords) score in
  let score := if someTest codeFilePatterns filePath then score + 1 else score in
  let score := if someTest importantFilePatterns filePath then score + 1.5 else score in
  let score := if someTest importantDirPatterns filePath then score + 0.8 else score in
  let score := if someTest excludePatterns filePath then score * 0.1 else score in
  score.

Definition calculateFilePathScore : string -> SearchKeywords -> float :=
  calculateFilePathScoreWith excludePatterns.

(** The score of a path when nothing is excluded. *)
Definition unpenalizedFilePathScore : string -> SearchKeywords -> float :=
  calculateFilePathScoreWith [].

Context `{Collaborators}.

Definition allKeywords (keywords : SearchKeywords) : list string :=
  primary keywords ++ secondary keywords ++ technical keywords
    ++ contextual keywords.

(** The loop of [calculateContentScore]. *)
Fixpoint contentScoreLoop (contentLower : string) (keywords : list string)
         (score : float) : Completion float :=
  match keywords with
  | [] => Fulfilled score
  | keyword :: rest =>
      let keywordLower := Str.toLowerCase keyword in
      matches <- matchCount keywordLower contentLower ;;
      contentScoreLoop contentLower rest
        (score + Num.min (Num.ofNat matches * 0.1) 2)
  end.

Definition calculateContentScore (content : string)
           (keywords : SearchKeywords) : Completion float :=
  let contentLower := Str.toLowerCase content in
  score <- contentScoreLoop contentLower (allKeywords keywords) 0 ;;
  Fulfilled (score / Num.max (Num.ofNat (String.length content) / 1000) 1).

(** [loadFileContent]: the content, or [None] for [null]. *)
Definition loadFileContent (filePath : string) : option string :=
  tryCatch (content <- readFile filePath ;; Fulfilled (Some content))
           (fun _ => None).

End Scoring.

Section Strategy.

Local Open Scope float_scope.

Context `{Collaborators}.
Variable this : LLMAnalysisStrategy.

(** *** [findCandidateFiles] *)

(** First pass: the map of the path scores above the threshold. *)
Definition scorePaths (context : AnalysisContext) (keywords : SearchKeywords)
  : JsMap.t (V := float) :=
  fold_left
    (fun fileScores file =>
       let score := calculateFilePathScore file keywords in
       if 0.3 <? score then JsMap.set fileScores file score else fileScores)
    (filteredFiles context) JsMap.empty.

(** The paths whose content is loaded. *)
Definition topCandidates (context : AnalysisContext)
           (keywords : SearchKeywords) : list string :=
  map fst
    (Arr.slice 0 (maxFilesToAnalyze this * 2)
       (Arr.sort (fun a b => snd b - snd a)
          (JsMap.entries (scorePaths context keywords)))).

(** The body of the [try] of the second pass: the entry to push, if any. *)
Definition candidateOf (context : AnalysisContext) (keywords : SearchKeywords)
           (fileScores : JsMap.t (V := float)) (file : string)
  : Completion (option FileEntry) :=
  match loadFileContent (path_join (workspacePath context) file) with
  | Some content =>
      if Str.truthy content then
        let pathScore := Num.orZero (JsMap.get fileScores file) in
        contentScore <- calculateContentScore content keywords ;;
        let finalScore := pathScore + contentScore in
        if 0.5 <? finalScore then
          Fulfilled (Some {| path := file;
                             content := Str.slice 0 4000 content;
                             relevanceScore := Num.min (finalScore / 10) 1;
                             file_reason := None |})
        else Fulfilled None
      else Fulfilled None
  | None => Fulfilled None
  end.

(** Second pass: a file whose [try] throws is skipped. *)
Definition loadCandidates (context : AnalysisContext)
           (keywords : SearchKeywords) (fileScores : JsMap.t (V := float))
           (files : list string) : list FileEntry :=
  fold_left
    (fun candidates file =>
       match tryCatch (candidateOf context keywords fileScores file)
                      (fun _ => None) with
       | Some candidate => Arr.push candidates candidate
       | None => candidates
       end)
    files [].

Definition byRelevanceScore (a b : FileEntry) : float :=
  relevanceScore b - relevanceScore a.

Definition findCandidateFiles (context : AnalysisContext)
           (keywords : SearchKeywords) : list FileEntry :=
  let fileScores := scorePaths context keywords in
  let candidates :=
    loadCandidates context keywords fileScores
      (topCandidates context keywords) in
  Arr.sort byRelevanceScore candidates.

(** *** [findRelevantFiles] *)

(** The asynchronous function mapped over a batch. *)
Definition analyzeFile (context : AnalysisContext) (file : FileEntry)
  : Completion (FileEntry * option CodeRelevance) :=
  Fulfilled
    (tryCatch
       (llmAnalysis <- analyzeCodeRelevance (issue context) (path file)
                         (content file) ;;
        Fulfilled (file, Some llmAnalysis))
       (fun error => (file, None))).

(** The body of the loop over the results of a batch. *)
Definition collect (llmAnalyzedFiles : list FileEntry)
           (result : FileEntry * option CodeRelevance) : list FileEntry :=
  let (file, llmAnalysis) := result in
  match llmAnalysis with
  | Some llmAnalysis =>
      if is_relevant llmAnalysis then
        Arr.push llmAnalyzedFiles
          {| path := path file;
             content := content file;
             relevanceScore := relevance_score llmAnalysis;
             file_reason := Some (reason llmAnalysis) |}
      else llmAnalyzedFiles
  | None => Arr.push llmAnalyzedFiles file
  end.

(** One turn of the loop over the batches. *)
Definition processBatch (context : AnalysisContext) (batch : list FileEntry)
           (llmAnalyzedFiles : list FileEntry) : Completion (list FileEntry) :=
  batchResults <- Promise_all (map (analyzeFile context) batch) ;;
  Fulfilled (fold_left collect batchResults llmAnalyzedFiles).

(** The loop [for (let i = 0; i < filesToAnalyze.length; i += batchSize)];
    [None] when the turns allowed by [fuel] do not reach its end. *)
Fixpoint batchLoop (fuel : nat) (context : AnalysisContext)
         (filesToAnalyze : list FileEntry) (i : nat)
         (llmAnalyzedFiles : list FileEntry)
  : option (Completion (list FileEntry)) :=
  if (i <? List.length filesToAnalyze)%nat then
    match fuel with
    | O => None
    | S fuel' =>
        let batch := Arr.slice i (i + batchSize this) filesToAnalyze in
        match processBatch context batch llmAnalyzedFiles with
        | Fulfilled llmAnalyzedFiles' =>
            batchLoop fuel' context filesToAnalyze (i + batchSize this)
              llmAnalyzedFiles'
        | Rejected e => Some (Rejected e)
        end
    end
  else Some (Fulfilled llmAnalyzedFiles).

(** The files the inference client is asked about. *)
Definition filesToAnalyze (context : AnalysisContext)
           (keywords : SearchKeywords) : list FileEntry :=
  Arr.slice 0 (maxFilesToAnalyze this) (findCandidateFiles context keywords).

(** [llmAnalyzedFiles] when the loop over the batches has ended. *)
Definition analyzeBatches (fuel : nat) (context : AnalysisContext)
           (keywords : SearchKeywords)
  : option (Completion (list FileEntry)) :=
  batchLoop fuel context (filesToAnalyze context keywords) 0 [].

Definition findRelevantFilesFuel (fuel : nat) (context : AnalysisContext)
           (keywords : SearchKeywords)
  : option (Completion (list FileEntry)) :=
  let candidateFiles := findCandidateFiles context keywords in
  match analyzeBatches fuel context keywords with
  | None => None
  | Some (Rejected e) => Some (Rejected e)
  | Some (Fulfilled llmAnalyzedFiles) =>
      if (List.length llmAnalyzedFiles =? 0)%nat then
        Some (Fulfilled (Arr.slice 0 5 candidateFiles))
      else
        Some (Fulfilled
                (Arr.slice 0 10 (Arr.sort byRelevanceScore llmAnalyzedFiles)))
  end.

(** The loop takes at most one turn per file to analyze. *)
Definition findRelevantFiles (context : AnalysisContext)
           (keywords : SearchKeywords)
  : option (Completion (list FileEntry)) :=
  findRelevantFilesFuel (List.length (filesToAnalyze context keywords))
    context keywords.

(** *** Symbols and APIs *)

Definition kindMap : list (Z * string) :=
  [ (1, "File"); (2, "Module"); (3, "Namespace"); (4, "Package");
    (5, "Class"); (6, "Method"); (7, "Property"); (8, "Field");
    (9, "Constructor"); (10, "Enum"); (11, "Interface"); (12, "Function");
    (13, "Variable"); (14, "Constant"); (15, "String"); (16, "Number");
    (17, "Boolean"); (18, "Array"); (19, "Object"); (20, "Key");
    (21, "Null"); (22, "EnumMember"); (23, "Struct"); (24, "Event");
    (25, "Operator"); (26, "TypeParameter") ]%Z.

Definition getSymbolKindName (kind : Z) : string :=
  Str.orElse
    (option_map snd (find (fun entry => Z.eqb (fst entry) kind) kindMap))
    "Unknown".

Definition toSymbolEntry (context : AnalysisContext) (symbol : Symbol)
  : SymbolEntry :=
  {| sym_name := name symbol;
     type := getSymbolKindName (kind symbol);
     location :=
       {| file := path_relative (workspacePath context) (filePath symbol);
          line := row (position_start symbol);
          loc_column := column (position_start symbol) |};
     sym_description := Str.orElse (comment symbol) (qualifiedName symbol) |}.

Definition findRelevantSymbols (context : AnalysisContext)
           (keywords : SearchKeywords) : list SymbolEntry :=
  match symbolAnalysis context with
  | None => []
  | Some symbols =>
      let relevantSymbols :=
        fold_left
          (fun relevantSymbols symbol =>
             let relevanceScore := calculateSymbolRelevance symbol keywords in
             if 0.5 <? relevanceScore then
               Arr.push relevantSymbols (toSymbolEntry context symbol)
             else relevantSymbols)
          symbols [] in
      Arr.slice 0 10 relevantSymbols
  end.

Definition httpMethods : list string :=
  ["get"; "post"; "put"; "delete"; "patch"; "head"; "options"]%string.

(** [method.toUpperCase()] on the verbs. *)
Definition upperChar (c : ascii) : ascii :=
  let n := nat_of_ascii c in
  if ((97 <=? n) && (n <=? 122))%nat then ascii_of_nat (n - 32) else c.

Fixpoint toUpperCase (s : string) : string :=
  match s with
  | EmptyString => EmptyString
  | String c s' => String (upperChar c) (toUpperCase s')
  end.

(** [extractHttpMethod]: [None] for [null]. *)
Definition extractHttpMethod (symbol : Symbol) : option string :=
  let text :=
    Str.toLowerCase (name symbol ++ " " ++ qualifiedName symbol)%string in
  option_map toUpperCase (find (fun method => Str.includes text method) httpMethods).

Definition apiTerms : list string :=
  ["controller"; "route"; "endpoint"; "api"; "handler"; "service";
   "get"; "post"; "put"; "delete"; "patch"; "head"; "options"]%string.

Definition symbolText (symbol : Symbol) : string :=
  Str.toLowerCase
    (name symbol ++ " " ++ qualifiedName symbol ++ " "
       ++ Str.orElse (comment symbol) "")%string.

Definition isApiRelated (symbol : Symbol) : bool :=
  existsb (fun term => Str.includes (symbolText symbol) term) apiTerms.

Definition toApiEntry (context : AnalysisContext) (symbol : Symbol)
  : ApiEntry :=
  {| api_path := path_relative (workspacePath context) (filePath symbol);
     method := Str.orElse (extractHttpMethod symbol) "UNKNOWN";
     description := Str.orElse (comment symbol) (qualifiedName symbol) |}.

Definition findRelevantApis (context : AnalysisContext)
           (keywords : SearchKeywords) : list ApiEntry :=
  match symbolAnalysis context with
  | None => []
  | Some symbols =>
      let relevantApis :=
        fold_left
          (fun relevantApis symbol =>
             if isApiRelated symbol then
               let relevanceScore :=
                 calculateSymbolRelevance symbol keywords in
               if 0.3 <? relevanceScore then
                 Arr.push relevantApis (toApiEntry context symbol)
               else relevantApis
             else relevantApis)
          symbols [] in
      Arr.slice 0 8 relevantApis
  end.

(** *** [calculateConfidence] *)

(** [f.reason] as a condition. *)
Definition hasReason (f : FileEntry) : bool :=
  match file_reason f with
  | Some r => Str.truthy r
  | None => false
  end.

Definition calculateConfidence (result : AnalysisResult) : float :=
  let baseConfidence := baseCalculateConfidence result in
  let hasReasons := existsb hasReason (files result) in
  let reasonBonus := if hasReasons then 0.2 else 0 in
  Num.min (baseConfidence + reasonBonus) 1.

End Strategy.

(** ** Notions the properties are stated with *)

(** Every entry of a map satisfies [P]. *)
Definition allEntries {V : Type} (P : string -> V -> Prop)
           (m : JsMap.t (V := V)) : Prop :=
  forall k v, In (k, v) m -> P k v.

(** The symbol with another comment. *)
Definition withComment (c : option string) (symbol : Symbol) : Symbol :=
  {| name := name symbol;
     qualifiedName := qualifiedName symbol;
     kind := kind symbol;
     filePath := filePath symbol;
     position_start := position_start symbol;
     comment := c |}.

(** The entry with an empty reason. *)
Definition withoutReason (f : FileEntry) : FileEntry :=
  {| path := path f;
     content := content f;
     relevanceScore := relevanceScore f;
     file_reason := Some "" |}.

(** The result with all reasons empty. *)
Definition withoutReasons (result : AnalysisResult) : AnalysisResult :=
  {| files := map withoutReason (files result);
     symbols := symbols result;
     apis := apis result |}.

(** A float that is not below zero: a zero of either sign, a positive
    finite float or the positive infinity. *)
Definition SFnonneg (x : spec_float) : bool :=
  match x with
  | S754_zero _ => true
  | S754_infinity s => negb s
  | S754_nan => false
  | S754_finite s _ _ => negb s
  end.

Definition nonneg (x : float) : bool := SFnonneg (Prim2SF x).

Definition fexp64 (e : Z) : Z := SpecFloat.fexp prec emax e.

(** The exponent [shr_fexp] brings the mantissa [m] at exponent [e] to. *)
Definition target (m e : Z) : Z :=
  (e + Z.max (fexp64 (Zdigits2 m + e) - e) 0)%Z.

Section Notions.

Local Open Scope float_scope.

Context `{Collaborators}.
Variable this : LLMAnalysisStrategy.
Variable context : AnalysisContext.
Variable keywords : SearchKeywords.

(** What an entry of [fileScores] says. *)
Definition scored (file : string) (score : float) : Prop :=
  In file (filteredFiles context)
  /\ score = calculateFilePathScore file keywords
  /\ (0.3 <? score) = true.

(** What the asynchronous function settles to for a file. *)
Definition judgment (file : FileEntry) : FileEntry * option CodeRelevance :=
  tryCatch
    (llmAnalysis <- analyzeCodeRelevance (issue context) (path file)
                      (content file) ;;
     Fulfilled (file, Some llmAnalysis))
    (fun error => (file, None)).

(** What a file adds to [llmAnalyzedFiles]. *)
Definition retained (file : FileEntry) : list FileEntry :=
  collect [] (judgment file).

(** [llmAnalyzedFiles] at the end of the loop of [findRelevantFiles]. *)
Definition llmAnalyzedFiles : option (Completion (list FileEntry)) :=
  analyzeBatches this
    (List.length (filesToAnalyze this context keywords)) context keywords.

(** The test of [findRelevantSymbols] on a symbol. *)
Definition symbolKept (symbol : Symbol) : bool :=
  0.5 <? calculateSymbolRelevance symbol keywords.

(** The test of [findRelevantApis] on a symbol. *)
Definition apiKept (symbol : Symbol) : bool :=
  isApiRelated symbol && (0.3 <? calculateSymbolRelevance symbol keywords).

(** The relevance score of an entry lies in [0, 1]. *)
Definition scoreInRange (entry : FileEntry) : Prop :=
  (0 <=? relevanceScore entry) = true /\ (relevanceScore entry <=? 1) = true.

End Notions.

(** ** A concrete workspace

    Collaborators to run the strategy on: a file system with one readable
    content, a pattern engine for sources without metacharacters, and an
    inference client given as an argument. *)

Module Example.

Local Open Scope float_scope.

(** The matches of [t] in [s], from left to right and without overlap. *)
Fixpoint countMatches (skip : nat) (s t : string) : nat :=
  match s with
  | EmptyString =>
      match skip with
      | O => if Str.startsWith s t then 1 else 0
      | S _ => 0
      end
  | String _ s' =>
      match skip with
      | S k => countMatches k s' t
      | O =>
          if Str.startsWith s t
          then S (countMatches (String.length t - 1) s' t)
          else countMatches 0 s' t
      end
  end.

Definition sourceText : string :=
  "export class UserService { getUser(id) { return null; } }".

Definition world
           (llm : GitHubIssue -> string -> string -> Completion CodeRelevance)
  : Collaborators :=
  {| analyzeCodeRelevance := llm;
     readFile := fun filePath =>
       if Str.endsWith filePath "missing.ts"
       then Rejected {| message := "ENOENT" |}
       else Fulfilled sourceText;
     path_join := fun a b => (a ++ "/" ++ b)%string;
     path_relative := fun from to =>
       if Str.startsWith to (from ++ "/")%string
       then Str.slice (String.length from + 1) (String.length to) to
       else to;
     matchCount := fun source subject =>
       Fulfilled (countMatches 0 subject source);
     calculateSymbolRelevance := fun symbol keywords =>
       if existsb
            (fun keyword =>
               Str.includes (Str.toLowerCase (name symbol))
                 (Str.toLowerCase keyword))
            (primary keywords)
       then 1 else 0;
     baseCalculateConfidence := fun result =>
       match files result with
       | [] => 0
       | _ :: _ => 0.6
       end |}.

(** An inference client that is down. *)
Definition llmDown : GitHubIssue -> string -> string -> Completion CodeRelevance :=
  fun _ _ _ => Rejected {| message := "503" |}.

(** An inference client that finds nothing relevant. *)
Definition llmNo : GitHubIssue -> string -> string -> Completion CodeRelevance :=
  fun _ _ _ =>
    Fulfilled {| is_relevant := false; relevance_score := 0.1;
                 reason := "unrelated" |}.

Definition keywords : SearchKeywords :=
  {| primary := ["UserService"; "getUser"]; secondary := [];
     technical := []; contextual := [] |}.

Definition mkSymbol (n c : string) : Symbol :=
  {| name := n; qualifiedName := ("UserController." ++ n)%string;
     kind := 6%Z; filePath := "/repo/src/api/UserController.ts";
     position_start := {| row := 10; column := 2 |};
     comment := Some c |}.

Definition getUserController : Symbol :=
  mkSymbol "getUserController" "GET /users/:id".

(** Eight handlers ahead of [getUserController]. *)
Definition crowded : list Symbol :=
  map (fun n => mkSymbol n "handler of the user API")
      ["getUserA"; "getUserB"; "getUserC"; "getUserD";
       "getUserE"; "getUserF"; "getUserG"; "getUserH"]
    ++ [getUserController].

Definition context (symbols : option (list Symbol)) : AnalysisContext :=
  {| issue := {| title := "NullPointerException in UserService.getUser";
                 body := None |};
     workspacePath := "/repo";
     filteredFiles :=
       ["src/services/UserService.ts"; "src/utils/logger.ts";
        "dist/UserService.js"; "src/services/UserService.ts"];
     symbolAnalysis := symbols |}.

Definition defaults : LLMAnalysisStrategy :=
  new_LLMAnalysisStrategy
    {| opt_batchSize := None; opt_maxFilesToAnalyze := None |}.

(** The first candidate of [context] under [keywords]. *)
Definition topEntry : FileEntry :=
  {| path := "src/services/UserService.ts";
     content := sourceText;
     relevanceScore := 0.5;
     file_reason := None |}.

(** A result with a reason on its file. *)
Definition explained : AnalysisResult :=
  {| files :=
       [ {| path := "src/services/UserService.ts";
            content := sourceText;
            relevanceScore := 0.9;
            file_reason := Some "defines getUser" |} ];
     symbols := [];
     apis := [] |}.

(** A handler with the verb in its comment only. *)
Definition listUsers : Symbol := mkSymbol "listUsers" "GET /users".

(** The workspace with the inference client down, and with the one that
    finds nothing relevant. *)
Definition down : Collaborators := world llmDown.
Definition quiet : Collaborators := world llmNo.

End Example.

(** ** Keyword generation

    [generateKeywords] and the extractors it falls back on. Their
    collaborators: the
    inference client, the regular-expression engine on the pattern literals
    of the two extractors, and the two extractors inherited from
    [BaseAnalysisStrategy]. *)

(** The answer of the inference client on an issue. *)
Record KeywordAnalysis := {
  primary_keywords : list string;
  component_names : list string;
  technical_terms : list string;
  error_patterns : list string;
  file_patterns : list string;
  search_strategies : list string
}.

(** The pattern literals of [extractSecondaryKeywords] (the first three)
    and of [extractContextualKeywords], all with the flag [g]. *)
Inductive KeywordPattern :=
| CamelCase
| SnakeCase
| PascalCase
| DoubleQuoted
| SingleQuoted
| Backticked
| VersionNumber
| Constant
| ErrorMessage
| FailureMessage.

Class KeywordCollaborators := {
  (** [LLMService.analyzeIssueForKeywords(issue)] *)
  analyzeIssueForKeywords : GitHubIssue -> Completion KeywordAnalysis;
  (** [text.match(pattern) || []] *)
  matchAll : KeywordPattern -> string -> list string;
  (** [BaseAnalysisStrategy.extractPrimaryKeywords(text)] and
      [BaseAnalysisStrategy.extractTechnicalTerms(text)] *)
  extractPrimaryKeywords : string -> list string;
  extractTechnicalTerms : string -> list string
}.

(** [Set<string>]: the elements in insertion order. *)
Module JsSet.

Definition has (s : list string) (x : string) : bool :=
  existsb (String.eqb x) s.

(** [s.add(x)] *)
Definition add (s : list string) (x : string) : list string :=
  if has s x then s else s ++ [x].

(** [new Set(a)] *)
Definition ofArray (a : list string) : list string :=
  fold_left add a [].

End JsSet.

Section Keywords.

Context `{KeywordCollaborators}.

Definition secondaryPatterns : list KeywordPattern :=
  [CamelCase; SnakeCase; PascalCase].

Definition contextualPatterns : list KeywordPattern :=
  [DoubleQuoted; SingleQuoted; Backticked; VersionNumber; Constant;
   ErrorMessage; FailureMessage].

(** The loop [patterns.forEach] of the two extractors, with what is done
    to a match as an argument. *)
Definition collectMatches (patterns : list KeywordPattern)
           (each : string -> string) (text : string) : list string :=
  fold_left
    (fun matches pattern => matches ++ map each (matchAll pattern text))
    patterns [].

Definition extractSecondaryKeywords (text : string) : list string :=
  let matches := collectMatches secondaryPatterns (fun m => m) text in
  Arr.slice 0 15 (JsSet.ofArray matches).

(** The characters of the class of the [replace] of
    [extractContextualKeywords]: the three quotes and the space. *)
Definition isQuoteOrSpace (c : ascii) : bool :=
  Ascii.eqb c "'" || Ascii.eqb c "034" || Ascii.eqb c "`" || Ascii.eqb c " ".

(** [m.replace(pattern, '')] with that class and the flag [g]. *)
Fixpoint stripQuotes (m : string) : string :=
  match m with
  | EmptyString => EmptyString
  | String c m' =>
      if isQuoteOrSpace c then stripQuotes m' else String c (stripQuotes m')
  end.

Definition extractContextualKeywords (text : string) : list string :=
  let matches := collectMatches contextualPatterns stripQuotes text in
  Arr.slice 0 10
    (JsSet.ofArray (filter (fun m => (2 <? String.length m)%nat) matches)).

Definition issueText (issue : GitHubIssue) : string :=
  (title issue ++ " " ++ Str.orElse (body issue) "")%string.

Definition fallbackKeywordGeneration (issue : GitHubIssue) : SearchKeywords :=
  let text := issueText issue in
  {| primary := extractPrimaryKeywords text;
     secondary := extractSecondaryKeywords text;
     technical := extractTechnicalTerms text;
     contextual := extractContextualKeywords text |}.

Definition generateKeywords (issue : GitHubIssue) : Completion SearchKeywords :=
  Fulfilled
    (tryCatch
       (llmAnalysis <- analyzeIssueForKeywords issue ;;
        Fulfilled
          {| primary := primary_keywords llmAnalysis;
             secondary := component_names llmAnalysis;
             technical := technical_terms llmAnalysis;
             contextual :=
               error_patterns llmAnalysis ++ file_patterns llmAnalysis
                 ++ search_strategies llmAnalysis |})
       (fun error => fallbackKeywordGeneration issue)).

End Keywords.

(** ** Notions the further properties are stated with *)

(** The values of the field [method]. *)
Definition methodNames : list string :=
  ["GET"; "POST"; "PUT"; "DELETE"; "PATCH"; "HEAD"; "OPTIONS";
   "UNKNOWN"]%string.

(** The keywords in lower case. *)
Definition lowerKeywords (keywords : SearchKeywords) : SearchKeywords :=
  {| primary := map Str.toLowerCase (primary keywords);
     secondary := map Str.toLowerCase (secondary keywords);
     technical := map Str.toLowerCase (technical keywords);
     contextual := map Str.toLowerCase (contextual keywords) |}.

Section FurtherNotions.

Context `{Collaborators}.
Variable context : AnalysisContext.
Variable keywords : SearchKeywords.

(** The candidate the second pass makes of a path, if any. *)
Definition candidateFor (fileScores : JsMap.t (V := float)) (file : string)
  : option FileEntry :=
  tryCatch (candidateOf context keywords fileScores file) (fun _ => None).

End FurtherNotions.

(** The order of the floats that are not below zero, in the integers: a
    finite float counts its units of [2 ^ -1074], the infinity is above. *)
Definition rank (x : spec_float) : Z :=
  match x with
  | S754_zero _ => 0
  | S754_finite _ m e => Zpos m * 2 ^ (e + 1074)
  | S754_infinity _ => 2 ^ 2100
  | S754_nan => 0
  end.

Definition frank (x : float) : Z := rank (Prim2SF x).

Section Order.

Local Open Scope float_scope.

Context {A : Type}.
Variable score : A -> float.

(** [a] may stand before [b]: its score is not below the score of [b]. *)
Definition notBelow (a b : A) : Prop := (score b <=? score a) = true.

Definition ordinary (a : A) : Prop := nonneg (score a) = true.

End Order.

(** ** Further workspaces *)

Module Scenario.

Local Open Scope float_scope.

(** An inference client that finds every file relevant. *)
Definition llmYes : GitHubIssue -> string -> string -> Completion CodeRelevance :=
  fun _ _ _ =>
    Fulfilled {| is_relevant := true; relevance_score := 0.9;
                 reason := "mentions the service" |}.

Definition helpful : Collaborators := Example.world llmYes.

(** The entry that the judgment of [llmYes] makes of a candidate. *)
Definition judged (file : FileEntry) : FileEntry :=
  {| path := path file;
     content := content file;
     relevanceScore := 0.9;
     file_reason := Some "mentions the service" |}.

(** A pattern engine that refuses a source with two plus signs in a row
    (nothing to repeat). *)
Definition strict : Collaborators :=
  {| analyzeCodeRelevance := Example.llmNo;
     readFile := @readFile Example.quiet;
     path_join := @path_join Example.quiet;
     path_relative := @path_relative Example.quiet;
     matchCount := fun source subject =>
       if Str.includes source "++"
       then Rejected {| message := "Nothing to repeat" |}
       else Fulfilled (Example.countMatches 0 subject source);
     calculateSymbolRelevance := @calculateSymbolRelevance Example.quiet;
     baseCalculateConfidence := @baseCalculateConfidence Example.quiet |}.

Definition cxxKeywords : SearchKeywords :=
  {| primary := ["UserService"; "c++"]; secondary := [];
     technical := []; contextual := [] |}.

(** A strategy that analyzes one file, and one that asks file by file. *)
Definition narrow : LLMAnalysisStrategy :=
  new_LLMAnalysisStrategy
    {| opt_batchSize := None; opt_maxFilesToAnalyze := Some 1%nat |}.


(** A handler with two verbs in its name. *)
Definition deletePost : Symbol :=
  Example.mkSymbol "deletePost" "removes a post".

Definition apiContext : AnalysisContext :=
  Example.context (Some [Example.getUserController]).

(** A workspace with a path whose file cannot be read. *)
Definition withMissing : AnalysisContext :=
  {| issue := issue (Example.context None);
     workspacePath := "/repo";
     filteredFiles :=
       ["src/services/UserService.ts"; "src/services/missing.ts"];
     symbolAnalysis := None |}.

(** What the inference client that finds nothing relevant answers. *)
Definition unrelated : CodeRelevance :=
  {| is_relevant := false; relevance_score := 0.1; reason := "unrelated" |}.

End Scenario.

(** * Properties *)

(** ** Arrays and maps *)

Section ArrFacts.

Context {A : Type}.

Lemma slice_length (from to : nat) (a : list A) :
  List.length (Arr.slice from to a) <= to - from.
Proof.
  unfold Arr.slice. rewrite length_firstn. apply Nat.le_min_l.
Qed.

Lemma slice_prefix (n : nat) (a : list A) : Arr.slice 0 n a = firstn n a.
Proof.
  unfold Arr.slice. rewrite Nat.sub_0_r. reflexivity.
Qed.

Lemma In_firstn (n : nat) (a : list A) (x : A) :
  In x (firstn n a) -> In x a.
Proof.
  revert a. induction n as [|n IH]; intros [|y a]; simpl; try tauto.
  intros [Heq|Hin]; [left; exact Heq | right; apply IH; exact Hin].
Qed.

Lemma In_skipn (n : nat) (a : list A) (x : A) :
  In x (skipn n a) -> In x a.
Proof.
  revert a. induction n as [|n IH]; intros [|y a]; simpl; try tauto.
  intros Hin. right. apply IH. exact Hin.
Qed.

Lemma slice_In (from to : nat) (a : list A) (x : A) :
  In x (Arr.slice from to a) -> In x a.
Proof.
  unfold Arr.slice. intros Hin.
  apply In_firstn in Hin. apply In_skipn in Hin. exact Hin.
Qed.

Lemma insert_perm (f : A -> A -> float) (x : A) (a : list A) :
  Permutation (Arr.insert f x a) (x :: a).
Proof.
  induction a as [|y a IH]; simpl.
  - apply Permutation_refl.
  - destruct (PrimFloat.ltb 0 (f x y)).
    + apply perm_trans with (y :: x :: a).
      * apply perm_skip. exact IH.
      * apply perm_swap.
    + apply Permutation_refl.
Qed.

Lemma sort_perm (f : A -> A -> float) (a : list A) :
  Permutation (Arr.sort f a) a.
Proof.
  induction a as [|x a IH]; simpl.
  - apply perm_nil.
  - apply perm_trans with (x :: Arr.sort f a).
    + apply insert_perm.
    + apply perm_skip. exact IH.
Qed.

Lemma sort_In (f : A -> A -> float) (a : list A) (x : A) :
  In x (Arr.sort f a) -> In x a.
Proof.
  apply Permutation_in. apply sort_perm.
Qed.

(** A loop that pushes the image of the elements that pass a test. *)
Lemma push_loop (B : Type) (keep : B -> bool) (g : B -> A) (l : list B)
      (acc : list A) :
  fold_left (fun acc x => if keep x then Arr.push acc (g x) else acc) l acc
  = acc ++ map g (filter keep l).
Proof.
  revert acc. induction l as [|x l IH]; intros acc; simpl.
  - rewrite app_nil_r. reflexivity.
  - rewrite IH. destruct (keep x); simpl.
    + unfold Arr.push. rewrite <- app_assoc. reflexivity.
    + reflexivity.
Qed.

Lemma fold_left_pointwise (B : Type) (f g : A -> B -> A) (l : list B) (a : A) :
  (forall a b, f a b = g a b) -> fold_left f l a = fold_left g l a.
Proof.
  intros Hfg. revert a. induction l as [|b l IH]; intros a; simpl.
  - reflexivity.
  - rewrite Hfg. apply IH.
Qed.

End ArrFacts.

Section MapFacts.

Context {V : Type}.
Variable P : string -> V -> Prop.

Lemma allEntries_set (m : JsMap.t) (k : string) (v : V) :
  allEntries P m -> P k v -> allEntries P (JsMap.set m k v).
Proof.
  unfold allEntries. induction m as [|[k' v'] m IH]; simpl; intros Hm Hkv k0 v0 Hin.
  - destruct Hin as [Heq|[]]. inversion Heq; subst. exact Hkv.
  - destruct (String.eqb_spec k' k) as [->|Hne].
    + destruct Hin as [Heq|Hin].
      * inversion Heq; subst. exact Hkv.
      * apply Hm. right. exact Hin.
    + destruct Hin as [Heq|Hin].
      * apply Hm. left. exact Heq.
      * apply IH; [intros k1 v1 H1; apply Hm; right; exact H1 | exact Hkv | exact Hin].
Qed.

End MapFacts.

(** ** Strings *)

Section StrFacts.

Lemma toLowerCase_app (a b : string) :
  Str.toLowerCase (a ++ b) = (Str.toLowerCase a ++ Str.toLowerCase b)%string.
Proof.
  induction a as [|c a IH]; simpl.
  - reflexivity.
  - rewrite IH. reflexivity.
Qed.

Lemma startsWith_app (a b t : string) :
  Str.startsWith a t = true -> Str.startsWith (a ++ b) t = true.
Proof.
  revert a. induction t as [|c t IH]; intros a Ha.
  - reflexivity.
  - destruct a as [|d a]; simpl in *; [discriminate|].
    apply andb_true_iff in Ha. destruct Ha as [Hc Ht].
    rewrite Hc. simpl. apply IH. exact Ht.
Qed.

Lemma includes_app_l (a b t : string) :
  Str.includes a t = true -> Str.includes (a ++ b) t = true.
Proof.
  induction a as [|c a IH]; intros Ha.
  - destruct t; [|discriminate]. destruct b; reflexivity.
  - change (Str.startsWith (String c a) t || Str.includes a t = true) in Ha.
    change (Str.startsWith (String c a ++ b) t || Str.includes (a ++ b) t = true).
    apply orb_true_iff in Ha. apply orb_true_iff.
    destruct Ha as [Ha|Ha].
    + left. apply startsWith_app. exact Ha.
    + right. apply IH. exact Ha.
Qed.

Lemma includes_app_r (a b t : string) :
  Str.includes b t = true -> Str.includes (a ++ b) t = true.
Proof.
  intros Hb. induction a as [|c a IH].
  - exact Hb.
  - change (Str.startsWith (String c a ++ b) t || Str.includes (a ++ b) t = true).
    rewrite IH. apply orb_true_r.
Qed.

Lemma orElse_empty (c : string) : Str.orElse (Some c) "" = c.
Proof.
  destruct c; reflexivity.
Qed.

End StrFacts.

(** ** The first pass of the candidate filter *)

Section FirstPass.

Local Open Scope float_scope.

Variable this : LLMAnalysisStrategy.
Variable context : AnalysisContext.
Variable keywords : SearchKeywords.

Lemma scorePaths_loop (files : list string) (fileScores : JsMap.t) :
  (forall file, In file files -> In file (filteredFiles context)) ->
  allEntries (scored context keywords) fileScores ->
  allEntries (scored context keywords)
    (fold_left
       (fun fileScores file =>
          let score := calculateFilePathScore file keywords in
          if 0.3 <? score then JsMap.set fileScores file score
          else fileScores)
       files fileScores).
Proof.
  revert fileScores.
  induction files as [|file files IH]; intros fileScores Hsub Hall; simpl.
  - exact Hall.
  - apply IH.
    + intros f Hf. apply Hsub. right. exact Hf.
    + destruct (0.3 <? calculateFilePathScore file keywords) eqn:Hgt.
      * apply allEntries_set; [exact Hall|].
        repeat split; [apply Hsub; left; reflexivity | exact Hgt].
      * exact Hall.
Qed.

Lemma scorePaths_scored : allEntries (scored context keywords) (scorePaths context keywords).
Proof.
  unfold scorePaths. apply scorePaths_loop.
  - intros file Hin. exact Hin.
  - intros k v [].
Qed.

(** C3: the first pass keeps at most [2 * maxFilesToAnalyze] paths, and
    each path it keeps is a candidate path whose path score is strictly
    above the threshold 0.3. *)
Theorem first_pass_bounded_and_above_threshold :
  List.length (topCandidates this context keywords)
    <= 2 * maxFilesToAnalyze this
  /\ forall file,
      In file (topCandidates this context keywords) ->
      In file (filteredFiles context)
      /\ (0.3 <? calculateFilePathScore file keywords) = true.
Proof.
  unfold topCandidates. split.
  - rewrite length_map.
    eapply Nat.le_trans; [apply slice_length|]. lia.
  - intros file Hin.
    apply in_map_iff in Hin. destruct Hin as [[k v] [Hk Hin]].
    simpl in Hk. subst k.
    apply slice_In in Hin. apply sort_In in Hin.
    destruct (scorePaths_scored file v Hin) as [Hfile [Hv Hgt]].
    split; [exact Hfile|]. rewrite <- Hv. exact Hgt.
Qed.

End FirstPass.

(** ** The exclusion penalty *)

(** C4: a path that matches an exclusion pattern scores the product by 0.1
    of what it scores when nothing is excluded, the bonuses included. *)
Theorem excluded_path_scores_a_tenth
        (filePath : string) (keywords : SearchKeywords) :
  someTest excludePatterns filePath = true ->
  calculateFilePathScore filePath keywords
  = (unpenalizedFilePathScore filePath keywords * 0.1)%float.
Proof.
  intros Hexcluded.
  unfold calculateFilePathScore, unpenalizedFilePathScore,
    calculateFilePathScoreWith.
  rewrite Hexcluded. reflexivity.
Qed.

Lemma excluded_path_scores_a_tenth_witness :
  someTest excludePatterns "dist/UserService.js" = true
  /\ calculateFilePathScore "dist/UserService.js" Example.keywords
     = (unpenalizedFilePathScore "dist/UserService.js" Example.keywords * 0.1)%float.
Proof.
  split.
  - vm_compute. reflexivity.
  - apply excluded_path_scores_a_tenth. vm_compute. reflexivity.
Defined.

(** A path that matches no exclusion pattern keeps its score. *)
Lemma included_path_scores_in_full
      (filePath : string) (keywords : SearchKeywords) :
  someTest excludePatterns filePath = false ->
  calculateFilePathScore filePath keywords
  = unpenalizedFilePathScore filePath keywords.
Proof.
  intros Hincluded.
  unfold calculateFilePathScore, unpenalizedFilePathScore,
    calculateFilePathScoreWith.
  rewrite Hincluded. reflexivity.
Qed.

(** ** The loop over the batches *)

Section Batches.

Context `{Collaborators}.
Variable this : LLMAnalysisStrategy.
Variable context : AnalysisContext.

Lemma Promise_all_fulfilled (A B : Type) (f : A -> B) (l : list A) :
  Promise_all (map (fun x => Fulfilled (f x)) l) = Fulfilled (map f l).
Proof.
  induction l as [|x l IH]; simpl.
  - reflexivity.
  - rewrite IH. reflexivity.
Qed.

Lemma collect_app (acc : list FileEntry)
      (result : FileEntry * option CodeRelevance) :
  collect acc result = acc ++ collect [] result.
Proof.
  destruct result as [file [llmAnalysis|]]; simpl.
  - destruct (is_relevant llmAnalysis); simpl.
    + reflexivity.
    + rewrite app_nil_r. reflexivity.
  - reflexivity.
Qed.

Lemma collect_loop (batch : list FileEntry) (acc : list FileEntry) :
  fold_left collect (map (judgment context) batch) acc
  = acc ++ flat_map (retained context) batch.
Proof.
  revert acc. induction batch as [|file batch IH]; intros acc; simpl.
  - rewrite app_nil_r. reflexivity.
  - rewrite IH. rewrite (collect_app acc). rewrite <- app_assoc.
    reflexivity.
Qed.

(** A batch never rejects: each of its calls is caught on its own. *)
Lemma processBatch_fulfilled (batch acc : list FileEntry) :
  processBatch context batch acc
  = Fulfilled (acc ++ flat_map (retained context) batch).
Proof.
  unfold processBatch.
  change (map (analyzeFile context) batch)
    with (map (fun file => Fulfilled (judgment context file)) batch).
  rewrite Promise_all_fulfilled. simpl.
  rewrite collect_loop. reflexivity.
Qed.

(** With a positive batch size the loop ends within one turn per remaining
    file, and batching does not change what is accumulated. *)
Lemma batchLoop_fulfilled (filesToAnalyze : list FileEntry) :
  0 < batchSize this ->
  forall fuel i acc,
    List.length filesToAnalyze - i <= fuel ->
    batchLoop this fuel context filesToAnalyze i acc
    = Some (Fulfilled (acc ++ flat_map (retained context) (skipn i filesToAnalyze))).
Proof.
  intros Hpos fuel.
  induction fuel as [|fuel IH]; intros i acc Hfuel.
  - simpl. destruct (Nat.ltb_spec i (List.length filesToAnalyze)); [lia|].
    rewrite skipn_all2 by lia. simpl. rewrite app_nil_r. reflexivity.
  - simpl. destruct (Nat.ltb_spec i (List.length filesToAnalyze)) as [Hlt|Hge].
    + rewrite processBatch_fulfilled.
      rewrite IH by lia.
      rewrite <- app_assoc. rewrite <- flat_map_app.
      unfold Arr.slice. replace (i + batchSize this - i) with (batchSize this) by lia.
      replace (skipn (i + batchSize this) filesToAnalyze)
        with (skipn (batchSize this) (skipn i filesToAnalyze))
        by (rewrite skipn_skipn; f_equal; lia).
      rewrite firstn_skipn. reflexivity.
    + rewrite skipn_all2 by lia. simpl. rewrite app_nil_r. reflexivity.
Qed.

Lemma countOr_positive (o : option nat) (d : nat) : 0 < d -> 0 < countOr o d.
Proof.
  intros Hd. destruct o as [[|n]|]; simpl; lia.
Qed.

End Batches.

Lemma constructed_batchSize_positive (options : Options) :
  0 < batchSize (new_LLMAnalysisStrategy options).
Proof.
  simpl. apply countOr_positive. lia.
Qed.

Section RelevantFiles.

Context `{Collaborators}.
Variable this : LLMAnalysisStrategy.
Variable context : AnalysisContext.
Variable keywords : SearchKeywords.

Lemma llmAnalyzedFiles_fulfilled :
  0 < batchSize this ->
  llmAnalyzedFiles this context keywords
  = Some (Fulfilled
            (flat_map (retained context)
               (filesToAnalyze this context keywords))).
Proof.
  intros Hpos. unfold llmAnalyzedFiles, analyzeBatches.
  rewrite batchLoop_fulfilled by (trivial; lia).
  reflexivity.
Qed.

Lemma findRelevantFiles_unfold :
  findRelevantFiles this context keywords
  = match llmAnalyzedFiles this context keywords with
    | None => None
    | Some (Rejected e) => Some (Rejected e)
    | Some (Fulfilled analyzed) =>
        match analyzed with
        | [] => Some (Fulfilled
                        (firstn 5 (findCandidateFiles this context keywords)))
        | _ :: _ =>
            Some (Fulfilled
                    (firstn 10 (Arr.sort byRelevanceScore analyzed)))
        end
    end.
Proof.
  unfold findRelevantFiles, findRelevantFilesFuel, llmAnalyzedFiles.
  destruct (analyzeBatches _ _ _ _) as [[analyzed|e]|]; try reflexivity.
  rewrite !slice_prefix. destruct analyzed; reflexivity.
Qed.


(** When the inference client judges every file to analyze and finds none
    relevant, nothing is retained. *)
Lemma all_irrelevant_retains_nothing :
  0 < batchSize this ->
  (forall file,
      In file (filesToAnalyze this context keywords) ->
      exists llmAnalysis,
        analyzeCodeRelevance (issue context) (path file) (content file)
        = Fulfilled llmAnalysis
        /\ is_relevant llmAnalysis = false) ->
  llmAnalyzedFiles this context keywords = Some (Fulfilled []).
Proof.
  intros Hpos Hnone. rewrite (llmAnalyzedFiles_fulfilled Hpos).
  do 2 f_equal.
  induction (filesToAnalyze this context keywords) as [|file l IH].
  - reflexivity.
  - simpl. rewrite IH by (intros f Hf; apply Hnone; right; exact Hf).
    destruct (Hnone file (or_introl eq_refl)) as [llmAnalysis [Hcall Hno]].
    unfold retained, judgment. rewrite Hcall. simpl. rewrite Hno. reflexivity.
Qed.

(** Conversely, nothing is retained only when every file to analyze was
    judged, and judged not relevant: a file whose call failed is retained. *)
Lemma nothing_retained_only_if_all_irrelevant :
  0 < batchSize this ->
  llmAnalyzedFiles this context keywords = Some (Fulfilled []) ->
  forall file,
    In file (filesToAnalyze this context keywords) ->
    exists llmAnalysis,
      analyzeCodeRelevance (issue context) (path file) (content file)
      = Fulfilled llmAnalysis
      /\ is_relevant llmAnalysis = false.
Proof.
  intros Hpos Hnone file Hin.
  rewrite (llmAnalyzedFiles_fulfilled Hpos) in Hnone.
  inversion Hnone as [Hflat]. clear Hnone.
  assert (Hfile : retained context file = []).
  { destruct (retained context file) as [|entry rest] eqn:Hret; [reflexivity|].
    assert (Hentry : In entry
                       (flat_map (retained context)
                          (filesToAnalyze this context keywords))).
    { apply in_flat_map. exists file. split; [exact Hin|].
      rewrite Hret. left. reflexivity. }
    rewrite Hflat in Hentry. destruct Hentry. }
  unfold retained, judgment in Hfile.
  destruct (analyzeCodeRelevance (issue context) (path file) (content file))
    as [llmAnalysis|e]; simpl in Hfile.
  - exists llmAnalysis. split; [reflexivity|].
    destruct (is_relevant llmAnalysis); [discriminate|reflexivity].
  - discriminate.
Qed.

(** [findRelevantFiles] of a strategy with a positive batch size returns,
    and with at most 10 entries. *)
Lemma findRelevantFiles_returns_at_most_10 :
  0 < batchSize this ->
  exists files,
    findRelevantFiles this context keywords = Some (Fulfilled files)
    /\ List.length files <= 10.
Proof.
  intros Hpos.
  rewrite findRelevantFiles_unfold, (llmAnalyzedFiles_fulfilled Hpos).
  destruct (flat_map _ _) as [|file analyzed].
  - eexists. split; [reflexivity|].
    rewrite length_firstn. lia.
  - eexists. split; [reflexivity|].
    rewrite length_firstn. lia.
Qed.

(** C2: when every call of the inference client throws for the files of a
    batch, the loop over the batches still ends with a list, each file of
    the batch is in that list as the candidate filter scored it, and
    [findRelevantFiles] returns a list. *)
Theorem failed_batch_degrades_to_heuristic_scores (i : nat) :
  0 < batchSize this ->
  (forall file,
      In file (Arr.slice i (i + batchSize this)
                 (filesToAnalyze this context keywords)) ->
      exists error,
        analyzeCodeRelevance (issue context) (path file) (content file)
        = Rejected error) ->
  let batch :=
    Arr.slice i (i + batchSize this) (filesToAnalyze this context keywords) in
  (forall acc, processBatch context batch acc = Fulfilled (acc ++ batch))
  /\ exists analyzed files,
      llmAnalyzedFiles this context keywords = Some (Fulfilled analyzed)
      /\ (forall file, In file batch -> In file analyzed)
      /\ findRelevantFiles this context keywords = Some (Fulfilled files).
Proof.
  intros Hpos Hthrow batch.
  assert (Hretained : forall file, In file batch -> retained context file = [file]).
  { intros file Hin. destruct (Hthrow file Hin) as [error Herr].
    unfold retained, judgment. rewrite Herr. reflexivity. }
  split.
  - intros acc. rewrite processBatch_fulfilled. f_equal. f_equal.
    clear Hthrow. induction batch as [|file batch' IH]; simpl.
    + reflexivity.
    + rewrite Hretained by (left; reflexivity). simpl. f_equal.
      apply IH. intros f Hf. apply Hretained. right. exact Hf.
  - destruct (findRelevantFiles_returns_at_most_10 Hpos) as [files [Hfiles _]].
    exists (flat_map (retained context) (filesToAnalyze this context keywords)), files.
    split; [apply llmAnalyzedFiles_fulfilled; exact Hpos|].
    split; [|exact Hfiles].
    intros file Hin. apply in_flat_map. exists file. split.
    + apply slice_In in Hin. exact Hin.
    + rewrite Hretained by exact Hin. left. reflexivity.
Qed.

End RelevantFiles.


(** ** Symbols and APIs *)

Section SymbolsAndApis.

Local Open Scope float_scope.

Context `{Collaborators}.
Variable context : AnalysisContext.
Variable keywords : SearchKeywords.

(** C10: [findRelevantSymbols] is the filter of the symbols in their order,
    keeping those whose relevance exceeds 0.5, cut to the first 10; no sort
    takes part. *)
Theorem findRelevantSymbols_filters_in_order :
  findRelevantSymbols context keywords
  = match symbolAnalysis context with
    | None => []
    | Some symbols =>
        firstn 10 (map (toSymbolEntry context) (filter (symbolKept keywords) symbols))
    end.
Proof.
  unfold findRelevantSymbols.
  destruct (symbolAnalysis context) as [symbols|]; [|reflexivity].
  rewrite slice_prefix. f_equal.
  rewrite <- (app_nil_l (map _ _)).
  rewrite <- (push_loop (symbolKept keywords) (toSymbolEntry context) symbols []).
  reflexivity.
Qed.

Lemma findRelevantApis_filters_in_order :
  findRelevantApis context keywords
  = match symbolAnalysis context with
    | None => []
    | Some symbols =>
        firstn 8 (map (toApiEntry context) (filter (apiKept keywords) symbols))
    end.
Proof.
  unfold findRelevantApis.
  destruct (symbolAnalysis context) as [symbols|]; [|reflexivity].
  rewrite slice_prefix.
  f_equal.
  rewrite <- (app_nil_l (map _ _)).
  rewrite <- (push_loop (apiKept keywords) (toApiEntry context) symbols []).
  apply fold_left_pointwise. intros acc symbol.
  unfold apiKept. destruct (isApiRelated symbol); reflexivity.
Qed.

Lemma findRelevantSymbols_at_most_10 :
  List.length (findRelevantSymbols context keywords) <= 10.
Proof.
  unfold findRelevantSymbols.
  destruct (symbolAnalysis context); [|simpl; lia].
  eapply Nat.le_trans; [apply slice_length|lia].
Qed.

Lemma findRelevantApis_at_most_8 :
  List.length (findRelevantApis context keywords) <= 8.
Proof.
  rewrite findRelevantApis_filters_in_order.
  destruct (symbolAnalysis context); [rewrite length_firstn; lia | simpl; lia].
Qed.

(** C6: for a strategy made by the constructor, [findRelevantFiles] returns
    and with at most 10 entries (the fallback included),
    [findRelevantSymbols] returns at most 10 entries and [findRelevantApis]
    at most 8. *)
Theorem results_are_capped (options : Options) :
  (exists files,
      findRelevantFiles (new_LLMAnalysisStrategy options) context keywords
      = Some (Fulfilled files)
      /\ List.length files <= 10)
  /\ List.length (findRelevantSymbols context keywords) <= 10
  /\ List.length (findRelevantApis context keywords) <= 8.
Proof.
  split; [|split].
  - apply findRelevantFiles_returns_at_most_10.
    apply constructed_batchSize_positive.
  - apply findRelevantSymbols_at_most_10.
  - apply findRelevantApis_at_most_8.
Qed.

End SymbolsAndApis.

(** ** The HTTP method of an API entry *)

Section ApiMethod.

Local Open Scope float_scope.

Context `{Collaborators}.
Variable context : AnalysisContext.
Variable keywords : SearchKeywords.

Lemma extractHttpMethod_name_only (symbol other : Symbol) :
  name other = name symbol ->
  qualifiedName other = qualifiedName symbol ->
  extractHttpMethod other = extractHttpMethod symbol.
Proof.
  intros Hname Hqualified. unfold extractHttpMethod.
  rewrite Hname, Hqualified. reflexivity.
Qed.

Lemma comment_counts_for_candidacy (symbol : Symbol) (c term : string) :
  In term apiTerms ->
  Str.includes (Str.toLowerCase c) term = true ->
  isApiRelated (withComment (Some c) symbol) = true.
Proof.
  intros Hterm Hc. unfold isApiRelated.
  apply existsb_exists. exists term. split; [exact Hterm|].
  unfold symbolText. simpl comment. rewrite orElse_empty.
  rewrite !toLowerCase_app.
  do 4 apply includes_app_r. exact Hc.
Qed.

Lemma httpMethods_are_apiTerms (verb : string) :
  In verb httpMethods -> In verb apiTerms.
Proof.
  unfold httpMethods, apiTerms. simpl. intuition.
Qed.

Lemma extractHttpMethod_none (symbol : Symbol) :
  (forall verb, In verb httpMethods ->
     Str.includes
       (Str.toLowerCase (name symbol ++ " " ++ qualifiedName symbol)) verb
     = false) ->
  extractHttpMethod symbol = None.
Proof.
  intros Hnone. unfold extractHttpMethod.
  destruct (find _ httpMethods) as [verb|] eqn:Hfind; [|reflexivity].
  apply find_some in Hfind. destruct Hfind as [Hin Hverb].
  rewrite (Hnone verb Hin) in Hverb. discriminate.
Qed.

(** C9: the method of an entry depends on the name and the qualified name
    of the symbol only: for any symbol, a symbol with the same names gets
    the same value of [extractHttpMethod] and the same method in its entry,
    so symbols that differ only in their comment do; in particular a symbol
    with a verb in its comment and none in its names is an API candidate,
    by its comment, and its method is UNKNOWN. *)
Theorem http_method_ignores_comment (symbol : Symbol) :
  (forall other,
      name other = name symbol ->
      qualifiedName other = qualifiedName symbol ->
      extractHttpMethod other = extractHttpMethod symbol
      /\ method (toApiEntry context other)
         = method (toApiEntry context symbol))
  /\ (forall c',
         extractHttpMethod (withComment c' symbol) = extractHttpMethod symbol
         /\ method (toApiEntry context (withComment c' symbol))
            = method (toApiEntry context symbol))
  /\ (forall c verb,
         In verb httpMethods ->
         Str.includes (Str.toLowerCase c) verb = true ->
         (forall m, In m httpMethods ->
            Str.includes
              (Str.toLowerCase (name symbol ++ " " ++ qualifiedName symbol)) m
            = false) ->
         isApiRelated (withComment (Some c) symbol) = true
         /\ method (toApiEntry context (withComment (Some c) symbol))
            = "UNKNOWN").
Proof.
  assert (Hsame : forall other,
             name other = name symbol ->
             qualifiedName other = qualifiedName symbol ->
             extractHttpMethod other = extractHttpMethod symbol
             /\ method (toApiEntry context other)
                = method (toApiEntry context symbol)).
  { intros other Hname Hqualified.
    assert (Heq : extractHttpMethod other = extractHttpMethod symbol)
      by (apply extractHttpMethod_name_only; assumption).
    split; [exact Heq|].
    unfold toApiEntry. simpl method. rewrite Heq. reflexivity. }
  split; [exact Hsame|]. split.
  - intros c'. apply Hsame; reflexivity.
  - intros c verb Hverb Hc Hnames. split.
    + apply comment_counts_for_candidacy with (term := verb).
      * apply httpMethods_are_apiTerms. exact Hverb.
      * exact Hc.
    + unfold toApiEntry. simpl method.
      rewrite (extractHttpMethod_none (withComment (Some c) symbol)).
      * reflexivity.
      * exact Hnames.
Qed.

Lemma In_firstn_middle (A : Type) (n : nat) (l1 l2 : list A) (x : A) :
  List.length l1 < n -> In x (firstn n (l1 ++ x :: l2)).
Proof.
  revert n. induction l1 as [|y l1 IH]; intros n Hlt; simpl in *.
  - destruct n; [lia|]. left. reflexivity.
  - destruct n; [lia|]. right. apply IH. lia.
Qed.

Lemma getUserController_method (symbol : Symbol) :
  name symbol = "getUserController" ->
  extractHttpMethod symbol = Some "GET".
Proof.
  intros Hname. unfold extractHttpMethod. rewrite Hname.
  rewrite toLowerCase_app.
  assert (Hget : Str.includes
                   (Str.toLowerCase "getUserController"
                      ++ Str.toLowerCase (" " ++ qualifiedName symbol)) "get"
                 = true)
    by (apply includes_app_l; reflexivity).
  unfold httpMethods. cbn [find]. rewrite Hget. reflexivity.
Qed.

Lemma getUserController_isApiRelated (symbol : Symbol) :
  name symbol = "getUserController" ->
  isApiRelated symbol = true.
Proof.
  intros Hname. unfold isApiRelated.
  apply existsb_exists. exists "controller"%string. split.
  - unfold apiTerms. simpl. tauto.
  - unfold symbolText. rewrite Hname. rewrite toLowerCase_app.
    apply includes_app_l. reflexivity.
Qed.

(** C8, amended: a symbol named [getUserController] with the comment
    [GET /users/:id] and a relevance above 0.3 has its entry returned by
    [findRelevantApis], with the method GET, when fewer than 8 symbols that
    are kept come before it. *)
Theorem getUserController_reported_as_GET
        (before after : list Symbol) (symbol : Symbol) :
  symbolAnalysis context = Some (before ++ symbol :: after) ->
  name symbol = "getUserController" ->
  comment symbol = Some "GET /users/:id" ->
  (0.3 <? calculateSymbolRelevance symbol keywords) = true ->
  List.length (filter (apiKept keywords) before) < 8 ->
  In (toApiEntry context symbol) (findRelevantApis context keywords)
  /\ method (toApiEntry context symbol) = "GET"
  /\ description (toApiEntry context symbol) = "GET /users/:id".
Proof.
  intros Hsymbols Hname Hcomment Hrelevant Hbefore. split; [|split].
  - rewrite findRelevantApis_filters_in_order, Hsymbols.
    rewrite filter_app. simpl filter.
    assert (Hkept : apiKept keywords symbol = true).
    { unfold apiKept. rewrite getUserController_isApiRelated by exact Hname.
      exact Hrelevant. }
    rewrite Hkept. rewrite map_app. simpl map.
    apply In_firstn_middle. rewrite length_map. exact Hbefore.
  - unfold toApiEntry. simpl method.
    rewrite getUserController_method by exact Hname. reflexivity.
  - unfold toApiEntry. simpl description. rewrite Hcomment. reflexivity.
Qed.

End ApiMethod.


(** ** Numbers

    The facts about binary64 arithmetic the properties need, from the
    specification of the primitive floats. *)

Section FloatFacts.

Unset Implicit Arguments.

Local Open Scope float_scope.

Lemma nonneg_leb (x : float) : nonneg x = true <-> (0 <=? x) = true.
Proof.
  unfold nonneg. rewrite FloatAxioms.leb_spec.
  change (Prim2SF 0) with (S754_zero false).
  destruct (Prim2SF x) as [s|s| |s m e]; simpl; try destruct s; simpl; intuition congruence.
Qed.

Lemma nonneg_not_nan (x : float) : nonneg x = true -> PrimFloat.is_nan x = false.
Proof.
  unfold nonneg, PrimFloat.is_nan. rewrite FloatAxioms.eqb_spec.
  destruct (Prim2SF x) as [s|s| |s m e]; simpl; try discriminate; intros _.
  - reflexivity.
  - destruct s; reflexivity.
  - unfold SFeqb, SFcompare. rewrite Z.compare_refl, Pos.compare_cont_refl.
    destruct s; reflexivity.
Qed.

Lemma ltb_leb (x y : float) : (x <? y) = true -> (x <=? y) = true.
Proof.
  rewrite FloatAxioms.ltb_spec, FloatAxioms.leb_spec. unfold SFltb, SFleb.
  destruct (SFcompare _ _) as [[ | | ]|]; congruence.
Qed.

Lemma eqb_zero_leb_one (x : float) : (x =? 0) = true -> (x <=? 1) = true.
Proof.
  rewrite FloatAxioms.eqb_spec, FloatAxioms.leb_spec.
  change (Prim2SF 0) with (S754_zero false).
  change (Prim2SF 1) with (S754_finite false 4503599627370496 (-52)).
  destruct (Prim2SF x) as [s|s| |s m e]; simpl; try discriminate; try reflexivity.
  - destruct s; discriminate.
  - unfold SFeqb. simpl. destruct s; discriminate.
Qed.

(** [Math.min(x, 1)] of a float that is not below zero lies in [0, 1]. *)
Lemma min_one_range (x : float) :
  nonneg x = true ->
  (0 <=? Num.min x 1) = true /\ (Num.min x 1 <=? 1) = true.
Proof.
  intros Hx. unfold Num.min.
  rewrite (nonneg_not_nan x Hx).
  change (PrimFloat.is_nan 1) with false. cbv iota.
  destruct (x <? 1) eqn:Hlt.
  - split; [apply nonneg_leb; exact Hx | apply ltb_leb; exact Hlt].
  - destruct (1 <? x) eqn:Hgt.
    + split; reflexivity.
    + unfold Num.isNegZero. destruct (x =? 0) eqn:Hzero; simpl.
      * destruct (get_sign x).
        -- split; [apply nonneg_leb; exact Hx | apply eqb_zero_leb_one; exact Hzero].
        -- split; reflexivity.
      * split; reflexivity.
Qed.

Local Open Scope Z_scope.

Lemma shr_1_m (r : shr_record) :
  0 <= shr_m r -> shr_m (shr_1 r) = shr_m r / 2.
Proof.
  destruct r as [m r s]. simpl. intros Hm.
  destruct m as [|p|p]; [reflexivity| |lia].
  destruct p as [p|p|]; simpl.
  - rewrite Pos2Z.inj_xI. apply Z.div_unique with 1; lia.
  - rewrite Pos2Z.inj_xO. apply Z.div_unique with 0; lia.
  - reflexivity.
Qed.

Lemma iter_shr_1_m (p : positive) (r : shr_record) :
  0 <= shr_m r ->
  shr_m (iter_pos shr_1 p r) = shr_m r / 2 ^ Zpos p.
Proof.
  revert r. induction p as [p IH|p IH|]; intros r Hr; simpl iter_pos.
  - assert (H1 : 0 <= shr_m (shr_1 r)) by (rewrite shr_1_m by lia; apply Z.div_pos; lia).
    assert (H2 : 0 <= shr_m (iter_pos shr_1 p (shr_1 r)))
      by (rewrite IH by lia; apply Z.div_pos; lia).
    rewrite IH, IH, shr_1_m by lia.
    rewrite !Z.div_div by lia.
    f_equal.
    replace (Zpos p~1) with (1 + Zpos p + Zpos p) by lia.
    rewrite !Z.pow_add_r by lia. lia.
  - assert (H2 : 0 <= shr_m (iter_pos shr_1 p r))
      by (rewrite IH by lia; apply Z.div_pos; lia).
    rewrite IH, IH by lia.
    rewrite !Z.div_div by lia.
    f_equal.
    replace (Zpos p~0) with (Zpos p + Zpos p) by lia.
    rewrite !Z.pow_add_r by lia. lia.
  - rewrite shr_1_m by lia. reflexivity.
Qed.

Lemma shr_record_of_loc_m (m : Z) (l : SpecFloat.location) :
  shr_m (shr_record_of_loc m l) = m.
Proof.
  destruct l as [|[ | | ]]; reflexivity.
Qed.

(** [shr]: the mantissa is divided by [2 ^ n], the exponent moves up by [n]. *)
Lemma shr_spec (r : shr_record) (e n : Z) :
  0 <= shr_m r ->
  shr_m (fst (shr r e n)) = shr_m r / 2 ^ (Z.max n 0)
  /\ snd (shr r e n) = e + Z.max n 0.
Proof.
  intros Hr. destruct n as [|p|p]; simpl.
  - rewrite Z.div_1_r. lia.
  - rewrite iter_shr_1_m by lia. rewrite Z.max_l by lia. split; reflexivity.
  - rewrite Z.div_1_r. lia.
Qed.

Lemma round_nearest_even_bounds (m : Z) (l : SpecFloat.location) :
  m <= round_nearest_even m l <= m + 1.
Proof.
  destruct l as [|[ | | ]]; simpl; try lia.
  destruct (Z.even m); lia.
Qed.

Lemma shr_fexp_spec (m e : Z) (l : SpecFloat.location) :
  0 <= m ->
  shr_m (fst (shr_fexp prec emax m e l)) = m / 2 ^ (target m e - e)
  /\ snd (shr_fexp prec emax m e l) = target m e.
Proof.
  intros Hm. unfold shr_fexp, target, fexp64.
  set (n := SpecFloat.fexp prec emax (Zdigits2 m + e) - e).
  destruct (shr_spec (shr_record_of_loc m l) e n) as [H1 H2].
  - rewrite shr_record_of_loc_m. exact Hm.
  - rewrite H1, H2, shr_record_of_loc_m.
    replace (e + Z.max n 0 - e) with (Z.max n 0) by lia.
    split; reflexivity.
Qed.

(** What [binary_round_aux] returns for a positive sign. *)
Lemma binary_round_aux_spec (m e : Z) (l : SpecFloat.location) :
  0 <= m ->
  exists m1,
    m / 2 ^ (target m e - e) <= m1 <= m / 2 ^ (target m e - e) + 1
    /\ binary_round_aux prec emax false m e l
       = match m1 / 2 ^ (target m1 (target m e) - target m e) with
         | Z0 => S754_zero false
         | Zpos p =>
             if target m1 (target m e) <=? emax - prec
             then S754_finite false p (target m1 (target m e))
             else S754_infinity false
         | Zneg _ => S754_nan
         end.
Proof.
  intros Hm. unfold binary_round_aux.
  destruct (shr_fexp_spec m e l Hm) as [H1 H2].
  destruct (shr_fexp prec emax m e l) as [mrs' e'] eqn:Hshr.
  simpl in H1, H2. subst e'.
  set (m1 := round_nearest_even (shr_m mrs') (loc_of_shr_record mrs')).
  assert (Hm1 : shr_m mrs' <= m1 <= shr_m mrs' + 1)
    by apply round_nearest_even_bounds.
  assert (H0 : 0 <= shr_m mrs').
  { rewrite H1. apply Z.div_pos; [lia|]. apply Z.pow_pos_nonneg; [lia|].
    unfold target. lia. }
  exists m1. split; [rewrite <- H1; exact Hm1|].
  destruct (shr_fexp_spec m1 (target m e) loc_Exact) as [H3 H4]; [lia|].
  destruct (shr_fexp prec emax m1 (target m e) loc_Exact) as [mrs'' e''].
  simpl in H3, H4. subst e''. rewrite H3. reflexivity.
Qed.

Lemma binary_round_aux_nonneg (m e : Z) (l : SpecFloat.location) :
  0 <= m -> SFnonneg (binary_round_aux prec emax false m e l) = true.
Proof.
  intros Hm. destruct (binary_round_aux_spec m e l Hm) as [m1 [Hm1 ->]].
  assert (H0 : 0 <= m / 2 ^ (target m e - e)).
  { apply Z.div_pos; [lia|]. apply Z.pow_pos_nonneg; [lia|]. unfold target. lia. }
  assert (H2 : 0 <= m1 / 2 ^ (target m1 (target m e) - target m e)).
  { apply Z.div_pos; [lia|]. apply Z.pow_pos_nonneg; [lia|]. unfold target. lia. }
  destruct (m1 / 2 ^ _) as [|p|p]; [reflexivity| |lia].
  destruct (_ <=? _); reflexivity.
Qed.

Local Open Scope float_scope.

(** The quotient by 10 of a float above 0.5 is not below zero. *)
Lemma above_half_div_10_nonneg (x : float) :
  (0.5 <? x) = true -> nonneg (x / 10) = true.
Proof.
  unfold nonneg. rewrite FloatAxioms.ltb_spec, FloatAxioms.div_spec.
  change (Prim2SF 0.5) with (S754_finite false 4503599627370496 (-53)).
  change (Prim2SF 10) with (S754_finite false 5629499534213120 (-49)).
  destruct (Prim2SF x) as [s|s| |s m e]; simpl; try discriminate.
  - destruct s; [discriminate|reflexivity].
  - destruct s; [discriminate|]. intros _.
    unfold SF64div, SFdiv. cbn [xorb].
    destruct (SFdiv_core_binary prec emax (Z.pos m) e 5629499534213120 (-49))
      as [[mz ez] lz] eqn:Hcore.
    apply binary_round_aux_nonneg.
    unfold SFdiv_core_binary in Hcore.
    set (m' := match _ with Z0 => _ | Zpos _ => _ | Zneg _ => _ end) in Hcore.
    assert (Hm' : (0 <= m')%Z).
    { unfold m'. destruct (_ - _ - _)%Z; try lia. apply Z.shiftl_nonneg. lia. }
    destruct (Z.div_eucl m' 5629499534213120) as [q r] eqn:Hdiv.
    inversion Hcore; subst mz.
    pose proof (Z_div_mod m' 5629499534213120 eq_refl) as Hqr.
    rewrite Hdiv in Hqr. nia.
Qed.

(** The sum of two floats that are not below zero is not below zero. *)
Lemma add_nonneg (x y : float) :
  nonneg x = true -> nonneg y = true -> nonneg (x + y) = true.
Proof.
  unfold nonneg. rewrite FloatAxioms.add_spec.
  destruct (Prim2SF x) as [sx|sx| |sx mx ex];
    destruct (Prim2SF y) as [sy|sy| |sy my ey]; simpl;
    try discriminate; try (destruct sx; discriminate);
    try (destruct sy; discriminate); try (destruct sx, sy; reflexivity || discriminate);
    try (intros; assumption).
  destruct sx; [discriminate|]. destruct sy; [discriminate|]. intros _ _.
  unfold SF64add, SFadd. cbn [cond_Zopp]. 
  unfold binary_normalize.
  rewrite <- Pos2Z.inj_add.
  unfold binary_round.
  destruct (shl_align _ _ _) as [mz ez].
  apply binary_round_aux_nonneg. lia.
Qed.

Local Open Scope Z_scope.

Lemma digits2_log2 (m : positive) :
  Zpos (digits2_pos m) = Z.log2 (Zpos m) + 1.
Proof.
  assert (Hsize : digits2_pos m = Pos.size m)
    by (induction m as [m IH|m IH|]; simpl; congruence).
  rewrite Hsize. destruct m as [m|m|]; simpl; lia.
Qed.

Lemma shl_align_value (m : positive) (e e' : Z) :
  e' <= e -> Zpos (fst (shl_align m e e')) = Zpos m * 2 ^ (e - e').
Proof.
  intros Hle. unfold shl_align.
  destruct (e' - e) as [|d|d] eqn:Hd; [| lia |].
  - replace (e - e') with 0 by lia. simpl fst. lia.
  - replace (e - e') with (Zpos d) by lia. simpl fst.
    change (Pos.iter xO m d) with (shift_pos d m).
    rewrite shift_pos_correct. change (2 ^ Zpos d) with (Z.pow_pos 2 d). lia.
Qed.

Lemma shl_align_same (m : positive) (e e' : Z) :
  e <= e' -> shl_align m e e' = (m, e).
Proof.
  intros Hle. unfold shl_align.
  destruct (e' - e) as [|d|d] eqn:Hd; [reflexivity|reflexivity|lia].
Qed.

(** Rounding a mantissa of at least 53 bits: the result is an infinity or a
    finite float whose exponent is at least the one the mantissa is cut to,
    and whose mantissa, at that exponent, is at least the cut one. *)
Lemma round_normal (M : positive) (ez : Z) :
  2 ^ 52 <= Zpos M -> -1074 <= ez ->
  binary_round_aux prec emax false (Zpos M) ez loc_Exact
  = S754_infinity false
  \/ exists p T2,
      binary_round_aux prec emax false (Zpos M) ez loc_Exact
      = S754_finite false p T2
      /\ ez + (Z.log2 (Zpos M) - 52) <= T2
      /\ (T2 = ez + (Z.log2 (Zpos M) - 52) ->
          Zpos M / 2 ^ (Z.log2 (Zpos M) - 52) <= Zpos p).
Proof.
  intros HM Hez.
  destruct (binary_round_aux_spec (Zpos M) ez loc_Exact) as [m1 [Hm1 Hres]];
    [lia|].
  set (L := Z.log2 (Zpos M)) in *.
  assert (HL : 52 <= L) by (apply Z.log2_le_pow2; lia).
  assert (Hspec : 2 ^ L <= Zpos M < 2 ^ Z.succ L) by (apply Z.log2_spec; lia).
  assert (HT : target (Zpos M) ez = ez + (L - 52)).
  { unfold target, fexp64, SpecFloat.fexp, SpecFloat.emin, Zdigits2.
    rewrite digits2_log2. fold L. unfold prec, emax. lia. }
  rewrite HT in Hm1, Hres.
  replace (ez + (L - 52) - ez) with (L - 52) in Hm1 by lia.
  set (q := Zpos M / 2 ^ (L - 52)) in *.
  assert (Hpow : 2 ^ L = 2 ^ 52 * 2 ^ (L - 52)).
  { rewrite <- Z.pow_add_r by lia. f_equal. lia. }
  assert (Hpow' : 2 ^ Z.succ L = 2 ^ 53 * 2 ^ (L - 52)).
  { rewrite <- Z.pow_add_r by lia. f_equal. lia. }
  assert (Hk : 0 < 2 ^ (L - 52)) by (apply Z.pow_pos_nonneg; lia).
  assert (Hq : 2 ^ 52 <= q < 2 ^ 53).
  { unfold q. split.
    - apply Z.div_le_lower_bound; lia.
    - apply Z.div_lt_upper_bound; lia. }
  set (L1 := Z.log2 m1).
  assert (Hm1pos : 0 < m1) by lia.
  assert (HL1 : L1 = 52 \/ (L1 = 53 /\ m1 = 2 ^ 53)).
  { assert (H52 : 52 <= L1) by (apply Z.log2_le_pow2; lia).
    destruct (Z.eq_dec m1 (2 ^ 53)) as [Heq|Hne].
    - right. split; [|exact Heq]. unfold L1. rewrite Heq. reflexivity.
    - left. assert (L1 < 53) by (apply Z.log2_lt_pow2; lia). lia. }
  assert (HT2 : target m1 (ez + (L - 52)) = ez + (L - 52) + (L1 - 52)).
  { unfold target, fexp64, SpecFloat.fexp, SpecFloat.emin, Zdigits2.
    destruct m1 as [|p1|p1]; try lia.
    rewrite digits2_log2. fold L1. unfold prec, emax. lia. }
  rewrite HT2 in Hres.
  replace (ez + (L - 52) + (L1 - 52) - (ez + (L - 52))) with (L1 - 52) in Hres by lia.
  destruct HL1 as [HL1|[HL1 Heq]].
  - rewrite HL1 in Hres. change (2 ^ (52 - 52)) with 1 in Hres.
    rewrite Z.div_1_r in Hres.
    destruct m1 as [|p1|p1]; try lia.
    destruct (_ <=? _) in Hres; [right|left; exact Hres].
    exists p1, (ez + (L - 52) + (52 - 52)). split; [exact Hres|]. split; lia.
  - rewrite HL1, Heq in Hres.
    change (2 ^ 53 / 2 ^ (53 - 52)) with (Zpos 4503599627370496) in Hres.
    destruct (_ <=? _) in Hres; [right|left; exact Hres].
    exists 4503599627370496%positive, (ez + (L - 52) + (53 - 52)).
    split; [exact Hres|]. split; lia.
Qed.

Lemma compare_cont_Eq_lt (m p : positive) :
  Pos.compare_cont Eq m p = Lt <-> (m < p)%positive.
Proof.
  exact (Pos.compare_lt_iff m p).
Qed.

(** A valid finite float below 1 has an exponent of at most -53, and 53
    bits when its exponent is above the least one. *)
Lemma below_one_shape (m : positive) (e : Z) :
  SpecFloat.bounded prec emax m e = true ->
  SFltb (S754_finite false m e) (S754_finite false 4503599627370496 (-52))
  = true ->
  -1074 <= e <= -53 /\ (-1074 < e -> 2 ^ 52 <= Zpos m).
Proof.
  unfold SpecFloat.bounded, canonical_mantissa, SpecFloat.fexp, SpecFloat.emin.
  rewrite digits2_log2. unfold prec, emax.
  intros Hb Hlt. apply andb_true_iff in Hb. destruct Hb as [Hc _].
  apply Z.eqb_eq in Hc.
  assert (Hnormal : -1074 < e -> 2 ^ 52 <= Zpos m).
  { intros He. apply Z.log2_le_pow2; lia. }
  split; [|exact Hnormal].
  unfold SFltb, SFcompare in Hlt.
  destruct (e ?= -52) eqn:Hcmp; try discriminate.
  - apply Z.compare_eq in Hcmp.
    assert (H52 : 2 ^ 52 <= Zpos m) by (apply Hnormal; lia).
    destruct (Pos.compare_cont Eq m 4503599627370496) eqn:Hm; try discriminate.
    assert (Hm' : Zpos m < 4503599627370496)
      by (apply Pos2Z.pos_lt_pos, compare_cont_Eq_lt; exact Hm).
    clear Hm. change (2 ^ 52) with 4503599627370496 in H52. lia.
  - rewrite Z.compare_lt_iff in Hcmp. lia.
Qed.

(** The exact sum [m * 2 ^ e + 0.2], as a mantissa at the exponent
    [Z.min e (-55)], rounds to a float above [m * 2 ^ e]. *)
Lemma add_fifth_above (m : positive) (e : Z) :
  -1074 <= e <= -53 ->
  (-1074 < e -> 2 ^ 52 <= Zpos m) ->
  SFltb (S754_finite false m e)
        (SF64add (S754_finite false m e)
                 (S754_finite false 7205759403792794 (-55)))
  = true.
Proof.
  intros He Hnormal.
  unfold SF64add, SFadd. cbn [cond_Zopp]. rewrite <- Pos2Z.inj_add.
  unfold binary_normalize, binary_round.
  set (ez := Z.min e (-55)).
  set (a := fst (shl_align m e ez)).
  set (b := fst (shl_align 7205759403792794 (-55) ez)).
  assert (Ha : Zpos a = Zpos m * 2 ^ (e - ez))
    by (apply shl_align_value; unfold ez; lia).
  assert (Hb : Zpos b = 7205759403792794 * 2 ^ (-55 - ez))
    by (apply shl_align_value; unfold ez; lia).
  assert (Hkb : 0 < 2 ^ (-55 - ez)) by (apply Z.pow_pos_nonneg; unfold ez; lia).
  assert (Hka : 0 < 2 ^ (e - ez)) by (apply Z.pow_pos_nonneg; unfold ez; lia).
  set (M := (a + b)%positive).
  assert (HM : Zpos M = Zpos a + Zpos b) by (unfold M; lia).
  (* the sum has at least the bits of 0.2 at the common exponent *)
  assert (Hlow : 2 ^ (-3 - ez) <= Zpos M).
  { replace (-3 - ez) with (52 + (-55 - ez)) by lia.
    rewrite Z.pow_add_r by (unfold ez; lia).
    change (2 ^ 52) with 4503599627370496. nia. }
  assert (HL : -3 - ez <= Z.log2 (Zpos M)) by (apply Z.log2_le_pow2; lia).
  assert (H52 : 2 ^ 52 <= Zpos M).
  { apply Z.le_trans with (2 ^ (-3 - ez)); [|exact Hlow].
    apply Z.pow_le_mono_r; unfold ez; lia. }
  rewrite shl_align_same.
  2:{ unfold SpecFloat.fexp. rewrite digits2_log2. unfold prec. lia. }
  destruct (round_normal M ez H52) as [Hinf|[p [T2 [Hfin [HT2 Hp]]]]];
    [unfold ez; lia| |].
  - rewrite Hinf. reflexivity.
  - rewrite Hfin. unfold SFltb, SFcompare.
    destruct (Z_lt_le_dec e (-55)) as [Hsmall|Hbig].
    + (* the result has the exponent of 0.2 at least *)
      assert (Hlt : e < T2) by (unfold ez in *; lia).
      apply Z.compare_lt_iff in Hlt. rewrite Hlt. reflexivity.
    + (* the float has 53 bits and shares the exponent range of 0.2 *)
      assert (Hez : ez = -55) by (unfold ez; lia).
      assert (Hm : 2 ^ 52 <= Zpos m) by (apply Hnormal; lia).
      rewrite Hez in *. change (-55 - -55) with 0 in Hb.
      change (2 ^ 0) with 1 in Hb.
      set (j := e - -55) in *.
      assert (Hj : 0 <= j <= 2) by (unfold j; lia).
      assert (HMj : 2 ^ (52 + j) <= Zpos M).
      { rewrite Z.pow_add_r by lia. change (2 ^ 52) with 4503599627370496 in *. nia. }
      assert (HLj : 52 + j <= Z.log2 (Zpos M)) by (apply Z.log2_le_pow2; lia).
      destruct (Z.compare_spec e T2) as [Heq|Hlt|Hgt]; [|reflexivity|lia].
      assert (Hlog : Z.log2 (Zpos M) - 52 = j) by (unfold j in *; lia).
      specialize (Hp ltac:(lia)). rewrite Hlog in Hp.
      assert (Hgt : Zpos m < Zpos p).
      { apply Z.lt_le_trans with (Zpos M / 2 ^ j); [|exact Hp].
        apply Z.lt_le_trans with (Zpos m + 1); [lia|].
        apply Z.div_le_lower_bound; [lia|].
        rewrite HM, Ha, Hb.
        assert (H4 : 2 ^ j <= 4).
        { change 4 with (2 ^ 2). apply Z.pow_le_mono_r; lia. }
        nia. }
      rewrite (proj2 (compare_cont_Eq_lt m p)); [reflexivity|].
      apply Pos2Z.pos_lt_pos. exact Hgt.
Qed.

Local Open Scope float_scope.

(** Adding 0.2 to a float in [0, 1) gives a float above it. *)
Lemma add_fifth_increases (b : float) :
  nonneg b = true -> (b <? 1) = true -> (b <? b + 0.2) = true.
Proof.
  unfold nonneg. rewrite !FloatAxioms.ltb_spec, FloatAxioms.add_spec.
  change (Prim2SF 1) with (S754_finite false 4503599627370496 (-52)).
  change (Prim2SF 0.2) with (S754_finite false 7205759403792794 (-55)).
  pose proof (Prim2SF_valid b) as Hvalid.
  destruct (Prim2SF b) as [s|s| |s m e]; simpl SFnonneg; try discriminate.
  - intros _ _. reflexivity.
  - destruct s; discriminate.
  - destruct s; [discriminate|]. intros _ Hlt.
    destruct (below_one_shape m e Hvalid Hlt) as [He Hnormal].
    apply add_fifth_above; assumption.
Qed.

(** Adding 0 changes no comparison. *)
Lemma add_zero_compare (b : float) :
  Prim2SF (b + 0) = Prim2SF b
  \/ exists s s', Prim2SF (b + 0) = S754_zero s /\ Prim2SF b = S754_zero s'.
Proof.
  rewrite FloatAxioms.add_spec. change (Prim2SF 0) with (S754_zero false).
  destruct (Prim2SF b) as [s|s| |s m e]; simpl.
  - right. exists (if s then false else false), s. destruct s; split; reflexivity.
  - left. reflexivity.
  - left. reflexivity.
  - left. reflexivity.
Qed.

Lemma add_zero_ltb_l (b y : float) : (b + 0 <? y) = (b <? y).
Proof.
  rewrite !FloatAxioms.ltb_spec.
  destruct (add_zero_compare b) as [->|[s [s' [-> ->]]]]; reflexivity.
Qed.

Lemma add_zero_nonneg (b : float) : nonneg b = true -> nonneg (b + 0) = true.
Proof.
  intros Hb. apply add_nonneg; [exact Hb|reflexivity].
Qed.

Lemma zero_ltb_one (x : float) : (x =? 0) = true -> (x <? 1) = true.
Proof.
  rewrite FloatAxioms.eqb_spec, FloatAxioms.ltb_spec.
  change (Prim2SF 0) with (S754_zero false).
  change (Prim2SF 1) with (S754_finite false 4503599627370496 (-52)).
  destruct (Prim2SF x) as [s|s| |s m e]; simpl; try discriminate; try reflexivity.
  - destruct s; discriminate.
  - unfold SFeqb. simpl. destruct s; discriminate.
Qed.

(** [Math.min(x, 1)] is [x] when it is below 1. *)
Lemma min_one_below (x : float) :
  nonneg x = true -> (Num.min x 1 <? 1) = true -> Num.min x 1 = x /\ (x <? 1) = true.
Proof.
  intros Hx. unfold Num.min. rewrite (nonneg_not_nan x Hx).
  change (PrimFloat.is_nan 1) with false. cbv iota.
  destruct (x <? 1) eqn:Hlt; [intros _; split; reflexivity|].
  destruct (1 <? x) eqn:Hgt; [discriminate|].
  unfold Num.isNegZero. destruct (x =? 0) eqn:Hzero; simpl.
  - rewrite (zero_ltb_one x Hzero) in Hlt. discriminate.
  - discriminate.
Qed.

(** With a base that is not below zero and a capped confidence below 1,
    the bonus 0.2 gives a confidence above the one without it. *)
Lemma bonus_increases (b : float) :
  nonneg b = true ->
  (Num.min (b + 0) 1 <? 1) = true ->
  (Num.min (b + 0) 1 <? Num.min (b + 0.2) 1) = true.
Proof.
  intros Hb Hbelow.
  destruct (min_one_below (b + 0) (add_zero_nonneg b Hb) Hbelow) as [Hmin Hlt].
  rewrite Hmin. rewrite add_zero_ltb_l in Hlt |- *.
  assert (Hsum : nonneg (b + 0.2) = true) by (apply add_nonneg; [exact Hb|reflexivity]).
  pose proof (add_fifth_increases b Hb Hlt) as Hinc.
  unfold Num.min. rewrite (nonneg_not_nan _ Hsum).
  change (PrimFloat.is_nan 1) with false. cbv iota.
  destruct (b + 0.2 <? 1); [exact Hinc|].
  destruct (1 <? b + 0.2); [exact Hlt|].
  destruct (Num.isNegZero (b + 0.2)); [exact Hinc|exact Hlt].
Qed.

Set Implicit Arguments.

End FloatFacts.

(** ** The scores of the candidate filter *)

Section CandidateScores.

Local Open Scope float_scope.

Context `{Collaborators}.
Variable this : LLMAnalysisStrategy.
Variable context : AnalysisContext.
Variable keywords : SearchKeywords.

Lemma candidateOf_in_range (fileScores : JsMap.t) (file : string)
      (candidate : FileEntry) :
  candidateOf context keywords fileScores file = Fulfilled (Some candidate) ->
  scoreInRange candidate.
Proof.
  unfold candidateOf.
  destruct (loadFileContent _) as [text|]; [|discriminate].
  destruct (Str.truthy text); [|discriminate].
  destruct (calculateContentScore text keywords) as [contentScore|e];
    [|discriminate].
  simpl bind.
  destruct (0.5 <? _) eqn:Habove; [|discriminate].
  intros Heq. inversion Heq; subst candidate. unfold scoreInRange. simpl.
  apply min_one_range. apply above_half_div_10_nonneg. exact Habove.
Qed.

Lemma loadCandidates_in_range (fileScores : JsMap.t) (files : list string) :
  forall candidate,
    In candidate (loadCandidates context keywords fileScores files) ->
    scoreInRange candidate.
Proof.
  unfold loadCandidates.
  assert (Hloop : forall acc,
             (forall c, In c acc -> scoreInRange c) ->
             forall c,
               In c (fold_left
                       (fun candidates file =>
                          match tryCatch
                                  (candidateOf context keywords fileScores file)
                                  (fun _ => None) with
                          | Some candidate => Arr.push candidates candidate
                          | None => candidates
                          end) files acc) ->
               scoreInRange c).
  { induction files as [|file files IH]; intros acc Hacc c Hin; simpl in Hin.
    - apply Hacc. exact Hin.
    - apply IH with (2 := Hin). clear Hin c. intros c Hin.
      destruct (candidateOf context keywords fileScores file)
        as [[candidate|]|e] eqn:Hof; simpl in Hin.
      + unfold Arr.push in Hin. apply in_app_or in Hin.
        destruct Hin as [Hin|[<-|[]]].
        * apply Hacc. exact Hin.
        * apply candidateOf_in_range with (1 := Hof).
      + apply Hacc. exact Hin.
      + apply Hacc. exact Hin. }
  apply Hloop. intros c [].
Qed.

(** C7: every entry returned by [findCandidateFiles] has a relevance score
    in [0, 1]: it is the minimum of 1 and of a tenth of a combined score
    above 0.5. *)
Theorem candidate_scores_in_unit_interval (entry : FileEntry) :
  In entry (findCandidateFiles this context keywords) ->
  (0 <=? relevanceScore entry) = true /\ (relevanceScore entry <=? 1) = true.
Proof.
  unfold findCandidateFiles. intros Hin.
  apply sort_In in Hin.
  apply loadCandidates_in_range with (1 := Hin).
Qed.

End CandidateScores.

(** ** The confidence *)

Section Confidence.

Local Open Scope float_scope.

Context `{Collaborators}.

(** Modelled from the spec: [BaseAnalysisStrategy.calculateConfidence] is
    not among the sources. The spec has it return a confidence, a number of
    [0, 1] (of which the lower bound is used here), derived from the sizes
    and the scores of the result, so that it does not read the reasons. *)
Hypothesis base_not_negative :
  forall result, (0 <=? baseCalculateConfidence result) = true.
Hypothesis base_ignores_reasons :
  forall result,
    baseCalculateConfidence (withoutReasons result)
    = baseCalculateConfidence result.

Lemma withoutReasons_hasReason (result : AnalysisResult) :
  existsb hasReason (files (withoutReasons result)) = false.
Proof.
  simpl. induction (files result) as [|f l IH]; simpl.
  - reflexivity.
  - exact IH.
Qed.

Lemma calculateConfidence_in_range (result : AnalysisResult) :
  (0 <=? calculateConfidence result) = true
  /\ (calculateConfidence result <=? 1) = true.
Proof.
  unfold calculateConfidence. apply min_one_range.
  apply add_nonneg.
  - apply nonneg_leb. apply base_not_negative.
  - destruct (existsb hasReason (files result)); reflexivity.
Qed.

(** C5: the confidence lies in [0, 1]; and for a result with a non-empty
    reason on a file, it is strictly above the confidence of the same
    result with all reasons empty, unless that one has reached the cap 1. *)
Theorem confidence_in_range_and_raised_by_a_reason (result : AnalysisResult) :
  ((0 <=? calculateConfidence result) = true
   /\ (calculateConfidence result <=? 1) = true)
  /\ (existsb hasReason (files result) = true ->
      (calculateConfidence (withoutReasons result) <? 1) = true ->
      (calculateConfidence (withoutReasons result) <? calculateConfidence result)
      = true).
Proof.
  split; [apply calculateConfidence_in_range|].
  intros Hreason. unfold calculateConfidence.
  rewrite withoutReasons_hasReason, Hreason, base_ignores_reasons.
  apply bonus_increases. apply nonneg_leb. apply base_not_negative.
Qed.

End Confidence.

(** ** The properties on the concrete workspace *)

Section Witnesses.

Local Open Scope float_scope.

(** A path twice among the candidates is scored once; the excluded
    [dist/UserService.js] stays above the threshold with 4 * 0.1. *)
Example first_pass_of_the_workspace :
  topCandidates Example.defaults (Example.context None) Example.keywords
  = ["src/services/UserService.ts"; "src/utils/logger.ts";
     "dist/UserService.js"]%string
  /\ calculateFilePathScore "src/services/UserService.ts" Example.keywords
     = 4.8
  /\ calculateFilePathScore "dist/UserService.js" Example.keywords = 0.4.
Proof.
  repeat split; vm_compute; reflexivity.
Qed.

(** One primary keyword in the name of an excluded file: the product
    3 * 0.1 is the float above 0.3, and the path is kept. *)
Example excluded_path_with_one_hit_is_kept :
  calculateFilePathScore "dist/handler"
    {| primary := ["handler"%string]; secondary := []; technical := [];
       contextual := [] |}
  = 0.30000000000000004
  /\ (0.3 <? 0.30000000000000004) = true.
Proof.
  split; vm_compute; reflexivity.
Qed.

Example candidates_of_the_workspace :
  map (fun entry => (path entry, relevanceScore entry))
      (@findCandidateFiles Example.quiet Example.defaults
         (Example.context None) Example.keywords)
  = [("src/services/UserService.ts"%string, 0.5);
     ("src/utils/logger.ts"%string, 0.2);
     ("dist/UserService.js"%string, 0.060000000000000012)].
Proof.
  vm_compute. reflexivity.
Qed.

Example posix_paths :
  Str.basename "src/services/UserService.ts" = "UserService.ts"%string
  /\ Str.dirname "src/services/UserService.ts" = "src/services"%string
  /\ Str.dirname "logger.ts" = "."%string
  /\ Str.dirname "/logger.ts" = "/"%string
  /\ Str.basename "src/utils/" = "utils"%string.
Proof.
  repeat split.
Qed.


Lemma failed_batch_degrades_to_heuristic_scores_witness :
  0 < batchSize Example.defaults
  /\ (forall file,
         In file (Arr.slice 0 (0 + batchSize Example.defaults)
                    (@filesToAnalyze Example.down Example.defaults
                       (Example.context None) Example.keywords)) ->
         exists error,
           @analyzeCodeRelevance Example.down (issue (Example.context None))
             (path file) (content file)
           = Rejected error)
  /\ In Example.topEntry
        (Arr.slice 0 (0 + batchSize Example.defaults)
           (@filesToAnalyze Example.down Example.defaults (Example.context None)
              Example.keywords))
  /\ exists analyzed files,
      @llmAnalyzedFiles Example.down Example.defaults (Example.context None)
        Example.keywords
      = Some (Fulfilled analyzed)
      /\ In Example.topEntry analyzed
      /\ @findRelevantFiles Example.down Example.defaults (Example.context None)
           Example.keywords
         = Some (Fulfilled files).
Proof.
  assert (Hpos : 0 < batchSize Example.defaults) by (vm_compute; lia).
  assert (Hthrow : forall file,
             In file (Arr.slice 0 (0 + batchSize Example.defaults)
                        (@filesToAnalyze Example.down Example.defaults
                           (Example.context None) Example.keywords)) ->
             exists error,
               @analyzeCodeRelevance Example.down (issue (Example.context None))
                 (path file) (content file)
               = Rejected error).
  { intros file _. eexists. reflexivity. }
  assert (Htop : In Example.topEntry
                    (Arr.slice 0 (0 + batchSize Example.defaults)
                       (@filesToAnalyze Example.down Example.defaults
                          (Example.context None) Example.keywords))).
  { vm_compute. left. reflexivity. }
  split; [exact Hpos|]. split; [exact Hthrow|]. split; [exact Htop|].
  destruct (@failed_batch_degrades_to_heuristic_scores Example.down Example.defaults
              (Example.context None) Example.keywords 0 Hpos Hthrow)
    as [_ [analyzed [files [Hanalyzed [Hin Hfiles]]]]].
  exists analyzed, files.
  split; [exact Hanalyzed|]. split; [|exact Hfiles].
  apply Hin. exact Htop.
Defined.

Lemma candidate_scores_in_unit_interval_witness :
  In Example.topEntry
     (@findCandidateFiles Example.quiet Example.defaults (Example.context None)
        Example.keywords)
  /\ (0 <=? relevanceScore Example.topEntry) = true
  /\ (relevanceScore Example.topEntry <=? 1) = true.
Proof.
  assert (Hin : In Example.topEntry
                   (@findCandidateFiles Example.quiet Example.defaults
                      (Example.context None) Example.keywords)).
  { vm_compute. left. reflexivity. }
  split; [exact Hin|].
  apply (@candidate_scores_in_unit_interval Example.quiet Example.defaults
           (Example.context None) Example.keywords Example.topEntry Hin).
Defined.

Lemma confidence_in_range_and_raised_by_a_reason_witness :
  (forall result, (0 <=? @baseCalculateConfidence Example.quiet result) = true)
  /\ (forall result,
         @baseCalculateConfidence Example.quiet (withoutReasons result)
         = @baseCalculateConfidence Example.quiet result)
  /\ existsb hasReason (files Example.explained) = true
  /\ (@calculateConfidence Example.quiet (withoutReasons Example.explained) <? 1) = true
  /\ ((0 <=? @calculateConfidence Example.quiet Example.explained) = true
      /\ (@calculateConfidence Example.quiet Example.explained <=? 1) = true)
  /\ (@calculateConfidence Example.quiet (withoutReasons Example.explained)
        <? @calculateConfidence Example.quiet Example.explained) = true.
Proof.
  assert (Hbase : forall result,
             (0 <=? @baseCalculateConfidence Example.quiet result) = true).
  { intros result. simpl. destruct (files result); reflexivity. }
  assert (Hsame : forall result,
             @baseCalculateConfidence Example.quiet (withoutReasons result)
             = @baseCalculateConfidence Example.quiet result).
  { intros result. simpl. destruct (files result); reflexivity. }
  assert (Hreason : existsb hasReason (files Example.explained) = true)
    by reflexivity.
  assert (Hbelow : (@calculateConfidence Example.quiet (withoutReasons Example.explained)
                      <? 1) = true)
    by (vm_compute; reflexivity).
  split; [exact Hbase|]. split; [exact Hsame|].
  split; [exact Hreason|]. split; [exact Hbelow|].
  destruct (@confidence_in_range_and_raised_by_a_reason Example.quiet Hbase Hsame
              Example.explained) as [Hrange Hraised].
  split; [exact Hrange|]. apply Hraised; assumption.
Defined.

Lemma http_method_ignores_comment_witness :
  In "get"%string httpMethods
  /\ Str.includes (Str.toLowerCase "GET /users") "get" = true
  /\ (forall m, In m httpMethods ->
        Str.includes
          (Str.toLowerCase
             (name Example.listUsers ++ " " ++ qualifiedName Example.listUsers))
          m
        = false)
  /\ (forall other,
         name other = name Example.getUserController ->
         qualifiedName other = qualifiedName Example.getUserController ->
         extractHttpMethod other = extractHttpMethod Example.getUserController
         /\ method (@toApiEntry Example.quiet (Example.context None) other)
            = method (@toApiEntry Example.quiet (Example.context None)
                        Example.getUserController))
  /\ (forall c',
         extractHttpMethod (withComment c' Example.getUserController)
         = extractHttpMethod Example.getUserController
         /\ method (@toApiEntry Example.quiet (Example.context None)
                      (withComment c' Example.getUserController))
            = method (@toApiEntry Example.quiet (Example.context None)
                        Example.getUserController))
  /\ extractHttpMethod Example.getUserController = Some "GET"%string
  /\ isApiRelated (withComment (Some "GET /users"%string) Example.listUsers)
     = true
  /\ method (@toApiEntry Example.quiet (Example.context None)
               (withComment (Some "GET /users"%string) Example.listUsers))
     = "UNKNOWN"%string.
Proof.
  assert (Hverb : In "get"%string httpMethods) by (left; reflexivity).
  assert (Hc : Str.includes (Str.toLowerCase "GET /users") "get" = true)
    by reflexivity.
  assert (Hnames : forall m, In m httpMethods ->
             Str.includes
               (Str.toLowerCase
                  (name Example.listUsers ++ " "
                     ++ qualifiedName Example.listUsers)) m
             = false).
  { intros m Hm. unfold httpMethods in Hm. simpl in Hm.
    repeat (destruct Hm as [<-|Hm]; [reflexivity|]). destruct Hm. }
  split; [exact Hverb|]. split; [exact Hc|]. split; [exact Hnames|].
  split;
    [exact (proj1 (@http_method_ignores_comment Example.quiet
                     (Example.context None) Example.getUserController))|].
  split;
    [exact (proj1 (proj2 (@http_method_ignores_comment Example.quiet
                            (Example.context None)
                            Example.getUserController)))|].
  split; [reflexivity|].
  exact (proj2 (proj2 (@http_method_ignores_comment Example.quiet
                         (Example.context None) Example.listUsers))
           "GET /users"%string "get"%string Hverb Hc Hnames).
Defined.

Lemma getUserController_reported_as_GET_witness :
  symbolAnalysis (Example.context (Some [Example.getUserController]))
  = Some ([] ++ Example.getUserController :: [])
  /\ name Example.getUserController = "getUserController"%string
  /\ comment Example.getUserController = Some "GET /users/:id"%string
  /\ (0.3 <? @calculateSymbolRelevance Example.quiet Example.getUserController
               Example.keywords) = true
  /\ List.length (filter (@apiKept Example.quiet Example.keywords) []) < 8
  /\ In (@toApiEntry Example.quiet (Example.context (Some [Example.getUserController]))
           Example.getUserController)
        (@findRelevantApis Example.quiet
           (Example.context (Some [Example.getUserController]))
           Example.keywords)
  /\ method (@toApiEntry Example.quiet
               (Example.context (Some [Example.getUserController]))
               Example.getUserController)
     = "GET"%string
  /\ description (@toApiEntry Example.quiet
                    (Example.context (Some [Example.getUserController]))
                    Example.getUserController)
     = "GET /users/:id"%string.
Proof.
  assert (Hrelevant : (0.3 <? @calculateSymbolRelevance Example.quiet
                                Example.getUserController Example.keywords)
                      = true) by (vm_compute; reflexivity).
  assert (Hbefore : List.length (filter (@apiKept Example.quiet Example.keywords) []) < 8)
    by (simpl; lia).
  split; [reflexivity|]. split; [reflexivity|]. split; [reflexivity|].
  split; [exact Hrelevant|]. split; [exact Hbefore|].
  apply (@getUserController_reported_as_GET Example.quiet
           (Example.context (Some [Example.getUserController]))
           Example.keywords [] [] Example.getUserController
           eq_refl eq_refl eq_refl Hrelevant Hbefore).
Defined.

(** C8, as stated, fails: with eight kept handlers ahead of it in the
    sequence, [getUserController] is relevant and an API candidate, and no
    entry of the 8 that [findRelevantApis] returns is its entry. *)
Lemma ninth_api_symbol_is_cut_off :
  In Example.getUserController Example.crowded
  /\ name Example.getUserController = "getUserController"%string
  /\ comment Example.getUserController = Some "GET /users/:id"%string
  /\ (0.3 <? @calculateSymbolRelevance Example.quiet Example.getUserController
               Example.keywords) = true
  /\ ~ In (@toApiEntry Example.quiet (Example.context (Some Example.crowded))
             Example.getUserController)
          (@findRelevantApis Example.quiet (Example.context (Some Example.crowded))
             Example.keywords)
  /\ forall entry,
      In entry (@findRelevantApis Example.quiet (Example.context (Some Example.crowded))
                  Example.keywords) ->
      description entry <> "GET /users/:id"%string.
Proof.
  assert (Hnone : forall entry,
             In entry (@findRelevantApis Example.quiet
                         (Example.context (Some Example.crowded))
                         Example.keywords) ->
             description entry <> "GET /users/:id"%string).
  { intros entry Hin. vm_compute in Hin.
    repeat (destruct Hin as [<-|Hin]; [discriminate|]). destruct Hin. }
  split; [vm_compute; tauto|].
  split; [reflexivity|]. split; [reflexivity|].
  split; [vm_compute; reflexivity|].
  split; [|exact Hnone].
  intros Hin. apply (Hnone _ Hin). reflexivity.
Qed.

End Witnesses.

(** * Further properties of the strategy *)

(** ** API entries *)

Section ApiEntries.

Local Open Scope float_scope.

Context `{Collaborators}.
Variable context : AnalysisContext.
Variable keywords : SearchKeywords.

Lemma toApiEntry_method_name (symbol : Symbol) :
  In (method (toApiEntry context symbol)) methodNames.
Proof.
  unfold toApiEntry. simpl method. unfold extractHttpMethod.
  destruct (find _ httpMethods) as [verb|] eqn:Hfind; simpl.
  - apply find_some in Hfind. destruct Hfind as [Hverb _].
    unfold httpMethods in Hverb. simpl in Hverb. unfold methodNames.
    repeat (destruct Hverb as [<-|Hverb]; [simpl; tauto|]). destruct Hverb.
  - unfold methodNames. simpl. tauto.
Qed.

(** X1: [findRelevantApis] returns, in the order of the input, the entries
    of the first 8 symbols that are API candidates with a relevance above
    0.3; it is empty without a symbol analysis. *)
Theorem findRelevantApis_keeps_input_order :
  findRelevantApis context keywords
  = match symbolAnalysis context with
    | None => []
    | Some symbols =>
        firstn 8 (map (toApiEntry context) (filter (apiKept keywords) symbols))
    end.
Proof.
  unfold findRelevantApis.
  destruct (symbolAnalysis context) as [symbols|]; [|reflexivity].
  rewrite slice_prefix. f_equal.
  rewrite <- (app_nil_l (map _ _)).
  rewrite <- (push_loop (apiKept keywords) (toApiEntry context) symbols []).
  apply fold_left_pointwise. intros acc symbol.
  unfold apiKept. destruct (isApiRelated symbol); reflexivity.
Qed.

(** X2: the method of every entry [findRelevantApis] returns is one of GET,
    POST, PUT, DELETE, PATCH, HEAD, OPTIONS and UNKNOWN, and the entry is
    the entry of a symbol of the analysis that is an API candidate with a
    relevance above 0.3. *)
Theorem api_entries_come_from_kept_symbols (entry : ApiEntry) :
  In entry (findRelevantApis context keywords) ->
  In (method entry) methodNames
  /\ exists symbols symbol,
      symbolAnalysis context = Some symbols
      /\ In symbol symbols
      /\ entry = toApiEntry context symbol
      /\ isApiRelated symbol = true
      /\ (0.3 <? calculateSymbolRelevance symbol keywords) = true.
Proof.
  rewrite findRelevantApis_filters_in_order.
  destruct (symbolAnalysis context) as [symbols|]; [|intros []].
  intros Hin. apply In_firstn in Hin. apply in_map_iff in Hin.
  destruct Hin as [symbol [<- Hkept]].
  apply filter_In in Hkept. destruct Hkept as [Hsymbol Hkept].
  unfold apiKept in Hkept. apply andb_true_iff in Hkept.
  destruct Hkept as [Hapi Hrelevant].
  split; [apply toApiEntry_method_name|].
  exists symbols, symbol. repeat split; assumption.
Qed.

(** X3: [extractHttpMethod] gives the first verb of get, post, put,
    delete, patch, head, options that occurs in the lower-cased name and
    qualified name, whatever verbs occur besides. *)
Theorem first_listed_verb_wins
        (symbol : Symbol) (before after : list string) (verb : string) :
  httpMethods = before ++ verb :: after ->
  Str.includes
    (Str.toLowerCase (name symbol ++ " " ++ qualifiedName symbol)) verb
  = true ->
  (forall m, In m before ->
     Str.includes
       (Str.toLowerCase (name symbol ++ " " ++ qualifiedName symbol)) m
     = false) ->
  extractHttpMethod symbol = Some (toUpperCase verb).
Proof.
  intros Hsplit Hverb Hbefore. unfold extractHttpMethod. rewrite Hsplit.
  clear Hsplit. induction before as [|m before IH]; cbn [find app].
  - rewrite Hverb. reflexivity.
  - rewrite (Hbefore m (or_introl eq_refl)). apply IH.
    intros m' Hm'. apply Hbefore. right. exact Hm'.
Qed.

(** X4: [getSymbolKindName] gives Unknown exactly for the kinds outside
    1..26. *)
Theorem unknown_kind_name (kind : Z) :
  getSymbolKindName kind = "Unknown"%string <-> ~ (1 <= kind <= 26)%Z.
Proof.
  split.
  - intros Hname Hrange.
    assert (Hcases : In kind (map fst kindMap)).
    { unfold kindMap. simpl.
      assert (Hk : (kind = 1 \/ kind = 2 \/ kind = 3 \/ kind = 4 \/ kind = 5
                    \/ kind = 6 \/ kind = 7 \/ kind = 8 \/ kind = 9
                    \/ kind = 10 \/ kind = 11 \/ kind = 12 \/ kind = 13
                    \/ kind = 14 \/ kind = 15 \/ kind = 16 \/ kind = 17
                    \/ kind = 18 \/ kind = 19 \/ kind = 20 \/ kind = 21
                    \/ kind = 22 \/ kind = 23 \/ kind = 24 \/ kind = 25
                    \/ kind = 26)%Z) by lia.
      repeat (destruct Hk as [->|Hk]; [tauto|]). subst kind. tauto. }
    unfold kindMap in Hcases. simpl in Hcases.
    repeat (destruct Hcases as [<-|Hcases]; [vm_compute in Hname; discriminate|]).
    destruct Hcases.
  - intros Hout. unfold getSymbolKindName.
    destruct (find _ kindMap) as [[k n]|] eqn:Hfind; [|reflexivity].
    apply find_some in Hfind. destruct Hfind as [Hin Heq].
    simpl in Heq. apply Z.eqb_eq in Heq. subst k.
    assert (Hk : In kind (map fst kindMap)) by (apply in_map_iff; exists (kind, n); auto).
    unfold kindMap in Hk. simpl in Hk.
    repeat (destruct Hk as [<-|Hk]; [lia|]). destruct Hk.
Qed.

End ApiEntries.

(** ** The entries of the candidate filter *)

Section MapKeys.

Context {V : Type}.

Lemma set_In_key (m : JsMap.t (V := V)) (k k' : string) (v : V) :
  In k' (map fst (JsMap.set m k v)) -> k' = k \/ In k' (map fst m).
Proof.
  induction m as [|[k0 v0] m IH]; simpl.
  - intros [<-|[]]. left. reflexivity.
  - destruct (String.eqb_spec k0 k) as [->|Hne]; simpl.
    + intros [<-|Hin]; [left; reflexivity|right; right; exact Hin].
    + intros [<-|Hin]; [right; left; reflexivity|].
      destruct (IH Hin) as [->|Hm]; [left; reflexivity|right; right; exact Hm].
Qed.

Lemma set_NoDup (m : JsMap.t (V := V)) (k : string) (v : V) :
  NoDup (map fst m) -> NoDup (map fst (JsMap.set m k v)).
Proof.
  induction m as [|[k0 v0] m IH]; simpl; intros Hnodup.
  - constructor; [intros []|constructor].
  - inversion Hnodup as [|k1 l Hnotin Hrest]; subst.
    destruct (String.eqb_spec k0 k) as [->|Hne]; simpl.
    + constructor; assumption.
    + constructor; [|apply IH; exact Hrest].
      intros Hin. destruct (set_In_key _ _ _ _ Hin) as [->|Hm];
        [apply Hne; reflexivity|apply Hnotin; exact Hm].
Qed.

(** Insert and lookup: a map with distinct keys gives the value of its
    entry. *)
Lemma get_of_entry (m : JsMap.t (V := V)) (k : string) (v : V) :
  NoDup (map fst m) -> In (k, v) m -> JsMap.get m k = Some v.
Proof.
  induction m as [|[k0 v0] m IH]; simpl; intros Hnodup Hin; [destruct Hin|].
  inversion Hnodup as [|k1 l Hnotin Hrest]; subst.
  destruct Hin as [Heq|Hin].
  - inversion Heq; subst. rewrite String.eqb_refl. reflexivity.
  - destruct (String.eqb_spec k0 k) as [->|Hne].
    + exfalso. apply Hnotin. apply in_map_iff. exists (k, v). auto.
    + apply IH; assumption.
Qed.

End MapKeys.

Section ListFacts.

Context {A : Type}.

Lemma NoDup_firstn (n : nat) (l : list A) : NoDup l -> NoDup (firstn n l).
Proof.
  revert l. induction n as [|n IH]; intros [|x l] Hl; simpl; try constructor.
  - inversion Hl; subst. intros Hin. apply In_firstn in Hin. contradiction.
  - inversion Hl; subst. apply IH. assumption.
Qed.

Lemma NoDup_skipn (n : nat) (l : list A) : NoDup l -> NoDup (skipn n l).
Proof.
  revert l. induction n as [|n IH]; intros [|x l] Hl; simpl; try assumption.
  inversion Hl; subst. apply IH. assumption.
Qed.

Lemma NoDup_slice (from to : nat) (l : list A) :
  NoDup l -> NoDup (Arr.slice from to l).
Proof.
  intros Hl. unfold Arr.slice. apply NoDup_firstn, NoDup_skipn. exact Hl.
Qed.

(** Elements of a list with distinct images are equal when their images
    are. *)
Lemma NoDup_map_same (B : Type) (f : A -> B) (l : list A) (a b : A) :
  NoDup (map f l) -> In a l -> In b l -> f a = f b -> a = b.
Proof.
  induction l as [|x l IH]; simpl; [intros _ []|].
  intros Hnodup Ha Hb Hsame.
  inversion Hnodup as [|y q Hnotin Hrest]; subst.
  destruct Ha as [->|Ha], Hb as [->|Hb].
  - reflexivity.
  - exfalso. apply Hnotin. rewrite Hsame. apply in_map. exact Hb.
  - exfalso. apply Hnotin. rewrite <- Hsame. apply in_map. exact Ha.
  - apply IH; assumption.
Qed.

(** A loop that pushes at most one element per turn. *)
Lemma push_option_loop (B : Type) (g : B -> option A) (l : list B)
      (acc : list A) :
  fold_left
    (fun acc x => match g x with Some y => Arr.push acc y | None => acc end)
    l acc
  = acc ++ flat_map (fun x => match g x with Some y => [y] | None => [] end) l.
Proof.
  revert acc. induction l as [|x l IH]; intros acc; simpl.
  - rewrite app_nil_r. reflexivity.
  - rewrite IH. destruct (g x); simpl.
    + unfold Arr.push. rewrite <- app_assoc. reflexivity.
    + reflexivity.
Qed.

End ListFacts.

Lemma substring_length_le (n : nat) (s : string) :
  String.length (String.substring 0 n s) <= n.
Proof.
  revert s. induction n as [|n IH]; intros [|c s]; simpl; try lia.
  specialize (IH s). lia.
Qed.

Lemma substring_of_truthy (n : nat) (s : string) :
  Str.truthy s = true -> Str.truthy (String.substring 0 (S n) s) = true.
Proof.
  destruct s; [discriminate|reflexivity].
Qed.

Section CandidateEntries.

Local Open Scope float_scope.

Context `{Collaborators}.
Variable this : LLMAnalysisStrategy.
Variable context : AnalysisContext.
Variable keywords : SearchKeywords.

Lemma loadCandidates_flat_map (fileScores : JsMap.t) (files : list string) :
  loadCandidates context keywords fileScores files
  = flat_map
      (fun file =>
         match candidateFor context keywords fileScores file with
         | Some candidate => [candidate]
         | None => []
         end) files.
Proof.
  unfold loadCandidates.
  rewrite <- (app_nil_l (flat_map _ _)).
  rewrite <- (push_option_loop (candidateFor context keywords fileScores) files []).
  reflexivity.
Qed.

(** What the second pass has seen when it makes a candidate of a path. *)
Lemma candidateFor_some (fileScores : JsMap.t) (file : string)
      (candidate : FileEntry) :
  candidateFor context keywords fileScores file = Some candidate ->
  exists text contentScore,
    readFile (path_join (workspacePath context) file) = Fulfilled text
    /\ Str.truthy text = true
    /\ calculateContentScore text keywords = Fulfilled contentScore
    /\ (0.5 <? Num.orZero (JsMap.get fileScores file) + contentScore) = true
    /\ candidate
       = {| path := file;
            content := Str.slice 0 4000 text;
            relevanceScore :=
              Num.min
                ((Num.orZero (JsMap.get fileScores file) + contentScore) / 10)
                1;
            file_reason := None |}.
Proof.
  unfold candidateFor, candidateOf, loadFileContent.
  destruct (readFile _) as [text|e] eqn:Hread; simpl; [|discriminate].
  destruct (Str.truthy text) eqn:Htruthy; simpl; [|discriminate].
  destruct (calculateContentScore text keywords) as [contentScore|e] eqn:Hscore;
    simpl; [|discriminate].
  destruct (0.5 <? _) eqn:Habove; simpl; [|discriminate].
  intros Heq. inversion Heq; subst candidate.
  exists text, contentScore. repeat split; assumption.
Qed.

Lemma loadCandidates_paths (fileScores : JsMap.t) (files : list string) :
  map path (loadCandidates context keywords fileScores files)
  = filter (fun file =>
              match candidateFor context keywords fileScores file with
              | Some _ => true
              | None => false
              end) files.
Proof.
  rewrite loadCandidates_flat_map.
  induction files as [|file files IH]; simpl; [reflexivity|].
  destruct (candidateFor context keywords fileScores file) as [candidate|] eqn:Hfor; simpl.
  - destruct (candidateFor_some _ _ Hfor) as [text [cs [_ [_ [_ [_ ->]]]]]].
    simpl. rewrite IH. reflexivity.
  - exact IH.
Qed.

Lemma scorePaths_keys_NoDup :
  NoDup (map fst (scorePaths context keywords)).
Proof.
  unfold scorePaths.
  assert (Hloop : forall paths fileScores,
             NoDup (map fst fileScores) ->
             NoDup (map fst
                      (fold_left
                         (fun fileScores file =>
                            let score := calculateFilePathScore file keywords in
                            if 0.3 <? score
                            then JsMap.set fileScores file score
                            else fileScores)
                         paths fileScores))).
  { intros paths.
    induction paths as [|file paths IH]; intros fileScores Hnodup; simpl.
    - exact Hnodup.
    - apply IH. destruct (0.3 <? _); [apply set_NoDup|]; exact Hnodup. }
  apply Hloop. constructor.
Qed.

Lemma topCandidates_NoDup : NoDup (topCandidates this context keywords).
Proof.
  unfold topCandidates.
  rewrite slice_prefix, <- firstn_map. apply NoDup_firstn.
  apply Permutation_NoDup with (l := map fst (scorePaths context keywords)).
  - apply Permutation_map. apply Permutation_sym. apply sort_perm.
  - apply scorePaths_keys_NoDup.
Qed.

Lemma topCandidates_score (file : string) :
  In file (topCandidates this context keywords) ->
  JsMap.get (scorePaths context keywords) file
  = Some (calculateFilePathScore file keywords)
  /\ In file (filteredFiles context)
  /\ (0.3 <? calculateFilePathScore file keywords) = true.
Proof.
  unfold topCandidates. intros Hin.
  apply in_map_iff in Hin. destruct Hin as [[k v] [Hk Hin]].
  simpl in Hk. subst k. apply slice_In in Hin. apply sort_In in Hin.
  destruct (scorePaths_scored context keywords file v Hin) as [Hfile [Hv Hgt]].
  split; [|split; [exact Hfile|rewrite <- Hv; exact Hgt]].
  rewrite <- Hv. apply get_of_entry; [apply scorePaths_keys_NoDup|exact Hin].
Qed.

(** A score above 0.3 is the number [x || 0] keeps. *)
Lemma orZero_above (x : float) : (0.3 <? x) = true -> Num.orZero (Some x) = x.
Proof.
  intros Habove. unfold Num.orZero, PrimFloat.is_nan.
  revert Habove. rewrite !FloatAxioms.eqb_spec, FloatAxioms.ltb_spec.
  change (Prim2SF 0.3) with (S754_finite false 5404319552844595 (-54)).
  change (Prim2SF 0) with (S754_zero false).
  destruct (Prim2SF x) as [s|s| |s m e]; simpl; try discriminate.
  - destruct s; [discriminate|reflexivity].
  - destruct s; [discriminate|]. intros _.
    unfold SFeqb, SFcompare. rewrite Z.compare_refl, Pos.compare_cont_refl.
    reflexivity.
Qed.

Lemma findCandidateFiles_entry (entry : FileEntry) :
  In entry (findCandidateFiles this context keywords) ->
  In (path entry) (topCandidates this context keywords)
  /\ candidateFor context keywords (scorePaths context keywords) (path entry) = Some entry.
Proof.
  unfold findCandidateFiles. intros Hin. apply sort_In in Hin.
  rewrite loadCandidates_flat_map in Hin. apply in_flat_map in Hin.
  destruct Hin as [file [Hfile Hin]].
  destruct (candidateFor context keywords _ file) as [candidate|] eqn:Hfor; [|destruct Hin].
  destruct Hin as [<-|[]].
  destruct (candidateFor_some _ _ Hfor) as [text [cs [_ [_ [_ [_ Heq]]]]]].
  assert (Hpath : path candidate = file) by (rewrite Heq; reflexivity).
  rewrite Hpath. split; assumption.
Qed.

Lemma candidate_paths_distinct :
  NoDup (map path (findCandidateFiles this context keywords)).
Proof.
  unfold findCandidateFiles.
  apply Permutation_NoDup
    with (l := map path
                 (loadCandidates context keywords
                    (scorePaths context keywords)
                    (topCandidates this context keywords))).
  - apply Permutation_map. apply Permutation_sym. apply sort_perm.
  - rewrite loadCandidates_paths. apply NoDup_filter. apply topCandidates_NoDup.
Qed.

(** X5: no two entries of [findCandidateFiles] have the same path, also
    when a path occurs more than once among the candidate paths; and each
    path that is kept is kept once by the first pass. *)
Theorem candidate_paths_are_distinct :
  NoDup (topCandidates this context keywords)
  /\ NoDup (map path (findCandidateFiles this context keywords)).
Proof.
  split; [apply topCandidates_NoDup|apply candidate_paths_distinct].
Qed.

(** X6: [findCandidateFiles] returns at most [2 * maxFilesToAnalyze]
    entries; the path of each is a candidate path with a path score above
    0.3, its content has at most 4000 characters, and it has no reason. *)
Theorem candidates_are_bounded :
  List.length (findCandidateFiles this context keywords)
    <= 2 * maxFilesToAnalyze this
  /\ forall entry,
      In entry (findCandidateFiles this context keywords) ->
      In (path entry) (filteredFiles context)
      /\ (0.3 <? calculateFilePathScore (path entry) keywords) = true
      /\ String.length (content entry) <= 4000
      /\ file_reason entry = None.
Proof.
  split.
  - unfold findCandidateFiles.
    rewrite (Permutation_length (sort_perm _ _)).
    rewrite <- (length_map path), loadCandidates_paths.
    eapply Nat.le_trans; [apply filter_length_le|].
    unfold topCandidates. rewrite length_map.
    eapply Nat.le_trans; [apply slice_length|]. lia.
  - intros entry Hin.
    destruct (findCandidateFiles_entry entry Hin) as [Htop Hfor].
    destruct (topCandidates_score _ Htop) as [_ [Hfile Hscore]].
    destruct (candidateFor_some _ _ Hfor) as [text [cs [_ [_ [_ [_ Heq]]]]]].
    split; [exact Hfile|]. split; [exact Hscore|].
    rewrite Heq. simpl. split; [|reflexivity].
    unfold Str.slice. apply substring_length_le.
Qed.

(** X7: every entry of [findCandidateFiles] is made of a file that was
    read and is not empty: its content is the first 4000 characters of the
    text, and its score is the minimum of 1 and of a tenth of the sum, above
    0.5, of the path score and of the content score of the whole text. *)
Theorem candidate_is_made_of_its_file (entry : FileEntry) :
  In entry (findCandidateFiles this context keywords) ->
  exists text contentScore,
    readFile (path_join (workspacePath context) (path entry)) = Fulfilled text
    /\ text <> ""%string
    /\ content entry = String.substring 0 4000 text
    /\ content entry <> ""%string
    /\ calculateContentScore text keywords = Fulfilled contentScore
    /\ (0.5 <? calculateFilePathScore (path entry) keywords + contentScore)
       = true
    /\ relevanceScore entry
       = Num.min
           ((calculateFilePathScore (path entry) keywords + contentScore) / 10)
           1.
Proof.
  intros Hin.
  destruct (findCandidateFiles_entry entry Hin) as [Htop Hfor].
  destruct (topCandidates_score _ Htop) as [Hget [_ Hscore]].
  destruct (candidateFor_some _ _ Hfor)
    as [text [cs [Hread [Htruthy [Hcs [Habove Heq]]]]]].
  rewrite Hget, (orZero_above Hscore) in Habove, Heq.
  exists text, cs.
  assert (Hcontent : content entry = String.substring 0 4000 text)
    by (rewrite Heq; reflexivity).
  split; [exact Hread|].
  split; [intros ->; discriminate|].
  split; [exact Hcontent|].
  split.
  { rewrite Hcontent. intros Hempty.
    pose proof (substring_of_truthy 3999 text Htruthy) as Hsub.
    rewrite Hempty in Hsub. discriminate. }
  split; [exact Hcs|]. split; [exact Habove|].
  rewrite Heq. reflexivity.
Qed.

(** X8: a path whose file cannot be read, or is empty, has no entry in the
    output of [findCandidateFiles]. *)
Theorem unreadable_file_is_skipped (file : string) :
  (forall text,
      readFile (path_join (workspacePath context) file) = Fulfilled text ->
      text = ""%string) ->
  forall entry,
    In entry (findCandidateFiles this context keywords) ->
    path entry <> file.
Proof.
  intros Hunreadable entry Hin Hpath.
  destruct (findCandidateFiles_entry entry Hin) as [_ Hfor].
  destruct (candidateFor_some _ _ Hfor) as [text [cs [Hread [Htruthy _]]]].
  rewrite Hpath in Hread. rewrite (Hunreadable text Hread) in Htruthy.
  discriminate.
Qed.

End CandidateEntries.

(** ** What [findRelevantFiles] returns *)

Section ReturnedFiles.

Local Open Scope float_scope.

Context `{Collaborators}.
Variable context : AnalysisContext.
Variable keywords : SearchKeywords.


Lemma findRelevantFiles_of_retained (this : LLMAnalysisStrategy) :
  0 < batchSize this ->
  findRelevantFiles this context keywords
  = match flat_map (retained context) (filesToAnalyze this context keywords)
    with
    | [] => Some (Fulfilled
                    (firstn 5 (findCandidateFiles this context keywords)))
    | analyzed =>
        Some (Fulfilled (firstn 10 (Arr.sort byRelevanceScore analyzed)))
    end.
Proof.
  intros Hpos.
  rewrite findRelevantFiles_unfold, (@llmAnalyzedFiles_fulfilled _ this context keywords Hpos).
  destruct (flat_map _ _); reflexivity.
Qed.


(** With a batch size of 0 the loop does not move on. *)
Lemma batchLoop_stuck (this : LLMAnalysisStrategy)
      (toAnalyze : list FileEntry) (i : nat) :
  batchSize this = 0%nat ->
  i < List.length toAnalyze ->
  forall fuel acc, batchLoop this fuel context toAnalyze i acc = None.
Proof.
  intros Hzero Hlt fuel.
  induction fuel as [|fuel IH]; intros acc; simpl;
    destruct (Nat.ltb_spec i (List.length toAnalyze)); try lia.
  - reflexivity.
  - rewrite processBatch_fulfilled, Hzero, Nat.add_0_r. apply IH.
Qed.

Lemma retained_entry (file entry : FileEntry) :
  In entry (retained context file) ->
  path entry = path file
  /\ content entry = content file
  /\ ((entry = file
       /\ exists error,
           analyzeCodeRelevance (issue context) (path file) (content file)
           = Rejected error)
      \/ exists llmAnalysis,
          analyzeCodeRelevance (issue context) (path file) (content file)
          = Fulfilled llmAnalysis
          /\ is_relevant llmAnalysis = true
          /\ relevanceScore entry = relevance_score llmAnalysis
          /\ file_reason entry = Some (reason llmAnalysis)).
Proof.
  unfold retained, judgment.
  destruct (analyzeCodeRelevance _ _ _) as [llmAnalysis|error] eqn:Hcall;
    simpl.
  - destruct (is_relevant llmAnalysis) eqn:Hrelevant; simpl; [|intros []].
    intros [<-|[]]. simpl. split; [reflexivity|]. split; [reflexivity|].
    right. exists llmAnalysis. repeat split; assumption.
  - intros [<-|[]]. split; [reflexivity|]. split; [reflexivity|].
    left. split; [reflexivity|]. exists error. reflexivity.
Qed.

(** X10: every entry [findRelevantFiles] returns has the path and the
    content of an entry of [findCandidateFiles]. It is that entry itself, or
    the inference client found the file relevant and the entry carries the
    score and the reason of the client. *)
Theorem returned_files_come_from_candidates
        (this : LLMAnalysisStrategy) (returned : list FileEntry)
        (entry : FileEntry) :
  findRelevantFiles this context keywords = Some (Fulfilled returned) ->
  In entry returned ->
  exists candidate,
    In candidate (findCandidateFiles this context keywords)
    /\ path entry = path candidate
    /\ content entry = content candidate
    /\ (entry = candidate
        \/ exists llmAnalysis,
            analyzeCodeRelevance (issue context) (path candidate)
              (content candidate)
            = Fulfilled llmAnalysis
            /\ is_relevant llmAnalysis = true
            /\ relevanceScore entry = relevance_score llmAnalysis
            /\ file_reason entry = Some (reason llmAnalysis)).
Proof.
  intros Hreturned Hin.
  destruct (Nat.eq_dec (batchSize this) 0%nat) as [Hzero|Hnonzero].
  - (* the loop ends only when there is no file to analyze *)
    unfold findRelevantFiles, findRelevantFilesFuel, analyzeBatches in Hreturned.
    destruct (filesToAnalyze this context keywords) as [|file rest] eqn:Hfiles.
    + simpl in Hreturned. inversion Hreturned; subst returned.
      apply slice_In in Hin. exists entry. auto.
    + rewrite (@batchLoop_stuck this (file :: rest) 0%nat Hzero) in Hreturned
        by (simpl; lia).
      discriminate.
  - assert (Hpos : 0 < batchSize this) by lia.
    rewrite (findRelevantFiles_of_retained this Hpos) in Hreturned.
    destruct (flat_map _ _) as [|first analyzed] eqn:Hflat.
    + assert (Heq : returned
                    = firstn 5 (findCandidateFiles this context keywords))
        by congruence.
      rewrite Heq in Hin. apply In_firstn in Hin. exists entry. auto.
    + assert (Heq : returned
                    = firstn 10 (Arr.sort byRelevanceScore (first :: analyzed)))
        by congruence.
      rewrite Heq in Hin. apply In_firstn in Hin. apply sort_In in Hin.
      rewrite <- Hflat in Hin. apply in_flat_map in Hin.
      destruct Hin as [file [Hfile Hentry]].
      apply slice_In in Hfile.
      destruct (retained_entry _ _ Hentry) as [Hpath [Hcontent Hkind]].
      exists file. split; [exact Hfile|]. split; [exact Hpath|].
      split; [exact Hcontent|].
      destruct Hkind as [[Hsame _]|Hllm]; [left; exact Hsame|right; exact Hllm].
Qed.

(** X11: a file the inference client judged not relevant is among the
    returned files only in the fallback, when no file was retained. *)
Theorem irrelevant_file_returned_only_in_fallback
        (this : LLMAnalysisStrategy) (returned : list FileEntry)
        (file entry : FileEntry) (llmAnalysis : CodeRelevance) :
  0 < batchSize this ->
  findRelevantFiles this context keywords = Some (Fulfilled returned) ->
  In file (filesToAnalyze this context keywords) ->
  analyzeCodeRelevance (issue context) (path file) (content file)
  = Fulfilled llmAnalysis ->
  is_relevant llmAnalysis = false ->
  In entry returned ->
  path entry = path file ->
  llmAnalyzedFiles this context keywords = Some (Fulfilled [])
  /\ returned = firstn 5 (findCandidateFiles this context keywords).
Proof.
  intros Hpos Hreturned Hfile Hcall Hno Hin Hpath.
  rewrite (@llmAnalyzedFiles_fulfilled _ this context keywords Hpos).
  rewrite (findRelevantFiles_of_retained this Hpos) in Hreturned.
  destruct (flat_map _ _) as [|first analyzed] eqn:Hflat.
  - split; [reflexivity|congruence].
  - exfalso.
    assert (Hret : returned
                   = firstn 10 (Arr.sort byRelevanceScore (first :: analyzed)))
      by congruence.
    rewrite Hret in Hin. apply In_firstn in Hin. apply sort_In in Hin.
    rewrite <- Hflat in Hin. apply in_flat_map in Hin.
    destruct Hin as [other [Hother Hentry]].
    destruct (retained_entry _ _ Hentry) as [Hsame _].
    assert (Heq : other = file).
    { assert (Hdistinct : NoDup (map path (filesToAnalyze this context keywords))).
      { unfold filesToAnalyze. rewrite slice_prefix, <- firstn_map.
        apply NoDup_firstn. apply candidate_paths_distinct. }
      apply (@NoDup_map_same _ _ path _ other file Hdistinct Hother Hfile).
      congruence. }
    subst other. unfold retained, judgment in Hentry.
    rewrite Hcall in Hentry. simpl in Hentry. rewrite Hno in Hentry.
    destruct Hentry.
Qed.

End ReturnedFiles.

(** ** Keywords and scores *)

Section KeywordScores.

Local Open Scope float_scope.

Lemma lowerChar_idempotent (c : ascii) :
  Str.lowerChar (Str.lowerChar c) = Str.lowerChar c.
Proof.
  destruct c as [[] [] [] [] [] [] [] []]; reflexivity.
Qed.

Lemma toLowerCase_idempotent (s : string) :
  Str.toLowerCase (Str.toLowerCase s) = Str.toLowerCase s.
Proof.
  induction s as [|c s IH]; simpl.
  - reflexivity.
  - rewrite lowerChar_idempotent, IH. reflexivity.
Qed.

Lemma fold_left_map (A B C : Type) (f : A -> C -> A) (g : B -> C)
      (l : list B) (a : A) :
  fold_left f (map g l) a = fold_left (fun a x => f a (g x)) l a.
Proof.
  revert a. induction l as [|x l IH]; intros a; simpl; [reflexivity|apply IH].
Qed.

Lemma scoreNameOrDir_lower (fileName dirName : string) (inName inDir : float)
      (keywords : list string) (score : float) :
  scoreNameOrDir fileName dirName inName inDir
    (map Str.toLowerCase keywords) score
  = scoreNameOrDir fileName dirName inName inDir keywords score.
Proof.
  unfold scoreNameOrDir. rewrite fold_left_map.
  apply fold_left_pointwise. intros a keyword.
  rewrite toLowerCase_idempotent. reflexivity.
Qed.

Lemma scoreFullPath_lower (fullPath : string) (weight : float)
      (keywords : list string) (score : float) :
  scoreFullPath fullPath weight (map Str.toLowerCase keywords) score
  = scoreFullPath fullPath weight keywords score.
Proof.
  unfold scoreFullPath. rewrite fold_left_map.
  apply fold_left_pointwise. intros a keyword.
  rewrite toLowerCase_idempotent. reflexivity.
Qed.

Lemma calculateFilePathScore_lower (filePath : string)
      (keywords : SearchKeywords) :
  calculateFilePathScore filePath (lowerKeywords keywords)
  = calculateFilePathScore filePath keywords.
Proof.
  unfold calculateFilePathScore, calculateFilePathScoreWith. simpl.
  rewrite !scoreNameOrDir_lower, !scoreFullPath_lower. reflexivity.
Qed.

Context `{Collaborators}.

Lemma contentScoreLoop_lower (contentLower : string) (keywords : list string)
      (score : float) :
  contentScoreLoop contentLower (map Str.toLowerCase keywords) score
  = contentScoreLoop contentLower keywords score.
Proof.
  revert score. induction keywords as [|keyword keywords IH]; intros score;
    simpl; [reflexivity|].
  rewrite toLowerCase_idempotent.
  destruct (matchCount _ _); simpl; [apply IH|reflexivity].
Qed.

Lemma calculateContentScore_lower (text : string) (keywords : SearchKeywords) :
  calculateContentScore text (lowerKeywords keywords)
  = calculateContentScore text keywords.
Proof.
  unfold calculateContentScore, allKeywords. simpl.
  rewrite <- !map_app, contentScoreLoop_lower. reflexivity.
Qed.

(** X12: the scores read the keywords in lower case only: with each
    keyword replaced by its lower-case form, the path score and the content
    score are the same, and so is the output of [findCandidateFiles]. *)
Theorem keyword_case_is_ignored
        (this : LLMAnalysisStrategy) (context : AnalysisContext)
        (keywords : SearchKeywords) :
  (forall filePath,
      calculateFilePathScore filePath (lowerKeywords keywords)
      = calculateFilePathScore filePath keywords)
  /\ (forall text,
         calculateContentScore text (lowerKeywords keywords)
         = calculateContentScore text keywords)
  /\ findCandidateFiles this context (lowerKeywords keywords)
     = findCandidateFiles this context keywords.
Proof.
  split; [intros filePath; apply calculateFilePathScore_lower|].
  split; [intros text; apply calculateContentScore_lower|].
  assert (Hscores : scorePaths context (lowerKeywords keywords)
                    = scorePaths context keywords).
  { unfold scorePaths. apply fold_left_pointwise. intros a file.
    rewrite calculateFilePathScore_lower. reflexivity. }
  unfold findCandidateFiles, topCandidates. rewrite Hscores. f_equal.
  unfold loadCandidates. apply fold_left_pointwise. intros a file.
  unfold candidateOf.
  destruct (loadFileContent _) as [text|]; [|reflexivity].
  rewrite calculateContentScore_lower. reflexivity.
Qed.

(** The loop of [calculateContentScore] throws when the pattern of one of
    the keywords cannot be made. *)
Lemma contentScoreLoop_rejects (contentLower : string) (keywords : list string)
      (keyword : string) :
  In keyword keywords ->
  (forall subject,
      exists error,
        matchCount (Str.toLowerCase keyword) subject = Rejected error) ->
  forall score,
  exists error, contentScoreLoop contentLower keywords score = Rejected error.
Proof.
  intros Hin Hbad.
  induction keywords as [|k keywords IH]; [destruct Hin|]. intros score. simpl.
  destruct Hin as [->|Hin].
  - destruct (Hbad contentLower) as [error ->]. exists error. reflexivity.
  - destruct (matchCount _ _) as [matches|error]; simpl.
    + apply IH. exact Hin.
    + exists error. reflexivity.
Qed.

(** X13: a keyword that the regular-expression engine does not take as a
    pattern makes [calculateContentScore] throw for every file; every file
    is then skipped, [findCandidateFiles] returns no entry and so does
    [findRelevantFiles]. *)
Theorem bad_pattern_keyword_empties_the_result
        (this : LLMAnalysisStrategy) (context : AnalysisContext)
        (keywords : SearchKeywords) (keyword : string) :
  In keyword (allKeywords keywords) ->
  (forall subject,
      exists error,
        matchCount (Str.toLowerCase keyword) subject = Rejected error) ->
  (forall text,
      exists error, calculateContentScore text keywords = Rejected error)
  /\ findCandidateFiles this context keywords = []
  /\ findRelevantFiles this context keywords = Some (Fulfilled []).
Proof.
  intros Hin Hbad.
  assert (Hthrows : forall text,
             exists error,
               calculateContentScore text keywords = Rejected error).
  { intros text. unfold calculateContentScore.
    destruct (contentScoreLoop_rejects (Str.toLowerCase text) _ _ Hin Hbad 0%float)
      as [error ->].
    exists error. reflexivity. }
  assert (Hnone : findCandidateFiles this context keywords = []).
  { unfold findCandidateFiles, loadCandidates.
    generalize (topCandidates this context keywords). intros paths.
    assert (Hloop : forall acc,
               fold_left
                 (fun candidates file =>
                    match tryCatch
                            (candidateOf context keywords
                               (scorePaths context keywords) file)
                            (fun _ => None) with
                    | Some candidate => Arr.push candidates candidate
                    | None => candidates
                    end) paths acc = acc).
    { induction paths as [|file paths IH]; intros acc; simpl; [reflexivity|].
      assert (Hfile : tryCatch
                        (candidateOf context keywords
                           (scorePaths context keywords) file)
                        (fun _ => None) = None).
      { unfold candidateOf.
        destruct (loadFileContent (path_join (workspacePath context) file))
          as [text|]; [|reflexivity].
        destruct (Str.truthy text); [|reflexivity].
        destruct (Hthrows text) as [error ->]. reflexivity. }
      rewrite Hfile. apply IH. }
    rewrite Hloop. reflexivity. }
  split; [exact Hthrows|]. split; [exact Hnone|].
  unfold findRelevantFiles, findRelevantFilesFuel, analyzeBatches, filesToAnalyze.
  rewrite Hnone, slice_prefix, firstn_nil. reflexivity.
Qed.

End KeywordScores.

(** ** Keyword generation *)

Section SetFacts.

Lemma has_In (s : list string) (x : string) :
  JsSet.has s x = true <-> In x s.
Proof.
  unfold JsSet.has. rewrite existsb_exists. split.
  - intros [y [Hy Heq]]. apply String.eqb_eq in Heq. subst y. exact Hy.
  - intros Hin. exists x. split; [exact Hin|apply String.eqb_refl].
Qed.

Lemma add_NoDup (s : list string) (x : string) :
  NoDup s -> NoDup (JsSet.add s x).
Proof.
  intros Hs. unfold JsSet.add. destruct (JsSet.has s x) eqn:Hhas; [exact Hs|].
  apply NoDup_app; [exact Hs|constructor; [intros []|constructor]|].
  intros y Hy [<-|[]]. apply has_In in Hy. congruence.
Qed.

Lemma add_In (s : list string) (x y : string) :
  In y (JsSet.add s x) <-> In y s \/ y = x.
Proof.
  unfold JsSet.add. destruct (JsSet.has s x) eqn:Hhas.
  - apply has_In in Hhas. split; [tauto|]. intros [Hy| ->]; assumption.
  - rewrite in_app_iff. simpl. intuition.
Qed.

Lemma adds_NoDup (a s : list string) :
  NoDup s -> NoDup (fold_left JsSet.add a s).
Proof.
  revert s. induction a as [|x a IH]; intros s Hs; simpl; [exact Hs|].
  apply IH. apply add_NoDup. exact Hs.
Qed.

Lemma adds_In (a s : list string) (y : string) :
  In y (fold_left JsSet.add a s) <-> In y s \/ In y a.
Proof.
  revert s. induction a as [|x a IH]; intros s; simpl; [tauto|].
  rewrite IH, add_In. intuition.
Qed.

Lemma ofArray_NoDup (a : list string) : NoDup (JsSet.ofArray a).
Proof.
  apply adds_NoDup. constructor.
Qed.

Lemma ofArray_In (a : list string) (y : string) :
  In y (JsSet.ofArray a) <-> In y a.
Proof.
  unfold JsSet.ofArray. rewrite adds_In. simpl. tauto.
Qed.

Lemma stripQuotes_clean (m : string) (c : ascii) :
  In c (list_ascii_of_string (stripQuotes m)) -> isQuoteOrSpace c = false.
Proof.
  induction m as [|d m IH]; simpl; [intros []|].
  destruct (isQuoteOrSpace d) eqn:Hd; simpl; [exact IH|].
  intros [<-|Hin]; [exact Hd|apply IH; exact Hin].
Qed.

End SetFacts.

Section KeywordGeneration.

Context `{KeywordCollaborators}.

Lemma collectMatches_In (patterns : list KeywordPattern)
      (each : string -> string) (text m : string) :
  In m (collectMatches patterns each text)
  <-> exists pattern found,
      In pattern patterns /\ In found (matchAll pattern text)
      /\ m = each found.
Proof.
  unfold collectMatches.
  assert (Hloop : forall acc,
             In m (fold_left
                     (fun matches pattern =>
                        matches ++ map each (matchAll pattern text))
                     patterns acc)
             <-> In m acc
                 \/ exists pattern found,
                     In pattern patterns /\ In found (matchAll pattern text)
                     /\ m = each found).
  { induction patterns as [|p patterns IH]; intros acc; simpl.
    - split; [tauto|]. intros [Hacc|[p [found [[] _]]]]. exact Hacc.
    - rewrite IH, in_app_iff, in_map_iff. split.
      + intros [[Hacc|[found [Heq Hfound]]]|[p' [found [Hp' Hrest]]]].
        * left. exact Hacc.
        * right. exists p, found. split; [left; reflexivity|].
          split; [exact Hfound|symmetry; exact Heq].
        * right. exists p', found. split; [right; exact Hp'|exact Hrest].
      + intros [Hacc|[p' [found [[<-|Hp'] [Hfound Heq]]]]].
        * left. left. exact Hacc.
        * left. right. exists found. split; [symmetry; exact Heq|exact Hfound].
        * right. exists p', found. auto. }
  rewrite Hloop. simpl. tauto.
Qed.

(** X14: [extractSecondaryKeywords] returns at most 15 keywords, no keyword
    twice, each a match of the camel-case, snake-case or Pascal-case
    pattern in the text; when the text has at most 15 distinct matches,
    every match is returned. *)
Theorem secondary_keywords_are_capped_and_distinct (text : string) :
  List.length (extractSecondaryKeywords text) <= 15
  /\ NoDup (extractSecondaryKeywords text)
  /\ (forall keyword,
         In keyword (extractSecondaryKeywords text) ->
         exists pattern,
           In pattern secondaryPatterns
           /\ In keyword (matchAll pattern text))
  /\ (List.length
        (JsSet.ofArray (collectMatches secondaryPatterns (fun m => m) text))
      <= 15 ->
      forall pattern keyword,
        In pattern secondaryPatterns ->
        In keyword (matchAll pattern text) ->
        In keyword (extractSecondaryKeywords text)).
Proof.
  unfold extractSecondaryKeywords. split; [|split; [|split]].
  - eapply Nat.le_trans; [apply slice_length|]. lia.
  - apply NoDup_slice. apply ofArray_NoDup.
  - intros keyword Hin. apply slice_In in Hin. apply (proj1 (ofArray_In _ _)) in Hin.
    apply (proj1 (collectMatches_In _ _ _ _)) in Hin.
    destruct Hin as [pattern [found [Hpattern [Hfound ->]]]].
    exists pattern. split; assumption.
  - intros Hfew pattern keyword Hpattern Hfound.
    rewrite slice_prefix, firstn_all2 by exact Hfew.
    apply (proj2 (ofArray_In _ _)). apply (proj2 (collectMatches_In _ _ _ _)).
    exists pattern, keyword. auto.
Qed.

(** X15: [extractContextualKeywords] returns at most 10 keywords, no
    keyword twice; each is a match of one of its patterns with the quotes
    and the spaces taken out, has more than 2 characters, and holds no
    quote and no space. *)
Theorem contextual_keywords_are_capped_and_clean (text : string) :
  List.length (extractContextualKeywords text) <= 10
  /\ NoDup (extractContextualKeywords text)
  /\ forall keyword,
      In keyword (extractContextualKeywords text) ->
      2 < String.length keyword
      /\ (forall c, In c (list_ascii_of_string keyword) ->
                    isQuoteOrSpace c = false)
      /\ exists pattern found,
          In pattern contextualPatterns
          /\ In found (matchAll pattern text)
          /\ keyword = stripQuotes found.
Proof.
  unfold extractContextualKeywords. split; [|split].
  - eapply Nat.le_trans; [apply slice_length|]. lia.
  - apply NoDup_slice. apply ofArray_NoDup.
  - intros keyword Hin. apply slice_In in Hin. apply (proj1 (ofArray_In _ _)) in Hin.
    apply filter_In in Hin. destruct Hin as [Hin Hlong].
    apply Nat.ltb_lt in Hlong.
    apply (proj1 (collectMatches_In _ _ _ _)) in Hin.
    destruct Hin as [pattern [found [Hpattern [Hfound Heq]]]].
    split; [exact Hlong|]. split.
    + intros c Hc. rewrite Heq in Hc. apply stripQuotes_clean in Hc. exact Hc.
    + exists pattern, found. auto.
Qed.

End KeywordGeneration.

(** ** Verbs and API candidates *)

Section ApiVerbs.

Context `{Collaborators}.

Lemma append_assoc (a b c : string) :
  ((a ++ b) ++ c)%string = (a ++ b ++ c)%string.
Proof.
  induction a as [|x a IH]; simpl; [reflexivity|]. rewrite IH. reflexivity.
Qed.

Lemma names_are_in_symbolText (symbol : Symbol) (term : string) :
  Str.includes
    (Str.toLowerCase (name symbol ++ " " ++ qualifiedName symbol)) term
  = true ->
  Str.includes (symbolText symbol) term = true.
Proof.
  intros Hnames. unfold symbolText.
  replace (name symbol ++ " " ++ qualifiedName symbol ++ " "
             ++ Str.orElse (comment symbol) "")%string
    with ((name symbol ++ " " ++ qualifiedName symbol)
            ++ " " ++ Str.orElse (comment symbol) "")%string.
  - rewrite toLowerCase_app. apply includes_app_l. exact Hnames.
  - rewrite !append_assoc. reflexivity.
Qed.

(** X22: a symbol in whose names [extractHttpMethod] finds a verb is an API
    candidate whatever its comment is, and the method of its entry is that
    verb in upper case, never UNKNOWN. *)
Theorem named_verb_makes_an_api_candidate
        (context : AnalysisContext) (symbol : Symbol) (verb : string) :
  extractHttpMethod symbol = Some verb ->
  isApiRelated symbol = true
  /\ method (toApiEntry context symbol) = verb
  /\ verb <> "UNKNOWN"%string.
Proof.
  intros Hmethod.
  assert (Hfound : exists v,
             In v httpMethods
             /\ Str.includes
                  (Str.toLowerCase
                     (name symbol ++ " " ++ qualifiedName symbol)) v
                = true
             /\ verb = toUpperCase v).
  { unfold extractHttpMethod in Hmethod.
    destruct (find _ httpMethods) as [v|] eqn:Hfind; [|discriminate].
    apply find_some in Hfind. destruct Hfind as [Hin Hinc].
    exists v. split; [exact Hin|]. split; [exact Hinc|].
    simpl in Hmethod. congruence. }
  destruct Hfound as [v [Hin [Hinc Hverb]]].
  split; [|split].
  - unfold isApiRelated. apply existsb_exists. exists v.
    split; [apply httpMethods_are_apiTerms; exact Hin|].
    apply names_are_in_symbolText. exact Hinc.
  - unfold toApiEntry. simpl method. rewrite Hmethod, Hverb.
    unfold httpMethods in Hin. simpl in Hin.
    repeat (destruct Hin as [<-|Hin]; [reflexivity|]). destruct Hin.
  - rewrite Hverb. unfold httpMethods in Hin. simpl in Hin.
    repeat (destruct Hin as [<-|Hin]; [discriminate|]). destruct Hin.
Qed.

End ApiVerbs.

(** ** The paths of the returned files *)

Section ReturnedPaths.

Context `{Collaborators}.
Variable context : AnalysisContext.
Variable keywords : SearchKeywords.

(** A file adds at most one entry, with its own path. *)
Lemma retained_cases (file : FileEntry) :
  retained context file = []
  \/ exists entry, retained context file = [entry] /\ path entry = path file.
Proof.
  unfold retained, judgment.
  destruct (analyzeCodeRelevance _ _ _) as [llmAnalysis|error]; simpl.
  - destruct (is_relevant llmAnalysis); [right|left; reflexivity].
    eexists. split; reflexivity.
  - right. eexists. split; reflexivity.
Qed.

Lemma retained_path_In (paths : list FileEntry) (p : string) :
  In p (map path (flat_map (retained context) paths)) ->
  In p (map path paths).
Proof.
  induction paths as [|file paths IH]; simpl; [tauto|].
  rewrite map_app, in_app_iff.
  destruct (retained_cases file) as [->|[entry [-> Hpath]]]; simpl.
  - intros [[]|Hin]. right. apply IH. exact Hin.
  - intros [[<-|[]]|Hin]; [left; symmetry; exact Hpath|right; apply IH; exact Hin].
Qed.

Lemma retained_paths_NoDup (paths : list FileEntry) :
  NoDup (map path paths) ->
  NoDup (map path (flat_map (retained context) paths)).
Proof.
  induction paths as [|file paths IH]; simpl; intros Hnodup; [constructor|].
  inversion Hnodup as [|p l Hnotin Hrest]; subst.
  rewrite map_app.
  destruct (retained_cases file) as [->|[entry [-> Hpath]]]; simpl.
  - apply IH. exact Hrest.
  - constructor; [|apply IH; exact Hrest].
    intros Hin. apply Hnotin. rewrite <- Hpath.
    apply retained_path_In. exact Hin.
Qed.

(** X23: no two files [findRelevantFiles] returns have the same path, also
    when a path occurs more than once among the candidate paths. *)
Theorem returned_paths_are_distinct
        (this : LLMAnalysisStrategy) (returned : list FileEntry) :
  findRelevantFiles this context keywords = Some (Fulfilled returned) ->
  NoDup (map path returned).
Proof.
  intros Hreturned.
  assert (Hfallback :
            NoDup (map path
                     (firstn 5 (findCandidateFiles this context keywords)))).
  { rewrite <- firstn_map. apply NoDup_firstn. apply candidate_paths_distinct. }
  destruct (Nat.eq_dec (batchSize this) 0%nat) as [Hzero|Hnonzero].
  - unfold findRelevantFiles, findRelevantFilesFuel, analyzeBatches in Hreturned.
    destruct (filesToAnalyze this context keywords) as [|file rest] eqn:Hfiles.
    + simpl in Hreturned. rewrite slice_prefix in Hreturned.
      assert (Heq : returned
                    = firstn 5 (findCandidateFiles this context keywords))
        by congruence.
      rewrite Heq. exact Hfallback.
    + rewrite (@batchLoop_stuck _ context this (file :: rest) 0%nat Hzero)
        in Hreturned by (simpl; lia).
      discriminate.
  - assert (Hpos : 0 < batchSize this) by lia.
    rewrite (findRelevantFiles_of_retained context keywords this Hpos)
      in Hreturned.
    destruct (flat_map _ _) as [|first analyzed] eqn:Hflat.
    + assert (Heq : returned
                    = firstn 5 (findCandidateFiles this context keywords))
        by congruence.
      rewrite Heq. exact Hfallback.
    + assert (Heq : returned
                    = firstn 10 (Arr.sort byRelevanceScore (first :: analyzed)))
        by congruence.
      rewrite Heq, <- firstn_map. apply NoDup_firstn.
      apply Permutation_NoDup with (l := map path (first :: analyzed)).
      * apply Permutation_map. apply Permutation_sym. apply sort_perm.
      * rewrite <- Hflat. apply retained_paths_NoDup.
        unfold filesToAnalyze. rewrite slice_prefix, <- firstn_map.
        apply NoDup_firstn. apply candidate_paths_distinct.
Qed.

End ReturnedPaths.

(** ** The order of the results *)

(** The order of the floats that are not below zero, read in the
    integers. *)

Unset Implicit Arguments.

Section OrderFacts.

Local Open Scope Z_scope.

Lemma bounded_shape (m : positive) (e : Z) :
  SpecFloat.bounded prec emax m e = true ->
  -1074 <= e <= 971
  /\ Zpos m < 2 ^ 53
  /\ (-1074 < e -> 2 ^ 52 <= Zpos m).
Proof.
  unfold SpecFloat.bounded, canonical_mantissa, SpecFloat.fexp, SpecFloat.emin.
  rewrite digits2_log2. unfold prec, emax.
  intros Hb. apply andb_true_iff in Hb. destruct Hb as [Hc He].
  apply Z.eqb_eq in Hc. apply Z.leb_le in He.
  split; [lia|]. split.
  - apply Z.log2_lt_pow2; lia.
  - intros Hlow. apply Z.log2_le_pow2; lia.
Qed.

Lemma rank_finite_lt_infinity (m : positive) (e : Z) :
  SpecFloat.bounded prec emax m e = true ->
  0 < Zpos m * 2 ^ (e + 1074) < 2 ^ 2100.
Proof.
  intros Hb. destruct (bounded_shape m e Hb) as [He [Hm _]].
  assert (Hpow : 0 < 2 ^ (e + 1074)) by (apply Z.pow_pos_nonneg; lia).
  split; [lia|].
  apply Z.lt_le_trans with (2 ^ 53 * 2 ^ (e + 1074)); [nia|].
  rewrite <- Z.pow_add_r by lia. apply Z.pow_le_mono_r; lia.
Qed.

(** The comparison of two valid finite floats of the positive sign is the
    comparison of their ranks. *)
Lemma compare_rank (m1 : positive) (e1 : Z) (m2 : positive) (e2 : Z) :
  SpecFloat.bounded prec emax m1 e1 = true ->
  SpecFloat.bounded prec emax m2 e2 = true ->
  match Z.compare e1 e2 with
  | Lt => Lt
  | Gt => Gt
  | Eq => Pos.compare_cont Eq m1 m2
  end
  = Z.compare (Zpos m1 * 2 ^ (e1 + 1074)) (Zpos m2 * 2 ^ (e2 + 1074)).
Proof.
  intros H1 H2.
  destruct (bounded_shape m1 e1 H1) as [He1 [Hm1 Hn1]].
  destruct (bounded_shape m2 e2 H2) as [He2 [Hm2 Hn2]].
  assert (Hp1 : 0 < 2 ^ (e1 + 1074)) by (apply Z.pow_pos_nonneg; lia).
  assert (Hp2 : 0 < 2 ^ (e2 + 1074)) by (apply Z.pow_pos_nonneg; lia).
  change (2 ^ 53) with (2 * 2 ^ 52) in Hm1, Hm2.
  destruct (Z.compare_spec e1 e2) as [Heq|Hlt|Hgt]; symmetry.
  - subst e2.
    change (Pos.compare_cont Eq m1 m2) with (Z.compare (Zpos m1) (Zpos m2)).
    destruct (Z.compare_spec (Zpos m1) (Zpos m2)) as [Hm|Hm|Hm].
    + apply Z.compare_eq_iff. rewrite Hm. reflexivity.
    + apply Z.compare_lt_iff. nia.
    + apply Z.compare_gt_iff. nia.
  - apply Z.compare_lt_iff.
    assert (Hsplit : 2 ^ (e2 + 1074) = 2 ^ (e2 - e1) * 2 ^ (e1 + 1074)).
    { rewrite <- Z.pow_add_r by lia. f_equal. lia. }
    assert (Hk : 2 <= 2 ^ (e2 - e1)).
    { change 2 with (2 ^ 1) at 1. apply Z.pow_le_mono_r; lia. }
    specialize (Hn2 ltac:(lia)). rewrite Hsplit. nia.
  - apply Z.compare_gt_iff.
    assert (Hsplit : 2 ^ (e1 + 1074) = 2 ^ (e1 - e2) * 2 ^ (e2 + 1074)).
    { rewrite <- Z.pow_add_r by lia. f_equal. lia. }
    assert (Hk : 2 <= 2 ^ (e1 - e2)).
    { change 2 with (2 ^ 1) at 1. apply Z.pow_le_mono_r; lia. }
    specialize (Hn1 ltac:(lia)). rewrite Hsplit. nia.
Qed.

Lemma SFcompare_rank (x y : spec_float) :
  valid_binary x = true -> valid_binary y = true ->
  SFnonneg x = true -> SFnonneg y = true ->
  SFcompare x y = Some (Z.compare (rank x) (rank y)).
Proof.
  intros Hvx Hvy Hx Hy.
  destruct x as [sx|sx| |sx mx ex]; destruct y as [sy|sy| |sy my ey];
    simpl in Hx, Hy; try discriminate;
    repeat match goal with
           | s : bool |- _ => destruct s; try discriminate
           end;
    unfold SFcompare, rank; try reflexivity;
    try pose proof (rank_finite_lt_infinity _ _ Hvx) as Hrx;
    try pose proof (rank_finite_lt_infinity _ _ Hvy) as Hry;
    f_equal;
    first [ apply compare_rank; assumption
          | symmetry; apply Z.compare_lt_iff; lia
          | symmetry; apply Z.compare_gt_iff; lia ].
Qed.

End OrderFacts.

Section OrderFacts2.

Local Open Scope Z_scope.

(** What [binary_round_aux] returns, for either sign. *)
Lemma binary_round_aux_spec_any (sx : bool) (m e : Z) (l : SpecFloat.location) :
  0 <= m ->
  exists m1,
    m / 2 ^ (target m e - e) <= m1 <= m / 2 ^ (target m e - e) + 1
    /\ binary_round_aux prec emax sx m e l
       = match m1 / 2 ^ (target m1 (target m e) - target m e) with
         | Z0 => S754_zero sx
         | Zpos p =>
             if target m1 (target m e) <=? emax - prec
             then S754_finite sx p (target m1 (target m e))
             else S754_infinity sx
         | Zneg _ => S754_nan
         end.
Proof.
  intros Hm. unfold binary_round_aux.
  destruct (shr_fexp_spec m e l Hm) as [H1 H2].
  destruct (shr_fexp prec emax m e l) as [mrs' e'] eqn:Hshr.
  simpl in H1, H2. subst e'.
  set (m1 := round_nearest_even (shr_m mrs') (loc_of_shr_record mrs')).
  assert (Hm1 : shr_m mrs' <= m1 <= shr_m mrs' + 1)
    by apply round_nearest_even_bounds.
  assert (H0 : 0 <= shr_m mrs').
  { rewrite H1. apply Z.div_pos; [lia|]. apply Z.pow_pos_nonneg; [lia|].
    unfold target. lia. }
  exists m1. split; [rewrite <- H1; exact Hm1|].
  destruct (shr_fexp_spec m1 (target m e) loc_Exact) as [H3 H4]; [lia|].
  destruct (shr_fexp prec emax m1 (target m e) loc_Exact) as [mrs'' e''].
  simpl in H3, H4. subst e''. rewrite H3. reflexivity.
Qed.

(** Cutting a positive mantissa at an exponent of the format leaves a
    positive one. *)
Lemma cut_keeps_positive (m e : Z) :
  0 < m -> -1074 <= e ->
  0 < m / 2 ^ (target m e - e) /\ -1074 <= target m e.
Proof.
  intros Hm He.
  assert (Hspec : 2 ^ Z.log2 m <= m) by (apply Z.log2_spec; lia).
  assert (Hlog : 0 <= Z.log2 m) by apply Z.log2_nonneg.
  assert (Ht : target m e - e = Z.max (Z.log2 m - 52) 0 /\ -1074 <= target m e).
  { unfold target, fexp64, SpecFloat.fexp, SpecFloat.emin, Zdigits2.
    destruct m as [|p|p]; try lia.
    rewrite digits2_log2. unfold prec, emax. lia. }
  destruct Ht as [Ht Hlow]. split; [|exact Hlow]. rewrite Ht.
  apply Z.div_str_pos. split; [apply Z.pow_pos_nonneg; lia|].
  apply Z.le_trans with (2 ^ Z.log2 m); [|exact Hspec].
  apply Z.pow_le_mono_r; lia.
Qed.

(** Rounding a positive mantissa gives a finite float that is not a zero,
    or an infinity, of the sign asked for. *)
Lemma binary_round_sign (sx : bool) (M : positive) (ez : Z) :
  -1074 <= ez ->
  binary_round prec emax sx M ez = S754_infinity sx
  \/ exists p e, binary_round prec emax sx M ez = S754_finite sx p e.
Proof.
  intros Hez. unfold binary_round.
  destruct (shl_align M ez _) as [mz ez'] eqn:Halign.
  assert (Hez' : -1074 <= ez').
  { unfold shl_align in Halign.
    destruct (_ - ez) eqn:Hd in Halign; inversion Halign; subst; try lia.
    unfold SpecFloat.fexp, SpecFloat.emin, prec, emax. lia. }
  destruct (binary_round_aux_spec_any sx (Zpos mz) ez' loc_Exact)
    as [m1 [Hm1 ->]]; [lia|].
  destruct (cut_keeps_positive (Zpos mz) ez') as [Hq HT]; [lia|lia|].
  destruct (cut_keeps_positive m1 (target (Zpos mz) ez')) as [Hq2 _];
    [lia|lia|].
  destruct (m1 / 2 ^ _) as [|p|p]; try lia.
  destruct (_ <=? _); [right; eauto|left; reflexivity].
Qed.

End OrderFacts2.

Section OrderFacts3.

Local Open Scope float_scope.

Lemma ltb_rank (x y : float) :
  nonneg x = true -> nonneg y = true -> (x <? y) = (frank x <? frank y)%Z.
Proof.
  unfold nonneg, frank. intros Hx Hy. rewrite FloatAxioms.ltb_spec.
  unfold SFltb.
  rewrite (SFcompare_rank _ _ (Prim2SF_valid x) (Prim2SF_valid y) Hx Hy).
  unfold Z.ltb. destruct (_ ?= _)%Z; reflexivity.
Qed.

Lemma leb_rank (x y : float) :
  nonneg x = true -> nonneg y = true -> (x <=? y) = (frank x <=? frank y)%Z.
Proof.
  unfold nonneg, frank. intros Hx Hy. rewrite FloatAxioms.leb_spec.
  unfold SFleb.
  rewrite (SFcompare_rank _ _ (Prim2SF_valid x) (Prim2SF_valid y) Hx Hy).
  unfold Z.leb. destruct (_ ?= _)%Z; reflexivity.
Qed.

(** The sign of a difference: [y - x] is above zero exactly when [x] is
    below [y]. *)
Lemma sub_above_zero (x y : float) :
  nonneg x = true -> nonneg y = true -> (0 <? y - x) = (x <? y).
Proof.
  intros Hx Hy. rewrite (ltb_rank x y Hx Hy).
  unfold nonneg, frank in *.
  rewrite FloatAxioms.ltb_spec, FloatAxioms.sub_spec.
  change (Prim2SF 0) with (S754_zero false).
  pose proof (Prim2SF_valid x) as Hvx. pose proof (Prim2SF_valid y) as Hvy.
  destruct (Prim2SF x) as [sx|sx| |sx mx ex];
    destruct (Prim2SF y) as [sy|sy| |sy my ey];
    simpl in Hx, Hy; try discriminate;
    repeat match goal with
           | s : bool |- _ => destruct s; try discriminate
           end;
    unfold rank; try reflexivity;
    try pose proof (rank_finite_lt_infinity _ _ Hvx) as Hrx;
    try pose proof (rank_finite_lt_infinity _ _ Hvy) as Hry;
    try (cbv [SF64sub SFsub SFltb SFcompare negb]; symmetry;
         first [ apply Z.ltb_lt; lia | apply Z.ltb_ge; lia ]).
  (* two finite floats *)
  unfold SF64sub, SFsub. cbn [cond_Zopp].
  set (ez := Z.min ey ex).
  destruct (bounded_shape mx ex Hvx) as [Hex _].
  destruct (bounded_shape my ey Hvy) as [Hey _].
  assert (Ha : Zpos (fst (shl_align my ey ez)) = (Zpos my * 2 ^ (ey - ez))%Z)
    by (apply shl_align_value; unfold ez; lia).
  assert (Hb : Zpos (fst (shl_align mx ex ez)) = (Zpos mx * 2 ^ (ex - ez))%Z)
    by (apply shl_align_value; unfold ez; lia).
  assert (Hry' : (Zpos my * 2 ^ (ey + 1074)
                  = Zpos (fst (shl_align my ey ez)) * 2 ^ (ez + 1074))%Z).
  { rewrite Ha, <- Z.mul_assoc, <- Z.pow_add_r by (unfold ez; lia).
    do 2 f_equal. lia. }
  assert (Hrx' : (Zpos mx * 2 ^ (ex + 1074)
                  = Zpos (fst (shl_align mx ex ez)) * 2 ^ (ez + 1074))%Z).
  { rewrite Hb, <- Z.mul_assoc, <- Z.pow_add_r by (unfold ez; lia).
    do 2 f_equal. lia. }
  rewrite Hry', Hrx'.
  assert (Hpow : (0 < 2 ^ (ez + 1074))%Z)
    by (apply Z.pow_pos_nonneg; unfold ez; lia).
  set (a := fst (shl_align my ey ez)) in *.
  set (b := fst (shl_align mx ex ez)) in *.
  unfold binary_normalize.
  destruct (Zpos a - Zpos b)%Z as [|d|d] eqn:Hd.
  - symmetry. apply Z.ltb_ge. nia.
  - destruct (binary_round_sign false d ez) as [->|[p [e ->]]];
      [unfold ez; lia| |]; symmetry; apply Z.ltb_lt; nia.
  - destruct (binary_round_sign true d ez) as [->|[p [e ->]]];
      [unfold ez; lia| |]; symmetry; apply Z.ltb_ge; nia.
Qed.

End OrderFacts3.


Section SortFacts.

Local Open Scope float_scope.

Context {A : Type}.
Variable score : A -> float.
Variable compareFn : A -> A -> float.
Hypothesis compareFn_score : forall a b, compareFn a b = score b - score a.

Lemma insert_moves_behind_higher (x y : A) :
  ordinary score x -> ordinary score y ->
  (0 <? compareFn x y) = (frank (score x) <? frank (score y))%Z.
Proof.
  intros Hx Hy. rewrite compareFn_score, sub_above_zero by assumption.
  apply ltb_rank; assumption.
Qed.

Lemma notBelow_rank (a b : A) :
  ordinary score a -> ordinary score b ->
  notBelow score a b <-> (frank (score b) <= frank (score a))%Z.
Proof.
  intros Ha Hb. unfold notBelow. rewrite leb_rank by assumption.
  apply Z.leb_le.
Qed.

Lemma insert_sorted (x : A) (l : list A) :
  ordinary score x -> Forall (ordinary score) l ->
  StronglySorted (notBelow score) l ->
  StronglySorted (notBelow score) (Arr.insert compareFn x l).
Proof.
  intros Hx Hl Hsorted.
  induction Hsorted as [|y l Hsorted IH Hy]; simpl.
  - constructor; constructor.
  - inversion Hl as [|y' l' Hoy Hol]; subst.
    rewrite (insert_moves_behind_higher x y Hx Hoy).
    destruct (Z.ltb_spec (frank (score x)) (frank (score y))) as [Hlt|Hge].
    + constructor; [apply IH; exact Hol|].
      apply (Permutation_Forall (Permutation_sym (insert_perm compareFn x l))).
      constructor; [|exact Hy].
      apply notBelow_rank; [assumption|assumption|lia].
    + constructor; [constructor; assumption|].
      constructor; [apply notBelow_rank; assumption|].
      rewrite Forall_forall in Hy, Hol |- *. intros z Hz.
      apply notBelow_rank; [assumption|apply Hol; exact Hz|].
      apply (fun H => proj1 (notBelow_rank y z Hoy (Hol z Hz)) (Hy z H)) in Hz as Hyz.
      lia.
Qed.

(** The sort puts entries with ordinary scores in descending order. *)
Lemma sort_sorted (l : list A) :
  Forall (ordinary score) l -> StronglySorted (notBelow score) (Arr.sort compareFn l).
Proof.
  induction l as [|x l IH]; intros Hl; simpl; [constructor|].
  inversion Hl; subst. apply insert_sorted; [assumption| |apply IH; assumption].
  apply (Permutation_Forall (Permutation_sym (sort_perm compareFn l))).
  assumption.
Qed.

(** The sort leaves a list in descending order as it is. *)
Lemma sort_of_sorted (l : list A) :
  Forall (ordinary score) l -> StronglySorted (notBelow score) l -> Arr.sort compareFn l = l.
Proof.
  intros Hl Hsorted. induction Hsorted as [|x l Hsorted IH Hx]; simpl;
    [reflexivity|].
  inversion Hl as [|x' l' Hox Hol]; subst.
  rewrite IH by exact Hol.
  destruct l as [|y l]; [reflexivity|]. simpl.
  inversion Hol as [|y' l' Hoy Hol']; subst.
  rewrite (insert_moves_behind_higher x y Hox Hoy).
  inversion Hx as [|y' l' Hxy _]; subst.
  apply (proj1 (notBelow_rank x y Hox Hoy)) in Hxy.
  destruct (Z.ltb_spec (frank (score x)) (frank (score y))); [lia|reflexivity].
Qed.

Lemma sorted_firstn (n : nat) (l : list A) :
  StronglySorted (notBelow score) l -> StronglySorted (notBelow score) (firstn n l).
Proof.
  intros Hsorted. revert n.
  induction Hsorted as [|x l Hsorted IH Hx]; intros [|n]; simpl;
    try constructor.
  - apply IH.
  - rewrite Forall_forall in Hx |- *. intros z Hz. apply Hx.
    apply In_firstn in Hz. exact Hz.
Qed.

Lemma sorted_split (l1 l2 : list A) :
  StronglySorted (notBelow score) (l1 ++ l2) ->
  forall a b, In a l1 -> In b l2 -> notBelow score a b.
Proof.
  induction l1 as [|x l1 IH]; simpl; intros Hsorted a b Ha Hb; [destruct Ha|].
  inversion Hsorted as [|x' l' Hrest Hx]; subst.
  destruct Ha as [->|Ha].
  - rewrite Forall_forall in Hx. apply Hx. apply in_or_app. right. exact Hb.
  - apply IH; assumption.
Qed.

End SortFacts.

Section PathScoreSign.

Local Open Scope float_scope.

Lemma mul_tenth_nonneg (x : float) : nonneg x = true -> nonneg (x * 0.1) = true.
Proof.
  unfold nonneg. rewrite FloatAxioms.mul_spec.
  change (Prim2SF 0.1) with (S754_finite false 7205759403792794 (-56)).
  destruct (Prim2SF x) as [s|s| |s m e]; simpl; try discriminate.
  - reflexivity.
  - destruct s; [discriminate|reflexivity].
  - destruct s; [discriminate|]. intros _.
    unfold SF64mul, SFmul. cbn [xorb].
    apply binary_round_aux_nonneg. lia.
Qed.

Lemma above_nonneg (x : float) : (0.3 <? x) = true -> nonneg x = true.
Proof.
  unfold nonneg. rewrite FloatAxioms.ltb_spec.
  change (Prim2SF 0.3) with (S754_finite false 5404319552844595 (-54)).
  destruct (Prim2SF x) as [s|s| |s m e]; simpl; try discriminate.
  - destruct s; [discriminate|reflexivity].
  - destruct s; [discriminate|reflexivity].
Qed.

Lemma scoreNameOrDir_nonneg (fileName dirName : string) (inName inDir : float)
      (keywords : list string) (score : float) :
  nonneg inName = true -> nonneg inDir = true -> nonneg score = true ->
  nonneg (scoreNameOrDir fileName dirName inName inDir keywords score) = true.
Proof.
  intros Hname Hdir. unfold scoreNameOrDir. revert score.
  induction keywords as [|keyword keywords IH]; intros score Hscore; simpl;
    [exact Hscore|].
  apply IH.
  destruct (Str.includes fileName _); [apply add_nonneg; assumption|].
  destruct (Str.includes dirName _); [apply add_nonneg; assumption|].
  exact Hscore.
Qed.

Lemma scoreFullPath_nonneg (fullPath : string) (weight : float)
      (keywords : list string) (score : float) :
  nonneg weight = true -> nonneg score = true ->
  nonneg (scoreFullPath fullPath weight keywords score) = true.
Proof.
  intros Hweight. unfold scoreFullPath. revert score.
  induction keywords as [|keyword keywords IH]; intros score Hscore; simpl;
    [exact Hscore|].
  apply IH.
  destruct (Str.includes fullPath _); [apply add_nonneg; assumption|].
  exact Hscore.
Qed.

Lemma calculateFilePathScore_nonneg (filePath : string)
      (keywords : SearchKeywords) :
  nonneg (calculateFilePathScore filePath keywords) = true.
Proof.
  unfold calculateFilePathScore, calculateFilePathScoreWith. cbv zeta.
  set (s4 := scoreFullPath _ 0.5 _ _).
  assert (H4 : nonneg s4 = true).
  { unfold s4.
    repeat first [apply scoreFullPath_nonneg | apply scoreNameOrDir_nonneg];
      reflexivity. }
  clearbody s4.
  set (s5 := if someTest codeFilePatterns filePath then _ else _).
  assert (H5 : nonneg s5 = true).
  { unfold s5. destruct (someTest _ _); [apply add_nonneg|]; auto. }
  clearbody s5.
  set (s6 := if someTest importantFilePatterns filePath then _ else _).
  assert (H6 : nonneg s6 = true).
  { unfold s6. destruct (someTest _ _); [apply add_nonneg|]; auto. }
  clearbody s6.
  set (s7 := if someTest importantDirPatterns filePath then _ else _).
  assert (H7 : nonneg s7 = true).
  { unfold s7. destruct (someTest _ _); [apply add_nonneg|]; auto. }
  clearbody s7.
  destruct (someTest _ _); [apply mul_tenth_nonneg|]; assumption.
Qed.

(** X17: the path score is a number that is not below zero, whatever the
    path and the keywords are. *)
Theorem path_score_is_not_negative (filePath : string)
        (keywords : SearchKeywords) :
  (0 <=? calculateFilePathScore filePath keywords) = true.
Proof.
  apply nonneg_leb. apply calculateFilePathScore_nonneg.
Qed.

End PathScoreSign.

Section SortedLists.

Context {A : Type}.
Variable score : A -> float.

Lemma sorted_skipn (n : nat) (l : list A) :
  StronglySorted (notBelow score) l ->
  StronglySorted (notBelow score) (skipn n l).
Proof.
  intros Hsorted. revert n.
  induction Hsorted as [|x l Hsorted IH Hx]; intros [|n]; simpl;
    try constructor; try assumption.
  apply IH.
Qed.

End SortedLists.

Section CandidateOrder.

Local Open Scope float_scope.

Context `{Collaborators}.
Variable this : LLMAnalysisStrategy.
Variable context : AnalysisContext.
Variable keywords : SearchKeywords.

Lemma candidate_ordinary :
  Forall (ordinary relevanceScore)
    (loadCandidates context keywords (scorePaths context keywords)
       (topCandidates this context keywords)).
Proof.
  apply Forall_forall. intros entry Hin. unfold ordinary.
  apply nonneg_leb. apply (loadCandidates_in_range _ _ _ _ entry Hin).
Qed.

Lemma findCandidateFiles_sorted :
  StronglySorted (notBelow relevanceScore)
    (findCandidateFiles this context keywords).
Proof.
  unfold findCandidateFiles.
  apply sort_sorted; [reflexivity|apply candidate_ordinary].
Qed.

Lemma findCandidateFiles_ordinary :
  Forall (ordinary relevanceScore) (findCandidateFiles this context keywords).
Proof.
  unfold findCandidateFiles.
  apply (Permutation_Forall (Permutation_sym (sort_perm _ _))).
  apply candidate_ordinary.
Qed.

(** X18: [findCandidateFiles] returns its entries by descending relevance
    score: no entry has a score below the score of an entry behind it. *)
Theorem candidates_are_in_descending_order :
  StronglySorted
    (fun a b => (relevanceScore b <=? relevanceScore a) = true)
    (findCandidateFiles this context keywords).
Proof.
  exact findCandidateFiles_sorted.
Qed.

Lemma scorePaths_complete (file : string) :
  In file (filteredFiles context) ->
  (0.3 <? calculateFilePathScore file keywords) = true ->
  In file (map fst (scorePaths context keywords)).
Proof.
  unfold scorePaths. intros Hin Habove.
  assert (Hset : forall (m : JsMap.t (V := float)) k v k',
             k' = k \/ In k' (map fst m) ->
             In k' (map fst (JsMap.set m k v))).
  { induction m as [|[k0 v0] m IH]; simpl; intros k v k' Hk.
    - destruct Hk as [->|[]]. left. reflexivity.
    - destruct (String.eqb_spec k0 k) as [->|Hne]; simpl.
      + destruct Hk as [->|[<-|Hm]]; auto.
      + destruct Hk as [->|[<-|Hm]]; auto. }
  assert (Hloop : forall paths fileScores,
             In file paths \/ In file (map fst fileScores) ->
             In file
               (map fst
                  (fold_left
                     (fun fileScores file =>
                        let score := calculateFilePathScore file keywords in
                        if 0.3 <? score
                        then JsMap.set fileScores file score
                        else fileScores)
                     paths fileScores))).
  { induction paths as [|p paths IH]; intros fileScores Hcase; simpl.
    - destruct Hcase as [[]|Hm]. exact Hm.
    - apply IH. destruct Hcase as [[->|Hp]|Hm].
      + right. cbv zeta. rewrite Habove. apply Hset. left. reflexivity.
      + left. exact Hp.
      + right. cbv zeta.
        destruct (0.3 <? calculateFilePathScore p keywords);
          [apply Hset; right|]; exact Hm. }
  apply Hloop. left. exact Hin.
Qed.

(** X19: the first pass keeps the paths with the highest path scores: a
    candidate path above the threshold that is left out has no path score
    above the score of a path that is kept. *)
Theorem first_pass_keeps_the_highest_scores (kept other : string) :
  In kept (topCandidates this context keywords) ->
  In other (filteredFiles context) ->
  (0.3 <? calculateFilePathScore other keywords) = true ->
  ~ In other (topCandidates this context keywords) ->
  (calculateFilePathScore other keywords
     <=? calculateFilePathScore kept keywords) = true.
Proof.
  unfold topCandidates. rewrite slice_prefix.
  set (sorted := Arr.sort _ _).
  intros Hkept Hother Habove Hout.
  assert (Hentries : forall k v, In (k, v) sorted ->
                                 v = calculateFilePathScore k keywords
                                 /\ (0.3 <? v) = true).
  { intros k v Hin. apply sort_In in Hin.
    destruct (scorePaths_scored context keywords k v Hin) as [_ [Hv Hgt]].
    split; assumption. }
  assert (Hsorted : StronglySorted (notBelow snd) sorted).
  { apply sort_sorted; [reflexivity|].
    apply Forall_forall. intros [k v] Hin. unfold ordinary. simpl.
    destruct (scorePaths_scored context keywords k v Hin) as [_ [_ Hgt]].
    apply above_nonneg. exact Hgt. }
  rewrite <- (firstn_skipn (maxFilesToAnalyze this * 2) sorted) in Hsorted.
  apply in_map_iff in Hkept. destruct Hkept as [[k v] [Hk Hkept]].
  simpl in Hk. subst k.
  assert (Hin : In other (map fst sorted)).
  { apply (Permutation_in other
             (Permutation_map fst (Permutation_sym (sort_perm _ _)))).
    apply scorePaths_complete; assumption. }
  apply in_map_iff in Hin. destruct Hin as [[k w] [Hk Hin]].
  simpl in Hk. subst k.
  rewrite <- (firstn_skipn (maxFilesToAnalyze this * 2) sorted) in Hin.
  apply in_app_or in Hin. destruct Hin as [Hin|Hin].
  - exfalso. apply Hout. apply in_map_iff. exists (other, w). auto.
  - pose proof (sorted_split snd _ _ Hsorted _ _ Hkept Hin) as Horder.
    unfold notBelow in Horder. simpl in Horder.
    destruct (Hentries kept v) as [<- _];
      [apply In_firstn with (1 := Hkept)|].
    destruct (Hentries other w) as [<- _];
      [apply In_skipn with (1 := Hin)|].
    exact Horder.
Qed.

End CandidateOrder.

Section ReturnedOrder.

Local Open Scope float_scope.

Context `{Collaborators}.
Variable this : LLMAnalysisStrategy.
Variable context : AnalysisContext.
Variable keywords : SearchKeywords.

Lemma retained_of_rejected (paths : list FileEntry) :
  (forall file,
      In file paths ->
      exists error,
        analyzeCodeRelevance (issue context) (path file) (content file)
        = Rejected error) ->
  flat_map (retained context) paths = paths.
Proof.
  induction paths as [|file paths IH]; intros Hdown; simpl; [reflexivity|].
  rewrite IH by (intros f Hf; apply Hdown; right; exact Hf).
  destruct (Hdown file (or_introl eq_refl)) as [error Hcall].
  unfold retained, judgment. rewrite Hcall. reflexivity.
Qed.

(** X20: when every call of the inference client fails, [findRelevantFiles]
    returns the first [min 10 maxFilesToAnalyze] entries of
    [findCandidateFiles], unchanged and in the same order. *)
Theorem client_down_returns_the_candidates :
  0 < batchSize this ->
  0 < maxFilesToAnalyze this ->
  (forall file,
      In file (filesToAnalyze this context keywords) ->
      exists error,
        analyzeCodeRelevance (issue context) (path file) (content file)
        = Rejected error) ->
  findRelevantFiles this context keywords
  = Some (Fulfilled
            (firstn (Nat.min 10 (maxFilesToAnalyze this))
               (findCandidateFiles this context keywords))).
Proof.
  intros Hpos Hmax Hdown.
  rewrite (findRelevantFiles_of_retained context keywords this Hpos).
  rewrite (retained_of_rejected _ Hdown).
  assert (Hsame : Arr.sort byRelevanceScore (filesToAnalyze this context keywords)
                  = filesToAnalyze this context keywords).
  { unfold filesToAnalyze. rewrite slice_prefix.
    apply sort_of_sorted with (score := relevanceScore).
    - reflexivity.
    - apply Forall_forall. intros entry Hin. apply In_firstn in Hin.
      revert entry Hin. apply Forall_forall. apply findCandidateFiles_ordinary.
    - apply sorted_firstn. apply findCandidateFiles_sorted. }
  destruct (filesToAnalyze this context keywords) as [|first rest] eqn:Hfiles.
  - unfold filesToAnalyze in Hfiles. rewrite slice_prefix in Hfiles.
    destruct (findCandidateFiles this context keywords) as [|c cs].
    + simpl. rewrite firstn_nil. reflexivity.
    + destruct (maxFilesToAnalyze this); [lia|discriminate].
  - rewrite Hsame, <- Hfiles. unfold filesToAnalyze.
    rewrite slice_prefix, firstn_firstn. reflexivity.
Qed.

(** X21: when the scores the inference client gives to the files it finds
    relevant are not below zero, [findRelevantFiles] returns its entries by
    descending relevance score. *)
Theorem returned_files_are_in_descending_order :
  0 < batchSize this ->
  (forall file llmAnalysis,
      In file (filesToAnalyze this context keywords) ->
      analyzeCodeRelevance (issue context) (path file) (content file)
      = Fulfilled llmAnalysis ->
      is_relevant llmAnalysis = true ->
      (0 <=? relevance_score llmAnalysis) = true) ->
  exists returned,
    findRelevantFiles this context keywords = Some (Fulfilled returned)
    /\ StronglySorted
         (fun a b => (relevanceScore b <=? relevanceScore a) = true)
         returned.
Proof.
  intros Hpos Hscores.
  rewrite (findRelevantFiles_of_retained context keywords this Hpos).
  destruct (flat_map _ _) as [|first analyzed] eqn:Hflat.
  - eexists. split; [reflexivity|].
    apply (sorted_firstn relevanceScore). apply findCandidateFiles_sorted.
  - eexists. split; [reflexivity|].
    apply (sorted_firstn relevanceScore).
    apply sort_sorted; [reflexivity|].
    rewrite <- Hflat. apply Forall_forall. intros entry Hin.
    apply in_flat_map in Hin. destruct Hin as [file [Hfile Hentry]].
    destruct (retained_entry context file entry Hentry)
      as [_ [_ [[-> _]|[llmAnalysis [Hcall [Hrel [Hscore _]]]]]]].
    + assert (Hcandidate : In file (findCandidateFiles this context keywords))
        by (apply slice_In in Hfile; exact Hfile).
      clear Hfile Hentry. revert file Hcandidate. apply Forall_forall.
      apply findCandidateFiles_ordinary.
    + unfold ordinary. rewrite Hscore. apply nonneg_leb.
      apply (Hscores file llmAnalysis Hfile Hcall Hrel).
Qed.

End ReturnedOrder.

Set Implicit Arguments.

(** ** The further properties on the concrete workspaces *)

Section FurtherWitnesses.

Local Open Scope float_scope.

Lemma api_entries_come_from_kept_symbols_witness :
  In (@toApiEntry Example.quiet Scenario.apiContext Example.getUserController)
     (@findRelevantApis Example.quiet Scenario.apiContext Example.keywords)
  /\ In (method (@toApiEntry Example.quiet Scenario.apiContext
                   Example.getUserController)) methodNames
  /\ exists symbols symbol,
      symbolAnalysis Scenario.apiContext = Some symbols
      /\ In symbol symbols
      /\ @toApiEntry Example.quiet Scenario.apiContext Example.getUserController
         = @toApiEntry Example.quiet Scenario.apiContext symbol
      /\ isApiRelated symbol = true
      /\ (0.3 <? @calculateSymbolRelevance Example.quiet symbol Example.keywords)
         = true.
Proof.
  assert (Hin : In (@toApiEntry Example.quiet Scenario.apiContext
                      Example.getUserController)
                   (@findRelevantApis Example.quiet Scenario.apiContext
                      Example.keywords)).
  { vm_compute. left. reflexivity. }
  split; [exact Hin|].
  apply (@api_entries_come_from_kept_symbols Example.quiet Scenario.apiContext
           Example.keywords _ Hin).
Defined.

(** [deletePost] holds the verbs post and delete: post is listed first. *)
Lemma first_listed_verb_wins_witness :
  httpMethods
  = ["get"%string]
      ++ "post"%string
      :: ["put"; "delete"; "patch"; "head"; "options"]%string
  /\ Str.includes
       (Str.toLowerCase
          (name Scenario.deletePost ++ " " ++ qualifiedName Scenario.deletePost))
       "post"
     = true
  /\ (forall m, In m ["get"%string] ->
        Str.includes
          (Str.toLowerCase
             (name Scenario.deletePost ++ " "
                ++ qualifiedName Scenario.deletePost)) m
        = false)
  /\ extractHttpMethod Scenario.deletePost = Some (toUpperCase "post").
Proof.
  assert (Hsplit : httpMethods
                   = ["get"%string]
                       ++ "post"%string
                       :: ["put"; "delete"; "patch"; "head"; "options"]%string)
    by reflexivity.
  assert (Hverb : Str.includes
                    (Str.toLowerCase
                       (name Scenario.deletePost ++ " "
                          ++ qualifiedName Scenario.deletePost)) "post"
                  = true) by reflexivity.
  assert (Hbefore : forall m, In m ["get"%string] ->
             Str.includes
               (Str.toLowerCase
                  (name Scenario.deletePost ++ " "
                     ++ qualifiedName Scenario.deletePost)) m
             = false).
  { intros m [<-|[]]. reflexivity. }
  split; [exact Hsplit|]. split; [exact Hverb|]. split; [exact Hbefore|].
  apply (@first_listed_verb_wins Scenario.deletePost _ _ _ Hsplit Hverb Hbefore).
Defined.

Lemma candidate_is_made_of_its_file_witness :
  In Example.topEntry
     (@findCandidateFiles Example.quiet Example.defaults (Example.context None)
        Example.keywords)
  /\ exists text contentScore,
      @readFile Example.quiet
        (@path_join Example.quiet (workspacePath (Example.context None))
           (path Example.topEntry))
      = Fulfilled text
      /\ text <> ""%string
      /\ content Example.topEntry = String.substring 0 4000 text
      /\ content Example.topEntry <> ""%string
      /\ @calculateContentScore Example.quiet text Example.keywords
         = Fulfilled contentScore
      /\ (0.5 <? calculateFilePathScore (path Example.topEntry) Example.keywords
                 + contentScore) = true
      /\ relevanceScore Example.topEntry
         = Num.min
             ((calculateFilePathScore (path Example.topEntry) Example.keywords
               + contentScore) / 10)
             1.
Proof.
  assert (Hin : In Example.topEntry
                   (@findCandidateFiles Example.quiet Example.defaults
                      (Example.context None) Example.keywords)).
  { vm_compute. left. reflexivity. }
  split; [exact Hin|].
  apply (@candidate_is_made_of_its_file Example.quiet Example.defaults
           (Example.context None) Example.keywords Example.topEntry Hin).
Defined.

Lemma unreadable_file_is_skipped_witness :
  (forall text,
      @readFile Example.quiet
        (@path_join Example.quiet (workspacePath Scenario.withMissing)
           "src/services/missing.ts")
      = Fulfilled text ->
      text = ""%string)
  /\ forall entry,
      In entry (@findCandidateFiles Example.quiet Example.defaults
                  Scenario.withMissing Example.keywords) ->
      path entry <> "src/services/missing.ts"%string.
Proof.
  assert (Hunreadable : forall text,
             @readFile Example.quiet
               (@path_join Example.quiet (workspacePath Scenario.withMissing)
                  "src/services/missing.ts")
             = Fulfilled text ->
             text = ""%string).
  { intros text Hread. vm_compute in Hread. discriminate Hread. }
  split; [exact Hunreadable|].
  apply (@unreadable_file_is_skipped Example.quiet Example.defaults
           Scenario.withMissing Example.keywords _ Hunreadable).
Defined.


Lemma returned_files_come_from_candidates_witness :
  @findRelevantFiles Scenario.helpful Example.defaults (Example.context None)
    Example.keywords
  = Some (Fulfilled
            (map Scenario.judged
               (@findCandidateFiles Scenario.helpful Example.defaults
                  (Example.context None) Example.keywords)))
  /\ In (Scenario.judged Example.topEntry)
        (map Scenario.judged
           (@findCandidateFiles Scenario.helpful Example.defaults
              (Example.context None) Example.keywords))
  /\ exists candidate,
      In candidate
         (@findCandidateFiles Scenario.helpful Example.defaults
            (Example.context None) Example.keywords)
      /\ path (Scenario.judged Example.topEntry) = path candidate
      /\ content (Scenario.judged Example.topEntry) = content candidate
      /\ (Scenario.judged Example.topEntry = candidate
          \/ exists llmAnalysis,
              @analyzeCodeRelevance Scenario.helpful
                (issue (Example.context None)) (path candidate)
                (content candidate)
              = Fulfilled llmAnalysis
              /\ is_relevant llmAnalysis = true
              /\ relevanceScore (Scenario.judged Example.topEntry)
                 = relevance_score llmAnalysis
              /\ file_reason (Scenario.judged Example.topEntry)
                 = Some (reason llmAnalysis)).
Proof.
  assert (Hreturned :
            @findRelevantFiles Scenario.helpful Example.defaults
              (Example.context None) Example.keywords
            = Some (Fulfilled
                      (map Scenario.judged
                         (@findCandidateFiles Scenario.helpful Example.defaults
                            (Example.context None) Example.keywords)))).
  { vm_compute. reflexivity. }
  assert (Hin : In (Scenario.judged Example.topEntry)
                   (map Scenario.judged
                      (@findCandidateFiles Scenario.helpful Example.defaults
                         (Example.context None) Example.keywords))).
  { vm_compute. left. reflexivity. }
  split; [exact Hreturned|]. split; [exact Hin|].
  apply (@returned_files_come_from_candidates Scenario.helpful
           (Example.context None) Example.keywords Example.defaults _
           (Scenario.judged Example.topEntry) Hreturned Hin).
Defined.

Lemma irrelevant_file_returned_only_in_fallback_witness :
  0 < batchSize Example.defaults
  /\ @findRelevantFiles Example.quiet Example.defaults (Example.context None)
       Example.keywords
     = Some (Fulfilled
               (firstn 5
                  (@findCandidateFiles Example.quiet Example.defaults
                     (Example.context None) Example.keywords)))
  /\ In Example.topEntry
        (@filesToAnalyze Example.quiet Example.defaults (Example.context None)
           Example.keywords)
  /\ @analyzeCodeRelevance Example.quiet (issue (Example.context None))
       (path Example.topEntry) (content Example.topEntry)
     = Fulfilled Scenario.unrelated
  /\ is_relevant Scenario.unrelated = false
  /\ In Example.topEntry
        (firstn 5
           (@findCandidateFiles Example.quiet Example.defaults
              (Example.context None) Example.keywords))
  /\ path Example.topEntry = path Example.topEntry
  /\ @llmAnalyzedFiles Example.quiet Example.defaults (Example.context None)
       Example.keywords
     = Some (Fulfilled [])
  /\ firstn 5
       (@findCandidateFiles Example.quiet Example.defaults
          (Example.context None) Example.keywords)
     = firstn 5
         (@findCandidateFiles Example.quiet Example.defaults
            (Example.context None) Example.keywords).
Proof.
  assert (Hpos : 0 < batchSize Example.defaults) by (vm_compute; lia).
  assert (Hreturned :
            @findRelevantFiles Example.quiet Example.defaults
              (Example.context None) Example.keywords
            = Some (Fulfilled
                      (firstn 5
                         (@findCandidateFiles Example.quiet Example.defaults
                            (Example.context None) Example.keywords)))).
  { vm_compute. reflexivity. }
  assert (Hfile : In Example.topEntry
                     (@filesToAnalyze Example.quiet Example.defaults
                        (Example.context None) Example.keywords)).
  { vm_compute. left. reflexivity. }
  assert (Hcall : @analyzeCodeRelevance Example.quiet
                    (issue (Example.context None)) (path Example.topEntry)
                    (content Example.topEntry)
                  = Fulfilled Scenario.unrelated) by reflexivity.
  assert (Hno : is_relevant Scenario.unrelated = false) by reflexivity.
  assert (Hin : In Example.topEntry
                   (firstn 5
                      (@findCandidateFiles Example.quiet Example.defaults
                         (Example.context None) Example.keywords))).
  { vm_compute. left. reflexivity. }
  split; [exact Hpos|]. split; [exact Hreturned|]. split; [exact Hfile|].
  split; [exact Hcall|]. split; [exact Hno|]. split; [exact Hin|].
  split; [reflexivity|].
  apply (@irrelevant_file_returned_only_in_fallback Example.quiet
           (Example.context None) Example.keywords Example.defaults _
           Example.topEntry Example.topEntry _
           Hpos Hreturned Hfile Hcall Hno Hin eq_refl).
Defined.

(** The keyword [c++] is no pattern: nothing to repeat. *)
Lemma bad_pattern_keyword_empties_the_result_witness :
  In "c++"%string (allKeywords Scenario.cxxKeywords)
  /\ (forall subject,
         exists error,
           @matchCount Scenario.strict (Str.toLowerCase "c++") subject
           = Rejected error)
  /\ (forall text,
         exists error,
           @calculateContentScore Scenario.strict text Scenario.cxxKeywords
           = Rejected error)
  /\ @findCandidateFiles Scenario.strict Example.defaults (Example.context None)
       Scenario.cxxKeywords
     = []
  /\ @findRelevantFiles Scenario.strict Example.defaults (Example.context None)
       Scenario.cxxKeywords
     = Some (Fulfilled []).
Proof.
  assert (Hin : In "c++"%string (allKeywords Scenario.cxxKeywords)).
  { right. left. reflexivity. }
  assert (Hbad : forall subject,
             exists error,
               @matchCount Scenario.strict (Str.toLowerCase "c++") subject
               = Rejected error).
  { intros subject. eexists. reflexivity. }
  split; [exact Hin|]. split; [exact Hbad|].
  apply (@bad_pattern_keyword_empties_the_result Scenario.strict
           Example.defaults (Example.context None) Scenario.cxxKeywords
           "c++" Hin Hbad).
Defined.

(** With one file to analyze the first pass keeps two paths; the excluded
    [dist/UserService.js], above the threshold, is left out. *)
Lemma first_pass_keeps_the_highest_scores_witness :
  In "src/utils/logger.ts"%string
     (topCandidates Scenario.narrow (Example.context None) Example.keywords)
  /\ In "dist/UserService.js"%string (filteredFiles (Example.context None))
  /\ (0.3 <? calculateFilePathScore "dist/UserService.js" Example.keywords)
     = true
  /\ ~ In "dist/UserService.js"%string
          (topCandidates Scenario.narrow (Example.context None)
             Example.keywords)
  /\ (calculateFilePathScore "dist/UserService.js" Example.keywords
        <=? calculateFilePathScore "src/utils/logger.ts" Example.keywords)
     = true.
Proof.
  assert (Hkept : In "src/utils/logger.ts"%string
                     (topCandidates Scenario.narrow (Example.context None)
                        Example.keywords)).
  { vm_compute. right. left. reflexivity. }
  assert (Hother : In "dist/UserService.js"%string
                      (filteredFiles (Example.context None))).
  { right. right. left. reflexivity. }
  assert (Habove : (0.3 <? calculateFilePathScore "dist/UserService.js"
                             Example.keywords) = true).
  { vm_compute. reflexivity. }
  assert (Hout : ~ In "dist/UserService.js"%string
                      (topCandidates Scenario.narrow (Example.context None)
                         Example.keywords)).
  { vm_compute. intros [Heq|[Heq|[]]]; discriminate Heq. }
  split; [exact Hkept|]. split; [exact Hother|]. split; [exact Habove|].
  split; [exact Hout|].
  apply (@first_pass_keeps_the_highest_scores Scenario.narrow
           (Example.context None) Example.keywords _ _
           Hkept Hother Habove Hout).
Defined.

Lemma client_down_returns_the_candidates_witness :
  0 < batchSize Example.defaults
  /\ 0 < maxFilesToAnalyze Example.defaults
  /\ (forall file,
         In file (@filesToAnalyze Example.down Example.defaults
                    (Example.context None) Example.keywords) ->
         exists error,
           @analyzeCodeRelevance Example.down (issue (Example.context None))
             (path file) (content file)
           = Rejected error)
  /\ @findRelevantFiles Example.down Example.defaults (Example.context None)
       Example.keywords
     = Some (Fulfilled
               (firstn (Nat.min 10 (maxFilesToAnalyze Example.defaults))
                  (@findCandidateFiles Example.down Example.defaults
                     (Example.context None) Example.keywords))).
Proof.
  assert (Hpos : 0 < batchSize Example.defaults) by (vm_compute; lia).
  assert (Hmax : 0 < maxFilesToAnalyze Example.defaults) by (vm_compute; lia).
  assert (Hdown : forall file,
             In file (@filesToAnalyze Example.down Example.defaults
                        (Example.context None) Example.keywords) ->
             exists error,
               @analyzeCodeRelevance Example.down (issue (Example.context None))
                 (path file) (content file)
               = Rejected error).
  { intros file _. eexists. reflexivity. }
  split; [exact Hpos|]. split; [exact Hmax|]. split; [exact Hdown|].
  apply (@client_down_returns_the_candidates Example.down Example.defaults
           (Example.context None) Example.keywords Hpos Hmax Hdown).
Defined.

Lemma returned_files_are_in_descending_order_witness :
  0 < batchSize Example.defaults
  /\ (forall file llmAnalysis,
         In file (@filesToAnalyze Scenario.helpful Example.defaults
                    (Example.context None) Example.keywords) ->
         @analyzeCodeRelevance Scenario.helpful (issue (Example.context None))
           (path file) (content file)
         = Fulfilled llmAnalysis ->
         is_relevant llmAnalysis = true ->
         (0 <=? relevance_score llmAnalysis) = true)
  /\ exists returned,
      @findRelevantFiles Scenario.helpful Example.defaults
        (Example.context None) Example.keywords
      = Some (Fulfilled returned)
      /\ StronglySorted
           (fun a b => (relevanceScore b <=? relevanceScore a) = true)
           returned.
Proof.
  assert (Hpos : 0 < batchSize Example.defaults) by (vm_compute; lia).
  assert (Hscores : forall file llmAnalysis,
             In file (@filesToAnalyze Scenario.helpful Example.defaults
                        (Example.context None) Example.keywords) ->
             @analyzeCodeRelevance Scenario.helpful
               (issue (Example.context None)) (path file) (content file)
             = Fulfilled llmAnalysis ->
             is_relevant llmAnalysis = true ->
             (0 <=? relevance_score llmAnalysis) = true).
  { intros file llmAnalysis _ Hcall _.
    assert (Heq : llmAnalysis
                  = {| is_relevant := true; relevance_score := 0.9;
                       reason := "mentions the service" |})
      by (simpl in Hcall; unfold Scenario.llmYes in Hcall; congruence).
    rewrite Heq. reflexivity. }
  split; [exact Hpos|]. split; [exact Hscores|].
  apply (@returned_files_are_in_descending_order Scenario.helpful
           Example.defaults (Example.context None) Example.keywords
           Hpos Hscores).
Defined.

Lemma named_verb_makes_an_api_candidate_witness :
  extractHttpMethod Example.getUserController = Some "GET"%string
  /\ isApiRelated Example.getUserController = true
  /\ method (@toApiEntry Example.quiet Scenario.apiContext
               Example.getUserController)
     = "GET"%string
  /\ "GET"%string <> "UNKNOWN"%string.
Proof.
  assert (Hmethod : extractHttpMethod Example.getUserController
                    = Some "GET"%string) by reflexivity.
  split; [exact Hmethod|].
  apply (@named_verb_makes_an_api_candidate Example.quiet Scenario.apiContext
           Example.getUserController "GET" Hmethod).
Defined.

Lemma returned_paths_are_distinct_witness :
  @findRelevantFiles Scenario.helpful Example.defaults (Example.context None)
    Example.keywords
  = Some (Fulfilled
            (map Scenario.judged
               (@findCandidateFiles Scenario.helpful Example.defaults
                  (Example.context None) Example.keywords)))
  /\ NoDup (map path
              (map Scenario.judged
                 (@findCandidateFiles Scenario.helpful Example.defaults
                    (Example.context None) Example.keywords))).
Proof.
  assert (Hreturned :
            @findRelevantFiles Scenario.helpful Example.defaults
              (Example.context None) Example.keywords
            = Some (Fulfilled
                      (map Scenario.judged
                         (@findCandidateFiles Scenario.helpful Example.defaults
                            (Example.context None) Example.keywords)))).
  { vm_compute. reflexivity. }
  split; [exact Hreturned|].
  apply (@returned_paths_are_distinct Scenario.helpful (Example.context None)
           Example.keywords Example.defaults _ Hreturned).
Defined.

End FurtherWitnesses.
